(** * Monitor de Validades: expiration monitoring core of [Monitor.py]

    A shallow embedding of the data pipeline of [Monitor.py] (duration
    parser, temporal and percentual status classifiers, divergence
    detector, timeline classifier, loader de-duplication and joins, and the
    centralized filter engine), with the properties its specification
    states about them.  Further parts follow the same conventions: the
    expected-expiration stage and the processing sequence of the script,
    the audit report, the indicators, the summary sheet of the export, the
    filter state kept in the session, the options of the filter widgets,
    the threshold validation of the sidebar, and the column deletion of
    [Atualizar.py].

    Modelling conventions.
    - A pandas [DataFrame] is its list of column names plus its list of
      rows; a row is a record with one optional field per column, [None]
      standing for [NaN] / [NaT] / a missing cell.  Vectorised column
      operations are written row by row.
    - A [pd.Timestamp] is an integer count of nanoseconds since
      1970-01-01 (unbounded [Z]); [.dt.days] of a difference is the floor
      of the quotient by one day; [.dt.year] is the proleptic Gregorian
      year.
    - Python floats are modelled by exact rationals [Q]: rounding is not
      represented.
    - [df["c"]] on a missing column raises [KeyError]; fallible functions
      return [option].
    - [calcular_status_tempo] works on a copy; the other stages update the
      frame they receive and return it.  Each stage is written as a
      function from the frame before to the frame after; nothing stated
      here depends on the aliasing. *)

From Stdlib Require Import ZArith QArith Lia Ascii Sorted.
From stdpp Require Import base list strings option.

Local Open Scope Z_scope.

(** ** Timestamps and calendar arithmetic *)

Module Dates.

Definition Timestamp : Type := Z.

Definition NS_PER_DAY : Z := 86400000000000.

(** Day number (days since 1970-01-01) of a proleptic Gregorian date. *)
Definition days_from_civil (y m d : Z) : Z :=
  let y' := if m <=? 2 then y - 1 else y in
  let era := y' / 400 in
  let yoe := y' - era * 400 in
  let mp := if 2 <? m then m - 3 else m + 9 in
  let doy := (153 * mp + 2) / 5 + d - 1 in
  let doe := yoe * 365 + yoe / 4 - yoe / 100 + doy in
  era * 146097 + doe - 719468.

(** Gregorian year of a day number. *)
Definition year_of_days (z : Z) : Z :=
  let z' := z + 719468 in
  let era := z' / 146097 in
  let doe := z' - era * 146097 in
  let yoe := (doe - doe / 1460 + doe / 36524 - doe / 146096) / 365 in
  let doy := doe - (365 * yoe + yoe / 4 - yoe / 100) in
  let mp := (5 * doy + 2) / 153 in
  let m := if mp <? 10 then mp + 3 else mp - 9 in
  yoe + era * 400 + (if m <=? 2 then 1 else 0).

(** [pd.Timestamp(date(y, m, d))]: midnight of that day. *)
Definition date (y m d : Z) : Timestamp := days_from_civil y m d * NS_PER_DAY.

(** [ts.year]. *)
Definition dt_year (t : Timestamp) : Z := year_of_days (t / NS_PER_DAY).

(** [(a - b).days]: whole days of a Timedelta, rounded towards minus
    infinity. *)
Definition dt_days (a b : Timestamp) : Z := (a - b) / NS_PER_DAY.

End Dates.

Import Dates.

(** ** Data frames *)

Record DataFrame (R : Type) : Type := mkDataFrame {
  columns : list string;
  rows : list R
}.
Arguments mkDataFrame {R} _ _.
Arguments columns {R} _.
Arguments rows {R} _.

(** [c in df.columns] *)
Definition has_col {R} (c : string) (df : DataFrame R) : bool :=
  bool_decide (c ∈ columns df).

(** Column assignment [df[c] = ...] on the column index: a new name is
    appended, an existing one keeps its place. *)
Definition set_col (c : string) (cols : list string) : list string :=
  if bool_decide (c ∈ cols) then cols else cols ++ [c].

(** [Series.isna()] / [Series.notna()] on one cell. *)
Definition isna {A} (x : option A) : bool :=
  match x with None => true | Some _ => false end.
Definition notna {A} (x : option A) : bool := negb (isna x).

(** [a.fillna(b)] on one cell. *)
Definition fillna {A} (a b : option A) : option A :=
  match a with Some _ => a | None => b end.

(** Comparisons of a numeric cell with a constant: [NaN] compares false. *)
Definition cell_gt (x : option Z) (k : Z) : bool :=
  match x with Some v => bool_decide (k < v) | None => false end.
Definition cell_ge (x : option Z) (k : Z) : bool :=
  match x with Some v => bool_decide (k <= v) | None => false end.
Definition cell_lt (x : option Z) (k : Z) : bool :=
  match x with Some v => bool_decide (v < k) | None => false end.
Definition cell_le (x : option Z) (k : Z) : bool :=
  match x with Some v => bool_decide (v <= k) | None => false end.

(** [np.select(condlist, choicelist, default)] on one row: the choice of
    the first condition that holds. *)
Fixpoint np_select {A} (conds : list bool) (choices : list A) (default : A) : A :=
  match conds, choices with
  | c :: conds', x :: choices' => if c then x else np_select conds' choices' default
  | _, _ => default
  end.

(** ** Integrated records *)

(** One row of the integrated frame built by [carregar_dados] and extended
    by the calculation stages. *)
Record Row : Type := mkRow {
  Planta : option string;
  Deposito : option string;
  Material : option string;
  Descricao : option string;
  Lote : option string;
  Quantidade : option Q;
  UM : option string;
  Movimento : option string;
  Data_de_entrada : option Timestamp;
  Data_de_vencimento : option Timestamp;
  Tempo_de_Validade : option string;
  Dias_Validade : option Q;
  Venc_Esperado : option Timestamp;
  Venc_Analise : option Timestamp;
  Dias_Restantes : option Z;
  Dias_Validade_Total : option Z;
  Status_Tempo : option string;
  Dias_Esperados : option Q;
  Validade_Real : option Z;
  Pct_Restante : option Q;
  Status : option string;
  Desvio_Dias : option Z;
  Tipo_Problema : option string;
  Tem_Problema : option bool
}.

(** [df.get(c, NaT)]: the cell of column [c], or the default when the frame
    has no such column. *)
Definition get_cell {A} (df : DataFrame Row) (c : string) (f : Row -> option A)
    (r : Row) : option A :=
  if has_col c df then f r else None.

(** ** Temporal status ([calcular_status_tempo]) *)

Module StatusTempo.

Definition SEM_VALIDADE : string := "⚪ Sem Validade".
Definition BOM : string := "🟢 Bom (>90 dias)".
Definition ATENCAO : string := "🟡 Atenção (30-90 dias)".
Definition CRITICO : string := "🔴 Crítico (<30 dias)".

Definition choices : list string := [SEM_VALIDADE; BOM; ATENCAO; CRITICO].

(** [notna(d) & (d.dt.year == 2070)] *)
Definition is_2070 (d : option Timestamp) : bool :=
  match d with Some t => bool_decide (dt_year t = 2070) | None => false end.

(** The analysis date of one row.  [venc] and [esp] are the cells read
    with [df.get]; [has_esp] is ["Venc_Esperado" in df.columns]. *)
Definition venc_analise (has_esp : bool) (venc esp : option Timestamp)
    : option Timestamp * option Timestamp :=
  let mask_2070_original := is_2070 venc in
  let venc1 := if mask_2070_original then None else venc in
  let va1 := fillna venc1 esp in
  let va2 := if has_esp then (if is_2070 va1 then None else va1) else va1 in
  let va3 := if mask_2070_original then None else va2 in
  (venc1, va3).

Definition dias_entre (a b : option Timestamp) : option Z :=
  match a, b with
  | Some x, Some y => Some (dt_days x y)
  | _, _ => None
  end.

Definition conds (va ent : option Timestamp) (total : option Z) : list bool :=
  [ isna va || isna ent;
    cell_gt total 90;
    cell_ge total 30;
    cell_ge total 0 ].

Definition status_tempo_row (df : DataFrame Row) (hoje : Timestamp) (r : Row) : Row :=
  let venc0 := get_cell df "Data de vencimento" Data_de_vencimento r in
  let ent := get_cell df "Data de entrada" Data_de_entrada r in
  let esp := get_cell df "Venc_Esperado" Venc_Esperado r in
  let '(venc, va) := venc_analise (has_col "Venc_Esperado" df) venc0 esp in
  let restantes := dias_entre va (Some hoje) in
  let total := dias_entre va ent in
  {| Planta := Planta r; Deposito := Deposito r; Material := Material r;
     Descricao := Descricao r; Lote := Lote r; Quantidade := Quantidade r;
     UM := UM r; Movimento := Movimento r;
     Data_de_entrada := ent;
     Data_de_vencimento := venc;
     Tempo_de_Validade := Tempo_de_Validade r;
     Dias_Validade := Dias_Validade r;
     Venc_Esperado := Venc_Esperado r;
     Venc_Analise := va;
     Dias_Restantes := restantes;
     Dias_Validade_Total := total;
     Status_Tempo := Some (np_select (conds va ent total) choices SEM_VALIDADE);
     Dias_Esperados := Dias_Esperados r;
     Validade_Real := Validade_Real r;
     Pct_Restante := Pct_Restante r;
     Status := Status r;
     Desvio_Dias := Desvio_Dias r;
     Tipo_Problema := Tipo_Problema r;
     Tem_Problema := Tem_Problema r |}.

Definition new_columns : list string :=
  ["Data de vencimento"; "Data de entrada"; "Venc_Analise"; "Dias_Restantes";
   "Dias_Validade_Total"; "Status_Tempo"].

Definition calcular_status_tempo (df : DataFrame Row) (hoje : Timestamp)
    : DataFrame Row :=
  {| columns := foldl (fun cols c => set_col c cols) (columns df) new_columns;
     rows := map (status_tempo_row df hoje) (rows df) |}.

End StatusTempo.


(** ** Percentual status ([calcular_status_percentual]) *)

Module StatusPercentual.

Local Open Scope Q_scope.

Definition SEM_VALIDADE : string := "⚪ Sem Validade".
Definition DENTRO_DO_ESPERADO : string := "✅ Dentro do esperado".
Definition ATENCAO : string := "⚠️ Atenção".
Definition FORA_DO_ESPERADO : string := "❌ Fora do esperado".

Definition DEFAULT_THRESHOLD_GOOD : Q := 90.
Definition DEFAULT_THRESHOLD_WARN : Q := 50.

(** Comparisons of a float cell: [NaN] compares false. *)
Definition q_gt (x : option Q) (k : Q) : bool :=
  match x with Some v => negb (Qle_bool v k) | None => false end.
Definition q_ge (x : option Q) (k : Q) : bool :=
  match x with Some v => Qle_bool k v | None => false end.
Definition q_lt (x : option Q) (k : Q) : bool :=
  match x with Some v => negb (Qle_bool k v) | None => false end.
Definition q_le (x : option Q) (k : Q) : bool :=
  match x with Some v => Qle_bool v k | None => false end.

(** [Series.clip(lower, upper)] on one value: [min(max(x, lower), upper)]. *)
Definition clip (lower upper x : Q) : Q :=
  let y := if Qle_bool lower x then x else lower in
  if Qle_bool y upper then y else upper.

(** Columns read with [df[...]]; a missing one raises [KeyError]. *)
Definition required_columns : list string :=
  ["Venc_Analise"; "Data de entrada"; "Data de vencimento"; "Dias_Validade"].

Definition new_columns : list string :=
  ["Dias_Esperados"; "Dias_Restantes"; "Pct_Restante"; "Validade_Real"; "Status"].

(** [Validade_Real]: days from entry to the real expiration date. *)
Definition validade_real (r : Row) : option Z :=
  if notna (Data_de_entrada r) && notna (Data_de_vencimento r)
  then StatusTempo.dias_entre (Data_de_vencimento r) (Data_de_entrada r)
  else None.

(** [Pct_Restante] before and after clipping. *)
Definition pct_restante (r : Row) : option Q :=
  let vr := validade_real r in
  let mask_calc := notna vr && notna (Dias_Validade r) && q_gt (Dias_Validade r) 0 in
  if mask_calc then
    match vr, Dias_Validade r with
    | Some v, Some d => Some (clip 0 200 (inject_Z v / d * 100))
    | _, _ => None
    end
  else None.

(** The three [df.loc[...] = label] assignments, applied in source order
    over the initial label. *)
Definition status_of (pct : option Q) (limiar_bom limiar_atencao : Q) : string :=
  let s0 := SEM_VALIDADE in
  let s1 := if notna pct && q_ge pct limiar_bom then DENTRO_DO_ESPERADO else s0 in
  let s2 := if notna pct && q_ge pct limiar_atencao && q_lt pct limiar_bom
            then ATENCAO else s1 in
  let s3 := if notna pct && q_lt pct limiar_atencao then FORA_DO_ESPERADO else s2 in
  s3.

Definition status_percentual_row (df : DataFrame Row) (hoje : Timestamp)
    (limiar_bom limiar_atencao : Q) (r : Row) : Row :=
  let esperados0 := get_cell df "Dias_Validade" Dias_Validade r in
  let falt := isna esperados0 || q_le esperados0 0 in
  let esperados :=
    if falt
    then option_map inject_Z (StatusTempo.dias_entre (Venc_Analise r) (Data_de_entrada r))
    else esperados0 in
  let restantes :=
    if has_col "Dias_Restantes" df then Dias_Restantes r
    else StatusTempo.dias_entre (Venc_Analise r) (Some hoje) in
  let pct := pct_restante r in
  {| Planta := Planta r; Deposito := Deposito r; Material := Material r;
     Descricao := Descricao r; Lote := Lote r; Quantidade := Quantidade r;
     UM := UM r; Movimento := Movimento r;
     Data_de_entrada := Data_de_entrada r;
     Data_de_vencimento := Data_de_vencimento r;
     Tempo_de_Validade := Tempo_de_Validade r;
     Dias_Validade := Dias_Validade r;
     Venc_Esperado := Venc_Esperado r;
     Venc_Analise := Venc_Analise r;
     Dias_Restantes := restantes;
     Dias_Validade_Total := Dias_Validade_Total r;
     Status_Tempo := Status_Tempo r;
     Dias_Esperados := esperados;
     Validade_Real := validade_real r;
     Pct_Restante := pct;
     Status := Some (status_of pct limiar_bom limiar_atencao);
     Desvio_Dias := Desvio_Dias r;
     Tipo_Problema := Tipo_Problema r;
     Tem_Problema := Tem_Problema r |}.

Definition calcular_status_percentual (df : DataFrame Row) (hoje : Timestamp)
    (limiar_bom limiar_atencao : Q) : option (DataFrame Row) :=
  if forallb (fun c => has_col c df) required_columns then
    Some {| columns := foldl (fun cols c => set_col c cols) (columns df) new_columns;
            rows := map (status_percentual_row df hoje limiar_bom limiar_atencao)
                        (rows df) |}
  else None.

End StatusPercentual.

(** ** Divergence detector ([identificar_divergencias]) *)

Module Divergencias.

Definition SEM_TEMPO_CADASTRADO : string := "⚠️ Sem Tempo de Validade Cadastrado".
Definition SEM_DATA_REAL : string := "⚠️ Sem Data Real no SQ00".
Definition SEM_TEMPO_PARA_CALCULAR : string := "⚠️ Sem Tempo de Validade para Calcular".
Definition MATERIAL_VENCIDO : string := "🔴 Material Vencido".
Definition DESVIO_CRITICO : string := "⚠️ Desvio Percentual Crítico".

Definition choices : list string :=
  [SEM_TEMPO_CADASTRADO; SEM_DATA_REAL; SEM_TEMPO_PARA_CALCULAR;
   MATERIAL_VENCIDO; DESVIO_CRITICO].

(** The five conditions appended to [conds], in source order.  [has_tempo]
    is ["Tempo de Validade" in df.columns]. *)
Definition conds (has_tempo : bool) (r : Row) : list bool :=
  [ if has_tempo
    then isna (Tempo_de_Validade r)
         && (notna (Data_de_vencimento r) || notna (Venc_Esperado r))
    else false;
    isna (Data_de_vencimento r) && notna (Venc_Esperado r);
    notna (Data_de_vencimento r) && isna (Venc_Esperado r);
    cell_lt (Dias_Restantes r) 0;
    bool_decide (Status r = Some StatusPercentual.FORA_DO_ESPERADO) ].

Definition desvio_dias (r : Row) : option Z :=
  if notna (Data_de_vencimento r) && notna (Venc_Esperado r)
  then StatusTempo.dias_entre (Data_de_vencimento r) (Venc_Esperado r)
  else None.

Definition divergencias_row (has_tempo : bool) (r : Row) : Row :=
  let tipo := np_select (conds has_tempo r) choices "" in
  {| Planta := Planta r; Deposito := Deposito r; Material := Material r;
     Descricao := Descricao r; Lote := Lote r; Quantidade := Quantidade r;
     UM := UM r; Movimento := Movimento r;
     Data_de_entrada := Data_de_entrada r;
     Data_de_vencimento := Data_de_vencimento r;
     Tempo_de_Validade := Tempo_de_Validade r;
     Dias_Validade := Dias_Validade r;
     Venc_Esperado := Venc_Esperado r;
     Venc_Analise := Venc_Analise r;
     Dias_Restantes := Dias_Restantes r;
     Dias_Validade_Total := Dias_Validade_Total r;
     Status_Tempo := Status_Tempo r;
     Dias_Esperados := Dias_Esperados r;
     Validade_Real := Validade_Real r;
     Pct_Restante := Pct_Restante r;
     Status := Status r;
     Desvio_Dias := desvio_dias r;
     Tipo_Problema := Some tipo;
     Tem_Problema := Some (negb (bool_decide (tipo = ""))) |}.

(** Columns read with [df[...]] or through [df.get(...).notna()], which
    fails on the scalar default. *)
Definition required_columns : list string :=
  ["Data de vencimento"; "Venc_Esperado"; "Dias_Restantes"; "Status"].

Definition new_columns : list string :=
  ["Desvio_Dias"; "Tipo_Problema"; "Tem_Problema"].

Definition identificar_divergencias (df : DataFrame Row) : option (DataFrame Row) :=
  if forallb (fun c => has_col c df) required_columns then
    Some {| columns := foldl (fun cols c => set_col c cols) (columns df) new_columns;
            rows := map (divergencias_row (has_col "Tempo de Validade" df)) (rows df) |}
  else None.

End Divergencias.

(** ** Timeline urgency ([calcular_status_timeline]) *)

Module Timeline.

Record TimelineRow : Type := mkTimelineRow {
  Planta : option string;
  Deposito : option string;
  Material : option string;
  Material_Number : option string;
  Lote : option string;
  Expiration_Date : option Timestamp;
  Production_Date : option Timestamp;
  Free_for_Use : option Q;
  Restricted : option Q;
  Dias_ate_Vencimento : option Z;
  Status : option string;
  Urgency_Level : option Z
}.

Definition SEM_VALIDADE : string := "⚪ Sem Validade".
Definition VENCIDO : string := "Vencido".
Definition CRITICO : string := "Crítico".
Definition ATENCAO : string := "Atenção".
Definition NORMAL : string := "Normal".

Definition status_choices : list string :=
  [SEM_VALIDADE; VENCIDO; CRITICO; ATENCAO; NORMAL].

Definition urgency_choices : list Z := [4; 1; 2; 3; 4].

Definition conditions (exp : option Timestamp) (dias : option Z) : list bool :=
  [ isna exp;
    cell_lt dias 0;
    cell_le dias 7;
    cell_le dias 30;
    cell_gt dias 30 ].

Definition with_status (r : TimelineRow) (dias : option Z) (status : string)
    (level : Z) : TimelineRow :=
  {| Planta := Planta r; Deposito := Deposito r; Material := Material r;
     Material_Number := Material_Number r; Lote := Lote r;
     Expiration_Date := Expiration_Date r;
     Production_Date := Production_Date r;
     Free_for_Use := Free_for_Use r; Restricted := Restricted r;
     Dias_ate_Vencimento := dias;
     Status := Some status;
     Urgency_Level := Some level |}.

Definition status_timeline_row (has_exp : bool) (hoje : Timestamp) (r : TimelineRow)
    : TimelineRow :=
  if has_exp then
    let dias := StatusTempo.dias_entre (Expiration_Date r) (Some hoje) in
    let cs := conditions (Expiration_Date r) dias in
    with_status r dias (np_select cs status_choices NORMAL)
                (np_select cs urgency_choices 4)
  else with_status r None SEM_VALIDADE 4.

Definition new_columns : list string :=
  ["Dias até Vencimento"; "Status"; "Urgency_Level"].

Definition calcular_status_timeline (df : DataFrame TimelineRow) (hoje : Timestamp)
    : DataFrame TimelineRow :=
  {| columns := foldl (fun cols c => set_col c cols) (columns df) new_columns;
     rows := map (status_timeline_row (has_col "Expiration Date" df) hoje) (rows df) |}.

End Timeline.

(** ** Text helpers

    A Python [str] is modelled by a [string] whose characters are the code
    points below 256. *)

Module Text.

Definition code (c : ascii) : nat := nat_of_ascii c.

(** [c.isspace()] *)
Definition is_space (c : ascii) : bool :=
  let n := code c in
  ((9 <=? n) && (n <=? 13) || (28 <=? n) && (n <=? 32) || (n =? 133) || (n =? 160))%nat.

(** [\d] *)
Definition is_digit (c : ascii) : bool :=
  let n := code c in ((48 <=? n) && (n <=? 57))%nat.

(** [\w]: alphanumeric code points and the underscore. *)
Definition is_word (c : ascii) : bool :=
  let n := code c in
  (is_digit c
   || (65 <=? n) && (n <=? 90) || (97 <=? n) && (n <=? 122) || (n =? 95)
   || (n =? 170) || (n =? 178) || (n =? 179) || (n =? 181) || (n =? 185)
   || (n =? 186) || (188 <=? n) && (n <=? 190)
   || (192 <=? n) && (n <=? 214) || (216 <=? n) && (n <=? 246)
   || (248 <=? n))%nat.

(** [c.lower()] *)
Definition lower_char (c : ascii) : ascii :=
  let n := code c in
  if ((65 <=? n) && (n <=? 90)
      || (192 <=? n) && (n <=? 222) && negb (n =? 215))%nat
  then ascii_of_nat (n + 32) else c.

Fixpoint map_chars (f : ascii -> ascii) (s : string) : string :=
  match s with
  | EmptyString => EmptyString
  | String c s' => String (f c) (map_chars f s')
  end.

(** [s.lower()] *)
Definition lower (s : string) : string := map_chars lower_char s.

(** [s.lstrip()] *)
Fixpoint lstrip (s : string) : string :=
  match s with
  | EmptyString => EmptyString
  | String c s' => if is_space c then lstrip s' else s
  end.

(** [s.rstrip()] *)
Fixpoint rstrip (s : string) : string :=
  match s with
  | EmptyString => EmptyString
  | String c s' =>
      match rstrip s' with
      | EmptyString => if is_space c then EmptyString else String c EmptyString
      | t => String c t
      end
  end.

(** [s.strip()] *)
Definition strip (s : string) : string := rstrip (lstrip s).

(** [s.replace(a, b)] for single characters. *)
Definition replace_char (a b : ascii) (s : string) : string :=
  map_chars (fun c => if Ascii.eqb c a then b else c) s.

(** [s.startswith(p)], returning the rest of [s] after the prefix. *)
Fixpoint strip_prefix (p s : string) : option string :=
  match p with
  | EmptyString => Some s
  | String a p' =>
      match s with
      | EmptyString => None
      | String b s' => if Ascii.eqb a b then strip_prefix p' s' else None
      end
  end.

(** [p in s] *)
Fixpoint str_in (p s : string) : bool :=
  match strip_prefix p s with
  | Some _ => true
  | None =>
      match s with
      | EmptyString => false
      | String _ s' => str_in p s'
      end
  end.

(** [re.search(r"\bW\b", s)] for a literal [w] made of word characters:
    an occurrence of [w] with no word character just before or just after
    it.  [prev] tells whether the character before [s] is a word
    character. *)
Fixpoint word_search_from (prev : bool) (w s : string) : bool :=
  let here :=
    negb prev &&
    match strip_prefix w s with
    | Some EmptyString => true
    | Some (String c _) => negb (is_word c)
    | None => false
    end in
  if here then true
  else match s with
       | EmptyString => false
       | String c s' => word_search_from (is_word c) w s'
       end.

Definition word_search (w s : string) : bool := word_search_from false w s.

(** [s.endswith(p)] and removal of that suffix: [str.replace(r"\.0$", "",
    regex=True)] on a string that ends in no newline. *)
Fixpoint drop_suffix (p s : string) : string :=
  if String.eqb s p then EmptyString
  else match s with
       | EmptyString => EmptyString
       | String c s' => String c (drop_suffix p s')
       end.

(** [str(x)] of a cell read with [dtype=str]: a missing cell prints as
    ["nan"]. *)
Definition astype_str (x : option string) : string :=
  match x with Some s => s | None => "nan" end.

End Text.

(** ** Duration parser ([parse_tempo_validade_to_days]) *)

Module Parser.

Import Text.

Definition digit_val (c : ascii) : Z := Z.of_nat (code c) - 48.

(** The longest run of digits at the head of [s], and the rest. *)
Fixpoint span_digits (s : string) : string * string :=
  match s with
  | String c s' =>
      if is_digit c then let '(ds, rest) := span_digits s' in (String c ds, rest)
      else (EmptyString, s)
  | EmptyString => (EmptyString, EmptyString)
  end.

(** The match of [[-+]?\d+(\.\d+)?]: sign, integer digits, fraction
    digits. *)
Record NumMatch : Type := mkNumMatch {
  negative : bool;
  int_digits : string;
  frac_digits : string
}.

(** [\d+(\.\d+)?] anchored at the head of [s]. *)
Definition match_unsigned (neg : bool) (s : string) : option NumMatch :=
  match span_digits s with
  | (EmptyString, _) => None
  | (ds, String "." rest) =>
      match span_digits rest with
      | (EmptyString, _) => Some (mkNumMatch neg ds EmptyString)
      | (fs, _) => Some (mkNumMatch neg ds fs)
      end
  | (ds, _) => Some (mkNumMatch neg ds EmptyString)
  end.

(** The pattern anchored at the head of [s]. *)
Definition match_number_at (s : string) : option NumMatch :=
  match s with
  | String "-" s' => match_unsigned true s'
  | String "+" s' => match_unsigned false s'
  | _ => match_unsigned false s
  end.

(** [re.search(r"[-+]?\d+(\.\d+)?", s)]: the leftmost match. *)
Fixpoint re_search_number (s : string) : option NumMatch :=
  match match_number_at s with
  | Some m => Some m
  | None =>
      match s with
      | EmptyString => None
      | String _ s' => re_search_number s'
      end
  end.

Fixpoint digits_value (acc : Z) (s : string) : Z :=
  match s with
  | EmptyString => acc
  | String c s' => digits_value (acc * 10 + digit_val c) s'
  end.

(** [float(m.group(0))] *)
Definition float_of_match (m : NumMatch) : Q :=
  let n := digits_value 0 (int_digits m ++ frac_digits m)%string in
  let scale := Z.to_pos (10 ^ Z.of_nat (String.length (frac_digits m))) in
  (if negative m then - n else n) # scale.

Definition DAYS_PER_MONTH : Q := 30.4375%Q.
Definition DAYS_PER_YEAR : Q := 365%Q.

Definition is_month (s : string) : bool := str_in "mes" s || word_search "mo" s.
Definition is_year (s : string) : bool :=
  str_in "ano" s || str_in "anos" s || str_in "year" s.
Definition is_day (s : string) : bool :=
  str_in "dia" s || str_in "dias" s || word_search "d" s.

(** The text after normalisation: stripped, lower-cased, decimal commas
    replaced by points. *)
Definition normalize (v : string) : string := replace_char "," "." (lower (strip v)).

Definition parse_tempo_validade_to_days (val : option string) : option Q :=
  match val with
  | None => None
  | Some v =>
      let s := lower (strip v) in
      if String.eqb s "" then None
      else
        let s := replace_char "," "." s in
        match re_search_number s with
        | None => None
        | Some m =>
            let num := float_of_match m in
            if is_month s then Some (num * DAYS_PER_MONTH)%Q
            else if is_year s then Some (num * DAYS_PER_YEAR)%Q
            else if is_day s then Some num
            else None
        end
  end.

End Parser.

(** ** Loader: de-duplication and joins ([carregar_dados]) *)

Module Loader.

(** A row of MB51 after column renaming and conversion. *)
Record Mb51Row : Type := mkMb51Row {
  mb_Data_de_entrada : option Timestamp;
  mb_Deposito : option string;
  mb_Material : string;
  mb_Descricao : option string;
  mb_Lote : string;
  mb_Quantidade : option Q;
  mb_UM : option string;
  mb_Movimento : option string;
  mb_Planta : option string
}.

(** A row of SQ00 restricted to its three columns. *)
Record Sq00Row : Type := mkSq00Row {
  sq_Material : string;
  sq_Lote : string;
  sq_Data_de_vencimento : option Timestamp
}.

(** A row of [forn_sel]. *)
Record FornRow : Type := mkFornRow {
  fn_Material : string;
  fn_Tempo_de_Validade : option string
}.

(** [astype(str).str.strip().str.replace(r"\.0$", "", regex=True)] *)
Definition clean_key (cell : option string) : string :=
  Text.drop_suffix ".0" (Text.strip (Text.astype_str cell)).

(** A row of SQ00 from its three cells, with the keys cleaned. *)
Definition sq00_row (material lote : option string) (venc : option Timestamp)
    : Sq00Row :=
  {| sq_Material := clean_key material; sq_Lote := clean_key lote;
     sq_Data_de_vencimento := venc |}.

(** Order of [sort_values]: ascending dates, missing dates last. *)
Definition date_le (a b : option Timestamp) : bool :=
  match a, b with
  | Some x, Some y => bool_decide (x <= y)
  | _, None => true
  | None, Some _ => false
  end.

(** Rows in the order of [sort_values]. *)
Definition sq_le (x y : Sq00Row) : Prop :=
  date_le (sq_Data_de_vencimento x) (sq_Data_de_vencimento y) = true.

Fixpoint insert_sorted (x : Sq00Row) (l : list Sq00Row) : list Sq00Row :=
  match l with
  | [] => [x]
  | y :: l' =>
      if date_le (sq_Data_de_vencimento x) (sq_Data_de_vencimento y)
      then x :: l
      else y :: insert_sorted x l'
  end.

(** [sq00.sort_values("Data de vencimento")], as a stable sort.  Rows of
    SQ00 with equal key and equal date are equal, so the row retained per
    key by [drop_duplicates] below does not depend on how ties are
    ordered. *)
Definition sort_values (l : list Sq00Row) : list Sq00Row :=
  foldr insert_sorted [] l.

Definition sq_key (r : Sq00Row) : string * string := (sq_Material r, sq_Lote r).

(** [drop_duplicates(subset=..., keep="last")] *)
Fixpoint drop_duplicates_last {A K} `{EqDecision K} (key : A -> K) (l : list A)
    : list A :=
  match l with
  | [] => []
  | x :: l' =>
      if bool_decide (key x ∈ map key l')
      then drop_duplicates_last key l'
      else x :: drop_duplicates_last key l'
  end.

(** [drop_duplicates(subset)], which keeps the first occurrence; [seen]
    holds the keys already met. *)
Fixpoint drop_duplicates_first {A K} `{EqDecision K} (key : A -> K) (seen : list K)
    (l : list A) : list A :=
  match l with
  | [] => []
  | x :: l' =>
      if bool_decide (key x ∈ seen)
      then drop_duplicates_first key seen l'
      else x :: drop_duplicates_first key (key x :: seen) l'
  end.

(** The de-duplication step of SQ00. *)
Definition dedup_sq00 (sq00 : list Sq00Row) : list Sq00Row :=
  drop_duplicates_last sq_key (sort_values sq00).

(** [left.merge(right, on=key, how="left")]: every left row, in order,
    paired with each right row of equal key, or with nothing when there is
    none. *)
Definition merge_left {L R O K} `{EqDecision K} (key_l : L -> K) (key_r : R -> K)
    (combine : L -> option R -> O) (left : list L) (right : list R) : list O :=
  flat_map
    (fun l =>
       match filter (fun r => key_r r = key_l l) right with
       | [] => [combine l None]
       | ms => map (fun r => combine l (Some r)) ms
       end)
    left.

Definition mb_key (m : Mb51Row) : string * string := (mb_Material m, mb_Lote m).

(** A row of the frame after both merges. *)
Definition integrated_row (m : Mb51Row) (venc : option Timestamp)
    (tempo : option string) : Row :=
  {| Planta := mb_Planta m; Deposito := mb_Deposito m;
     Material := Some (mb_Material m); Descricao := mb_Descricao m;
     Lote := Some (mb_Lote m); Quantidade := mb_Quantidade m;
     UM := mb_UM m; Movimento := mb_Movimento m;
     Data_de_entrada := mb_Data_de_entrada m;
     Data_de_vencimento := venc;
     Tempo_de_Validade := tempo;
     Dias_Validade := None; Venc_Esperado := None; Venc_Analise := None;
     Dias_Restantes := None; Dias_Validade_Total := None; Status_Tempo := None;
     Dias_Esperados := None; Validade_Real := None; Pct_Restante := None;
     Status := None; Desvio_Dias := None; Tipo_Problema := None;
     Tem_Problema := None |}.

(** Merge 1: MB51 with SQ00 on (Material, Lote). *)
Definition merge1 (mb51 : list Mb51Row) (sq00 : list Sq00Row)
    : list (Mb51Row * option Timestamp) :=
  merge_left mb_key sq_key
    (fun m o => (m, o ≫= sq_Data_de_vencimento)) mb51 sq00.

(** Merge 2: the result with the shelf-life table on Material. *)
Definition merge2 (df : list (Mb51Row * option Timestamp)) (forn : list FornRow)
    : list Row :=
  merge_left (fun p => mb_Material (fst p)) fn_Material
    (fun p o => integrated_row (fst p) (snd p) (o ≫= fn_Tempo_de_Validade)) df forn.

Definition integrated_columns : list string :=
  ["Data de entrada"; "Depósito"; "Material"; "Descrição"; "Lote"; "Quantidade";
   "UM"; "Movimento"; "Planta"; "Data de vencimento"; "Tempo de Validade"].

(** The integration section of [carregar_dados], from the three cleaned
    tables. *)
Definition integrar (mb51 : list Mb51Row) (sq00 : list Sq00Row) (forn_sel : list FornRow)
    : DataFrame Row :=
  let sq00 := dedup_sq00 sq00 in
  let df := merge1 mb51 sq00 in
  let df := merge2 df (drop_duplicates_first fn_Material [] forn_sel) in
  {| columns := integrated_columns; rows := df |}.

End Loader.

(** ** Filter engine ([apply_filters]) *)

Module Filters.

(** The dictionary kept in [st.session_state.filter_state]. *)
Record FilterState : Type := mkFilterState {
  search_query : string;
  depot_filter : list string;
  status_filter_from_chart : option string;
  status_tempo_filter_from_chart : option string;
  problem_type_filter_from_chart : option string;
  audit_deposito : list string;
  audit_movimento : list string;
  audit_material : list string;
  audit_status_pct : list string;
  audit_status_tempo : list string;
  audit_tipo_problema : list string;
  audit_date_range : option (Timestamp * Timestamp);
  timeline_status_filter : list string;
  timeline_depot_filter : list string;
  timeline_status_tempo_filter : list string;
  timeline_selected_month : option string;
  filter_history : list string
}.

(** The value installed by [initialize_filter_state]. *)
Definition initial_filter_state : FilterState :=
  {| search_query := ""; depot_filter := [];
     status_filter_from_chart := None;
     status_tempo_filter_from_chart := None;
     problem_type_filter_from_chart := None;
     audit_deposito := []; audit_movimento := []; audit_material := [];
     audit_status_pct := []; audit_status_tempo := []; audit_tipo_problema := [];
     audit_date_range := None;
     timeline_status_filter := []; timeline_depot_filter := [];
     timeline_status_tempo_filter := []; timeline_selected_month := None;
     filter_history := [] |}.

(** Truth value of a string, of a list and of a string-or-[None]. *)
Definition truthy_str (s : string) : bool := negb (String.eqb s "").
Definition truthy_list {A} (l : list A) : bool :=
  match l with [] => false | _ => true end.
Definition truthy_opt (o : option string) : bool :=
  match o with Some s => truthy_str s | None => false end.

(** [filter_source in [a, b]] *)
Definition source_in (src : string) (l : list string) : bool := bool_decide (src ∈ l).

Definition has_filters (fs : FilterState) (filter_source : string) : bool :=
  (source_in filter_source ["all"; "global"]
   && (truthy_str (search_query fs) || truthy_list (depot_filter fs)))
  || (source_in filter_source ["all"; "chart"]
      && (truthy_opt (status_filter_from_chart fs)
          || truthy_opt (status_tempo_filter_from_chart fs)
          || truthy_opt (problem_type_filter_from_chart fs))).

(** [mask &= m] *)
Definition mask_and (mask m : list bool) : list bool := zip_with andb mask m.

(** [df[mask]]: the rows whose mask entry is true, in order. *)
Fixpoint select_rows {A} (mask : list bool) (l : list A) : list A :=
  match mask, l with
  | b :: mask', x :: l' => if b then x :: select_rows mask' l' else select_rows mask' l'
  | _, _ => []
  end.

(** [column.values == value] on one cell. *)
Definition cell_eq (x : option string) (v : string) : bool := bool_decide (x = Some v).

(** [", ".join(l)] *)
Fixpoint join (sep : string) (l : list string) : string :=
  match l with
  | [] => ""
  | [x] => x
  | x :: l' => x +:+ sep +:+ join sep l'
  end.

(** State threaded through the filter steps: the mask and the
    descriptions appended so far. *)
Definition Acc : Type := list bool * list string.

(** A column read with [df[c]]. *)
Definition column {A} (df : DataFrame Row) (c : string) (f : Row -> A)
    : option (list A) :=
  if has_col c df then Some (map f (rows df)) else None.

(** One equality filter of the chart group. *)
Definition chart_step (df : DataFrame Row) (c : string) (f : Row -> option string)
    (label : string) (value : option string) (acc : Acc) : option Acc :=
  if truthy_opt value then
    let v := default "" value in
    vals ← column df c f;
    Some (mask_and acc.1 (map (fun x => cell_eq x v) vals),
          acc.2 ++ [label +:+ v])
  else Some acc.

(** Step 1: the chart-based filters. *)
Definition chart_filters (fs : FilterState) (df : DataFrame Row)
    (filter_source : string) (acc : Acc) : option Acc :=
  if source_in filter_source ["all"; "chart"] then
    a ← chart_step df "Status" Status "Status: "
          (status_filter_from_chart fs) acc;
    b ← chart_step df "Status_Tempo" Status_Tempo "Temporal Status: "
          (status_tempo_filter_from_chart fs) a;
    if truthy_opt (problem_type_filter_from_chart fs)
    then
      if has_col "Tipo_Problema" df
      then chart_step df "Tipo_Problema" Tipo_Problema "Problem Type: "
             (problem_type_filter_from_chart fs) b
      else Some b
    else Some b
  else Some acc.

(** Step 2: the depot filter. *)
Definition depot_step (fs : FilterState) (df : DataFrame Row)
    (filter_source : string) (acc : Acc) : option Acc :=
  if source_in filter_source ["all"; "global"] then
    if truthy_list (depot_filter fs) then
      deps ← column df "Depósito" Deposito;
      Some (mask_and acc.1
              (map (fun x => bool_decide (x ∈ map Some (depot_filter fs))) deps),
            acc.2 ++ ["Depot: " +:+ join ", " (depot_filter fs)])
    else Some acc
  else Some acc.

Section WithRegex.

(** Python's [re] as used by [Series.str.contains(pat, case=False)]:
    [re_compile pat] is the pattern compiled with [re.IGNORECASE], or
    [None] when compilation raises [re.error]; [re_search p s] tells
    whether [p] matches somewhere in [s]. *)
Context {Pattern : Type}.
Variable re_compile : string -> option Pattern.
Variable re_search : Pattern -> string -> bool.

(** [col.astype(str).str.contains(pat, case=False, na=False).values] *)
Definition str_contains (pat : string) (col : list (option string))
    : option (list bool) :=
  p ← re_compile pat;
  Some (map (fun x => re_search p (Text.astype_str x)) col).

(** Step 3: the search query filter. *)
Definition search_step (fs : FilterState) (df : DataFrame Row)
    (filter_source : string) (acc : Acc) : option Acc :=
  if source_in filter_source ["all"; "global"] then
    if truthy_str (search_query fs) then
      mats ← column df "Material" Material;
      m1 ← str_contains (search_query fs) mats;
      descs ← column df "Descrição" Descricao;
      m2 ← str_contains (search_query fs) descs;
      Some (mask_and acc.1 (zip_with orb m1 m2),
            acc.2 ++ ["Search: '" +:+ search_query fs +:+ "'"])
    else Some acc
  else Some acc.

Definition apply_filters (fs : FilterState) (df : DataFrame Row)
    (filter_source : string) : option (DataFrame Row * list string) :=
  if negb (has_filters fs filter_source) then Some (df, [])
  else
    acc1 ← chart_filters fs df filter_source
              (replicate (length (rows df)) true, []);
    acc2 ← depot_step fs df filter_source acc1;
    acc3 ← search_step fs df filter_source acc2;
    let '(mask, applied_filters) := acc3 in
    if bool_decide (length applied_filters = 0%nat)
    then Some (df, applied_filters)
    else Some ({| columns := columns df; rows := select_rows mask (rows df) |},
               applied_filters).

End WithRegex.

End Filters.

(** ** Helpers for the statements *)

(** A date whose year is 2070 nulled out. *)
Definition scrub (d : option Timestamp) : option Timestamp :=
  if StatusTempo.is_2070 d then None else d.

(** ** Sample data *)

Definition mb51_reagente (entrada : Timestamp) : Loader.Mb51Row :=
  Loader.mkMb51Row (Some entrada) (Some "D001") "100" (Some "Reagente") "A"
    (Some 1%Q) (Some "UN") (Some "101") (Some "P1").

Definition loaded_columns : list string :=
  Loader.integrated_columns ++ ["Dias_Validade"; "Venc_Esperado"].

(** Entry 2024-03-01 with a real expiration date of 2024-01-01. *)
Definition df_negative_span : DataFrame Row :=
  {| columns := loaded_columns;
     rows := [ Loader.integrated_row (mb51_reagente (date 2024 3 1))
                 (Some (date 2024 1 1)) None ] |}.

(** Entry 2024-01-01 with a real expiration date of 2024-01-21. *)
Definition df_short_life : DataFrame Row :=
  {| columns := loaded_columns;
     rows := [ Loader.integrated_row (mb51_reagente (date 2024 1 1))
                 (Some (date 2024 1 21)) None ] |}.

(** A real expiration date in 2070 next to an expected expiration date. *)
Definition df_sentinel : DataFrame Row :=
  {| columns := loaded_columns;
     rows := [ mkRow (Some "P1") (Some "D001") (Some "100") (Some "Reagente")
                 (Some "A") (Some 1%Q) (Some "UN") (Some "101")
                 (Some (date 2024 1 1)) (Some (date 2070 12 31)) (Some "12 meses")
                 (Some 365.25%Q) (Some (date 2024 12 31)) None None None None
                 None None None None None None None ] |}.

(** Entry 2024-01-01, real expiration 2024-02-01 and no declared shelf
    life, as it leaves the loader. *)
Definition df_no_shelf_life : DataFrame Row :=
  {| columns := loaded_columns;
     rows := [ Loader.integrated_row (mb51_reagente (date 2024 1 1))
                 (Some (date 2024 2 1)) None ] |}.

(** The same record after the two status stages run on 2024-06-01. *)
Definition row_no_shelf_life : Row :=
  let hoje := date 2024 6 1 in
  let df1 := StatusTempo.calcular_status_tempo df_no_shelf_life hoje in
  StatusPercentual.status_percentual_row df1 hoje 90 50
    (StatusTempo.status_tempo_row df_no_shelf_life hoje
       (Loader.integrated_row (mb51_reagente (date 2024 1 1))
          (Some (date 2024 2 1)) None)).

Definition df_timeline_sample : DataFrame Timeline.TimelineRow :=
  {| columns := ["Planta"; "Depósito"; "Material"; "Material Number"; "Lote";
                 "Expiration Date"; "Production Date"; "Free for Use"; "Restricted"];
     rows := [ Timeline.mkTimelineRow (Some "P1") (Some "D001") (Some "Reagente")
                 (Some "100") (Some "A") (Some (date 2024 6 3))
                 (Some (date 2023 6 3)) (Some 5%Q) (Some 0%Q) None None None ] |}.

Definition mb51_sample : list Loader.Mb51Row :=
  [ Loader.mkMb51Row (Some (date 2024 1 1)) (Some "D001") "100" (Some "Reagente")
      "A" (Some 1%Q) (Some "UN") (Some "101") (Some "P1");
    Loader.mkMb51Row (Some (date 2024 1 5)) (Some "D002") "200" (Some "Solvente")
      "B" (Some 2%Q) (Some "L") (Some "101") (Some "P1") ].

Definition sq00_sample : list Loader.Sq00Row :=
  [ Loader.mkSq00Row "100" "A" (Some (date 2024 1 1));
    Loader.mkSq00Row "100" "A" (Some (date 2024 3 1));
    Loader.mkSq00Row "300" "C" (Some (date 2025 1 1)) ].

(** The columns that [apply_filters] reads with [df[...]]. *)
Definition filter_columns : list string :=
  ["Status"; "Status_Tempo"; "Depósito"; "Material"; "Descrição"].

(** A regular-expression engine restricted to patterns without
    metacharacters: the compiled pattern is the lower-cased text, matched
    as a substring of the lower-cased subject. *)
Definition literal_compile (pat : string) : option string := Some (Text.lower pat).
Definition literal_search (p s : string) : bool := Text.str_in p (Text.lower s).

(** ** Duration texts of the form "<number> <unit>" *)

Module DurationText.

Inductive Sign : Type := NoSign | Plus | Minus.

(** A signed decimal numeral: sign, integer digits, and fraction digits
    (empty when there is no fraction) after a decimal point or comma. *)
Record Numeral : Type := mkNumeral {
  n_sign : Sign;
  n_int : string;
  n_comma : bool;
  n_frac : string
}.

Fixpoint all_chars (p : ascii -> bool) (s : string) : bool :=
  match s with
  | EmptyString => true
  | String c s' => p c && all_chars p s'
  end.

(** Characters of a numeral: digits, signs, decimal point and comma. *)
Definition num_char (c : ascii) : bool :=
  Text.is_digit c || Ascii.eqb c "+" || Ascii.eqb c "-" || Ascii.eqb c "."
  || Ascii.eqb c ",".

Definition well_formed (n : Numeral) : Prop :=
  all_chars Text.is_digit (n_int n) = true /\ n_int n <> "" /\
  all_chars Text.is_digit (n_frac n) = true.

Definition sign_text (s : Sign) : string :=
  match s with NoSign => "" | Plus => "+" | Minus => "-" end.

Definition frac_text (sep : string) (frac : string) : string :=
  match frac with
  | EmptyString => ""
  | _ => sep +:+ frac
  end.

(** The numeral as written. *)
Definition numeral_text (n : Numeral) : string :=
  sign_text (n_sign n) +:+ n_int n
  +:+ frac_text (if n_comma n then "," else ".") (n_frac n).

(** The number a numeral denotes. *)
Definition numeral_value (n : Numeral) : Q :=
  let i := inject_Z (Parser.digits_value 0 (n_int n)) in
  let f := (inject_Z (Parser.digits_value 0 (n_frac n))
            / inject_Z (10 ^ Z.of_nat (String.length (n_frac n))))%Q in
  match n_sign n with
  | Minus => (- (i + f))%Q
  | _ => (i + f)%Q
  end.

Inductive TimeUnit : Type := Day | Month | Year.

Definition unit_words (u : TimeUnit) : list string :=
  match u with
  | Month => ["mes"; "meses"; "mo"]
  | Year => ["ano"; "anos"; "year"]
  | Day => ["dia"; "dias"; "d"]
  end.

Definition unit_factor (u : TimeUnit) : Q :=
  match u with
  | Day => 1%Q
  | Month => 30.4375%Q
  | Year => 365%Q
  end.

(** The text "<number> <unit>". *)
Definition duration_text (n : Numeral) (w : string) : string :=
  numeral_text n +:+ " " +:+ w.

End DurationText.

(** ** More sample data *)

Definition full_columns : list string :=
  Loader.integrated_columns ++
  ["Dias_Validade"; "Venc_Esperado"; "Venc_Analise"; "Dias_Restantes";
   "Dias_Validade_Total"; "Status_Tempo"; "Dias_Esperados"; "Pct_Restante";
   "Validade_Real"; "Status"].

(** Entry 2024-01-01, real expiration 2024-02-01, declared shelf life of
    100 days, expected expiration 2024-04-10, seen on 2024-06-01. *)
Definition row_short_lived : Row :=
  mkRow (Some "P1") (Some "D001") (Some "100") (Some "Reagente")
    (Some "A") (Some 1%Q) (Some "UN") (Some "101")
    (Some (date 2024 1 1)) (Some (date 2024 2 1)) (Some "100 dias")
    (Some 100%Q) (Some (date 2024 4 10)) (Some (date 2024 2 1)) (Some (-121))
    (Some 31) (Some StatusTempo.ATENCAO)
    (Some 100%Q) (Some 31) (Some 31%Q) (Some StatusPercentual.FORA_DO_ESPERADO)
    None None None.

Definition row_long_lived : Row :=
  mkRow (Some "P1") (Some "D002") (Some "200") (Some "Solvente")
    (Some "B") (Some 2%Q) (Some "L") (Some "101")
    (Some (date 2024 1 1)) (Some (date 2025 1 1)) (Some "12 meses")
    (Some 365.25%Q) (Some (date 2024 12 31)) (Some (date 2025 1 1)) (Some 214)
    (Some 366) (Some StatusTempo.BOM)
    (Some 365.25%Q) (Some 366) (Some (3660000 # 36525)%Q)
    (Some StatusPercentual.DENTRO_DO_ESPERADO)
    None None None.

Definition df_classified : DataFrame Row :=
  {| columns := full_columns; rows := [row_short_lived; row_long_lived] |}.

Definition fs_status_fora : Filters.FilterState :=
  Filters.mkFilterState "" [] (Some StatusPercentual.FORA_DO_ESPERADO) None None
    [] [] [] [] [] [] None [] [] [] None [].

Definition fs_search_only : Filters.FilterState :=
  Filters.mkFilterState "reag" [] None None None
    [] [] [] [] [] [] None [] [] [] None [].
(** ** Unit words, for the statements about the duration parser *)

Module UnitWord.

(** The letters A-Z and a-z. *)
Definition is_letter (c : ascii) : bool :=
  let n := nat_of_ascii c in
  ((65 <=? n) && (n <=? 90) || (97 <=? n) && (n <=? 122))%nat.

(** A letter in lower case. *)
Definition to_lower (c : ascii) : ascii :=
  let n := nat_of_ascii c in
  if ((65 <=? n) && (n <=? 90))%nat then ascii_of_nat (n + 32) else c.

(** A word with its case folded. *)
Fixpoint fold_case (w : string) : string :=
  match w with
  | EmptyString => EmptyString
  | String c w' => String (to_lower c) (fold_case w')
  end.

(** [p] occurs in [s]. *)
Definition contains (p s : string) : Prop := exists a b, s = a +:+ p +:+ b.

(** What a word of letters, in lower case, indicates: a month when it
    contains "mes" or is the word "mo", a year when it contains "ano" or
    "year", a day when it contains "dia" or is the word "d". *)
Definition month_word (lw : string) : Prop := contains "mes" lw \/ lw = "mo".
Definition year_word (lw : string) : Prop := contains "ano" lw \/ contains "year" lw.
Definition day_word (lw : string) : Prop := contains "dia" lw \/ lw = "d".

End UnitWord.
(** ** Expected expiration ([calcular_vencimento_esperado]) and the
    processing sequence of the script *)

Module ExpiryCalc.

(** The largest [pd.Timestamp], in nanoseconds; the smallest is its
    opposite. *)
Definition TIMESTAMP_MAX : Z := 9223372036854775807.

(** [entrada + timedelta] on [datetime64[ns]]: the sum, or a failure when
    it leaves the range of timestamps. *)
Definition add_timedelta (e t : Z) : option Timestamp :=
  let r := e + t in
  if bool_decide (- TIMESTAMP_MAX <= r <= TIMESTAMP_MAX) then Some r else None.

Section WithTimedelta.

(** [pd.to_timedelta(d, unit="D")] of a float number of days, in
    nanoseconds; [None] when it raises [OutOfBoundsTimedelta]. *)
Variable to_timedelta_days : Q -> option Z.

(** The expected expiration of one record: [Some None] is [NaT], [None]
    is a conversion or a sum that raises. *)
Definition venc_esperado (ent : option Timestamp) (dias : option Q)
    : option (option Timestamp) :=
  let mask := notna ent && notna dias && StatusPercentual.q_gt dias 0 in
  if mask then
    match ent, dias with
    | Some e, Some d =>
        t ← to_timedelta_days d;
        r ← add_timedelta e t;
        Some (Some r)
    | _, _ => Some None
    end
  else Some None.

Definition vencimento_esperado_row (df : DataFrame Row) (r : Row) : option Row :=
  let tempo := get_cell df "Tempo de Validade" Tempo_de_Validade r in
  let ent := get_cell df "Data de entrada" Data_de_entrada r in
  let dias := Parser.parse_tempo_validade_to_days tempo in
  esp ← venc_esperado ent dias;
  Some
  {| Planta := Planta r; Deposito := Deposito r; Material := Material r;
     Descricao := Descricao r; Lote := Lote r; Quantidade := Quantidade r;
     UM := UM r; Movimento := Movimento r;
     Data_de_entrada := ent;
     Data_de_vencimento := Data_de_vencimento r;
     Tempo_de_Validade := tempo;
     Dias_Validade := dias;
     Venc_Esperado := esp;
     Venc_Analise := Venc_Analise r;
     Dias_Restantes := Dias_Restantes r;
     Dias_Validade_Total := Dias_Validade_Total r;
     Status_Tempo := Status_Tempo r;
     Dias_Esperados := Dias_Esperados r;
     Validade_Real := Validade_Real r;
     Pct_Restante := Pct_Restante r;
     Status := Status r;
     Desvio_Dias := Desvio_Dias r;
     Tipo_Problema := Tipo_Problema r;
     Tem_Problema := Tem_Problema r |}.

Definition new_columns : list string :=
  ["Tempo de Validade"; "Data de entrada"; "Dias_Validade"; "Venc_Esperado"].

(** The conversion and the sum run on all records of the mask at once:
    one record out of range makes the call raise. *)
Definition calcular_vencimento_esperado (df : DataFrame Row)
    : option (DataFrame Row) :=
  rs ← mapM (vencimento_esperado_row df) (rows df);
  Some {| columns := foldl (fun cols c => set_col c cols) (columns df) new_columns;
          rows := rs |}.

(** The four calculation stages in the order the script applies them to
    the loaded frame. *)
Definition processar (df : DataFrame Row) (hoje : Timestamp)
    (limiar_bom limiar_atencao : Q) : option (DataFrame Row) :=
  df ← calcular_vencimento_esperado df;
  let df := StatusTempo.calcular_status_tempo df hoje in
  df ← StatusPercentual.calcular_status_percentual df hoje limiar_bom limiar_atencao;
  Divergencias.identificar_divergencias df.

End WithTimedelta.

End ExpiryCalc.

(** A conversion of days to nanoseconds that drops the fraction of a
    nanosecond and fails outside the range of [pd.Timedelta], for the
    examples. *)
Definition to_timedelta_floor (d : Q) : option Z :=
  let ns := (Qnum d * NS_PER_DAY) / Z.pos (Qden d) in
  if bool_decide (- ExpiryCalc.TIMESTAMP_MAX <= ns <= ExpiryCalc.TIMESTAMP_MAX)
  then Some ns else None.
(** ** Audit report ([gerar_auditoria]) *)

Module Auditoria.

Definition cols_audit : list string :=
  ["Planta"; "Depósito"; "Material"; "Descrição"; "Lote";
   "Quantidade"; "UM"; "Status"; "Pct_Restante"; "Status_Tempo"; "Tipo_Problema";
   "Data de entrada"; "Data de vencimento"; "Venc_Esperado";
   "Dias_Esperados"; "Dias_Restantes"; "Desvio_Dias"; "Tempo de Validade"].

(** The cell of column [c] once the frame is restricted to [cols]. *)
Definition keep {A} (cols : list string) (c : string) (x : option A) : option A :=
  if bool_decide (c ∈ cols) then x else None.

(** One row of [df[cols]]. *)
Definition project_row (cols : list string) (r : Row) : Row :=
  {| Planta := keep cols "Planta" (Planta r);
     Deposito := keep cols "Depósito" (Deposito r);
     Material := keep cols "Material" (Material r);
     Descricao := keep cols "Descrição" (Descricao r);
     Lote := keep cols "Lote" (Lote r);
     Quantidade := keep cols "Quantidade" (Quantidade r);
     UM := keep cols "UM" (UM r);
     Movimento := keep cols "Movimento" (Movimento r);
     Data_de_entrada := keep cols "Data de entrada" (Data_de_entrada r);
     Data_de_vencimento := keep cols "Data de vencimento" (Data_de_vencimento r);
     Tempo_de_Validade := keep cols "Tempo de Validade" (Tempo_de_Validade r);
     Dias_Validade := keep cols "Dias_Validade" (Dias_Validade r);
     Venc_Esperado := keep cols "Venc_Esperado" (Venc_Esperado r);
     Venc_Analise := keep cols "Venc_Analise" (Venc_Analise r);
     Dias_Restantes := keep cols "Dias_Restantes" (Dias_Restantes r);
     Dias_Validade_Total := keep cols "Dias_Validade_Total" (Dias_Validade_Total r);
     Status_Tempo := keep cols "Status_Tempo" (Status_Tempo r);
     Dias_Esperados := keep cols "Dias_Esperados" (Dias_Esperados r);
     Validade_Real := keep cols "Validade_Real" (Validade_Real r);
     Pct_Restante := keep cols "Pct_Restante" (Pct_Restante r);
     Status := keep cols "Status" (Status r);
     Desvio_Dias := keep cols "Desvio_Dias" (Desvio_Dias r);
     Tipo_Problema := keep cols "Tipo_Problema" (Tipo_Problema r);
     Tem_Problema := keep cols "Tem_Problema" (Tem_Problema r) |}.

(** [df[df["Tem_Problema"]]]: the rows flagged true.  The column must
    exist and hold no missing value. *)
Definition problem_rows (df : DataFrame Row) : option (list Row) :=
  if has_col "Tem_Problema" df then
    if forallb (fun r => notna (Tem_Problema r)) (rows df)
    then Some (filter (fun r => Tem_Problema r = Some true) (rows df))
    else None
  else None.

Definition gerar_auditoria (df : DataFrame Row) : option (DataFrame Row) :=
  df_prob ← problem_rows df;
  match df_prob with
  | [] => Some {| columns := []; rows := [] |}
  | _ =>
      let cols_keep := filter (fun c => c ∈ columns df) cols_audit in
      Some {| columns := cols_keep; rows := map (project_row cols_keep) df_prob |}
  end.

End Auditoria.

(** ** Indicators ([calcular_kpis]) *)

Module KPIs.

Record Kpis : Type := mkKpis {
  total : Z;
  critico_desvio : Z;
  perc_critico_desvio : Q;
  critico_tempo : Z;
  perc_critico_tempo : Q;
  atencao : Z;
  perc_atencao : Q
}.

(** [len(df[df[c] == v])] *)
Definition count_eq (f : Row -> option string) (v : string) (l : list Row) : Z :=
  Z.of_nat (length (filter (fun r => f r = Some v) l)).

(** [(x / total * 100) if total > 0 else 0], as the exact value that
    the floating-point quotient and product round.  For [0 <= x <= total]
    the rounded value has the same sign and the same bound by 100; a sum
    of two of them can exceed the exact sum, so nothing is stated below
    about sums of percentages. *)
Definition perc (x total : Z) : Q :=
  if bool_decide (0 < total)%Z then (inject_Z x / inject_Z total * 100)%Q else 0%Q.

Definition calcular_kpis (df_filtered : DataFrame Row) (hoje : Timestamp)
    (limiar_bom limiar_atencao : Q) : option Kpis :=
  let df_calc :=
    if negb (has_col "Status_Tempo" df_filtered)
    then StatusTempo.calcular_status_tempo df_filtered hoje
    else df_filtered in
  df_calc ← StatusPercentual.calcular_status_percentual df_calc hoje
               limiar_bom limiar_atencao;
  df_calc ← Divergencias.identificar_divergencias df_calc;
  let total := Z.of_nat (length (rows df_filtered)) in
  let critico_desvio :=
    count_eq Status StatusPercentual.FORA_DO_ESPERADO (rows df_calc) in
  let critico_tempo := count_eq Status_Tempo StatusTempo.CRITICO (rows df_calc) in
  let atencao := count_eq Status StatusPercentual.ATENCAO (rows df_calc) in
  Some {| total := total;
          critico_desvio := critico_desvio;
          perc_critico_desvio := perc critico_desvio total;
          critico_tempo := critico_tempo;
          perc_critico_tempo := perc critico_tempo total;
          atencao := atencao;
          perc_atencao := perc atencao total |}.

End KPIs.

(** ** Filter state kept in the session ([initialize_filter_state],
    [get_filter_summary], [clear_specific_filter], [clear_all_filters],
    [has_active_filters], [get_filter_badge_count]) *)

Module Session.
Import Filters.

(** The keys of [st.session_state] that the filter functions read or
    write.  An absent key is [None]; the three chart keys kept for
    backward compatibility hold a string or [None] when present. *)
Record SessionState : Type := mkSessionState {
  filter_state : option FilterState;
  old_status_filter_from_chart : option (option string);
  old_status_tempo_filter_from_chart : option (option string);
  old_problem_type_filter_from_chart : option (option string);
  w_audit_deposito : option (list string);
  w_audit_movimento : option (list string);
  w_audit_material : option (list string);
  w_audit_lote : option (list string);
  w_audit_status_pct : option (list string);
  w_audit_status_tempo : option (list string);
  w_audit_tipo_problema : option (list string);
  date_preset : option string;
  w_audit_date_range : option (Timestamp * Timestamp);
  toggle_problemas : option bool;
  sidebar_search : option string;
  sidebar_depot : option (list string)
}.

(** [filter_state[key] = value] for the five keys that are assigned. *)
Definition set_search_query (v : string) (fs : FilterState) : FilterState :=
  mkFilterState v (depot_filter fs) (status_filter_from_chart fs)
    (status_tempo_filter_from_chart fs) (problem_type_filter_from_chart fs)
    (audit_deposito fs) (audit_movimento fs) (audit_material fs)
    (audit_status_pct fs) (audit_status_tempo fs) (audit_tipo_problema fs)
    (audit_date_range fs) (timeline_status_filter fs) (timeline_depot_filter fs)
    (timeline_status_tempo_filter fs) (timeline_selected_month fs)
    (filter_history fs).

Definition set_depot_filter (v : list string) (fs : FilterState) : FilterState :=
  mkFilterState (search_query fs) v (status_filter_from_chart fs)
    (status_tempo_filter_from_chart fs) (problem_type_filter_from_chart fs)
    (audit_deposito fs) (audit_movimento fs) (audit_material fs)
    (audit_status_pct fs) (audit_status_tempo fs) (audit_tipo_problema fs)
    (audit_date_range fs) (timeline_status_filter fs) (timeline_depot_filter fs)
    (timeline_status_tempo_filter fs) (timeline_selected_month fs)
    (filter_history fs).

Definition set_status_filter_from_chart (v : option string) (fs : FilterState)
    : FilterState :=
  mkFilterState (search_query fs) (depot_filter fs) v
    (status_tempo_filter_from_chart fs) (problem_type_filter_from_chart fs)
    (audit_deposito fs) (audit_movimento fs) (audit_material fs)
    (audit_status_pct fs) (audit_status_tempo fs) (audit_tipo_problema fs)
    (audit_date_range fs) (timeline_status_filter fs) (timeline_depot_filter fs)
    (timeline_status_tempo_filter fs) (timeline_selected_month fs)
    (filter_history fs).

Definition set_status_tempo_filter_from_chart (v : option string) (fs : FilterState)
    : FilterState :=
  mkFilterState (search_query fs) (depot_filter fs) (status_filter_from_chart fs)
    v (problem_type_filter_from_chart fs)
    (audit_deposito fs) (audit_movimento fs) (audit_material fs)
    (audit_status_pct fs) (audit_status_tempo fs) (audit_tipo_problema fs)
    (audit_date_range fs) (timeline_status_filter fs) (timeline_depot_filter fs)
    (timeline_status_tempo_filter fs) (timeline_selected_month fs)
    (filter_history fs).

Definition set_problem_type_filter_from_chart (v : option string) (fs : FilterState)
    : FilterState :=
  mkFilterState (search_query fs) (depot_filter fs) (status_filter_from_chart fs)
    (status_tempo_filter_from_chart fs) v
    (audit_deposito fs) (audit_movimento fs) (audit_material fs)
    (audit_status_pct fs) (audit_status_tempo fs) (audit_tipo_problema fs)
    (audit_date_range fs) (timeline_status_filter fs) (timeline_depot_filter fs)
    (timeline_status_tempo_filter fs) (timeline_selected_month fs)
    (filter_history fs).

(** [st.session_state.filter_state = fs] *)
Definition set_filter_state (fs : FilterState) (s : SessionState) : SessionState :=
  mkSessionState (Some fs) (old_status_filter_from_chart s)
    (old_status_tempo_filter_from_chart s) (old_problem_type_filter_from_chart s)
    (w_audit_deposito s) (w_audit_movimento s) (w_audit_material s) (w_audit_lote s)
    (w_audit_status_pct s) (w_audit_status_tempo s) (w_audit_tipo_problema s)
    (date_preset s) (w_audit_date_range s) (toggle_problemas s)
    (sidebar_search s) (sidebar_depot s).

(** [if key in st.session_state and st.session_state.key is not None:
    filter_state[key] = st.session_state.key] *)
Definition sync_old (old : option (option string))
    (set : option string -> FilterState -> FilterState) (fs : FilterState)
    : FilterState :=
  match old with
  | Some (Some v) => set (Some v) fs
  | _ => fs
  end.

Definition initialize_filter_state (s : SessionState) : SessionState :=
  let fs := default initial_filter_state (filter_state s) in
  let fs := sync_old (old_status_filter_from_chart s) set_status_filter_from_chart fs in
  let fs := sync_old (old_status_tempo_filter_from_chart s)
              set_status_tempo_filter_from_chart fs in
  let fs := sync_old (old_problem_type_filter_from_chart s)
              set_problem_type_filter_from_chart fs in
  set_filter_state fs s.

(** [l.append(x)] under [if c]. *)
Definition append_if {A} (c : bool) (x : A) (l : list A) : list A :=
  if c then l ++ [x] else l.

Definition global_filters (fs : FilterState) : list string :=
  append_if (truthy_list (depot_filter fs))
    ("Depot: " +:+ join ", " (depot_filter fs))
    (append_if (truthy_str (search_query fs))
       ("Search: '" +:+ search_query fs +:+ "'") []).

Definition chart_filters (fs : FilterState) : list string :=
  append_if (truthy_opt (problem_type_filter_from_chart fs))
    ("Problem Type: " +:+ default "" (problem_type_filter_from_chart fs))
    (append_if (truthy_opt (status_tempo_filter_from_chart fs))
       ("Temporal Status: " +:+ default "" (status_tempo_filter_from_chart fs))
       (append_if (truthy_opt (status_filter_from_chart fs))
          ("Status: " +:+ default "" (status_filter_from_chart fs)) [])).

(** The summary dictionary, as its items in insertion order.  Reading
    [st.session_state.filter_state] fails when the key is absent. *)
Definition get_filter_summary (s : SessionState)
    : option (list (string * list string)) :=
  fs ← filter_state s;
  let summary := [] in
  let summary :=
    append_if (truthy_list (global_filters fs))
      ("Global Filters", global_filters fs) summary in
  let summary :=
    append_if (truthy_list (chart_filters fs))
      ("Chart Filters", chart_filters fs) summary in
  Some summary.

(** [s.split(':')[0]] *)
Fixpoint split_head (s : string) : string :=
  match s with
  | EmptyString => EmptyString
  | String c s' => if Ascii.eqb c ":" then EmptyString else String c (split_head s')
  end.

(** The key that the summary panel passes to [clear_specific_filter] for
    an entry: [filter_text.split(':')[0].strip()]. *)
Definition filter_key_of (filter_text : string) : string :=
  Text.strip (split_head filter_text).

(** [if key in st.session_state: st.session_state.key = v] *)
Definition reset_if_present {A} (v : A) (x : option A) : option A :=
  match x with Some _ => Some v | None => None end.

Definition clear_specific_filter (category filter_key : string) (s : SessionState)
    : option SessionState :=
  fs ← filter_state s;
  if String.eqb category "Global Filters" then
    if Text.str_in "Search" filter_key
    then Some (set_filter_state (set_search_query "" fs) s)
    else if Text.str_in "Depot" filter_key
    then Some (set_filter_state (set_depot_filter [] fs) s)
    else Some s
  else if String.eqb category "Chart Filters" then
    if Text.str_in "Status" filter_key && negb (Text.str_in "Temporal" filter_key)
    then
      Some (mkSessionState (Some (set_status_filter_from_chart None fs))
              (reset_if_present None (old_status_filter_from_chart s))
              (old_status_tempo_filter_from_chart s)
              (old_problem_type_filter_from_chart s)
              (w_audit_deposito s) (w_audit_movimento s) (w_audit_material s)
              (w_audit_lote s) (w_audit_status_pct s) (w_audit_status_tempo s)
              (w_audit_tipo_problema s) (date_preset s) (w_audit_date_range s)
              (toggle_problemas s) (sidebar_search s) (sidebar_depot s))
    else if Text.str_in "Temporal Status" filter_key
    then
      Some (mkSessionState (Some (set_status_tempo_filter_from_chart None fs))
              (old_status_filter_from_chart s)
              (reset_if_present None (old_status_tempo_filter_from_chart s))
              (old_problem_type_filter_from_chart s)
              (w_audit_deposito s) (w_audit_movimento s) (w_audit_material s)
              (w_audit_lote s) (w_audit_status_pct s) (w_audit_status_tempo s)
              (w_audit_tipo_problema s) (date_preset s) (w_audit_date_range s)
              (toggle_problemas s) (sidebar_search s) (sidebar_depot s))
    else if Text.str_in "Problem Type" filter_key
    then
      Some (mkSessionState (Some (set_problem_type_filter_from_chart None fs))
              (old_status_filter_from_chart s)
              (old_status_tempo_filter_from_chart s)
              (reset_if_present None (old_problem_type_filter_from_chart s))
              (w_audit_deposito s) (w_audit_movimento s) (w_audit_material s)
              (w_audit_lote s) (w_audit_status_pct s) (w_audit_status_tempo s)
              (w_audit_tipo_problema s) (date_preset s) (w_audit_date_range s)
              (toggle_problemas s) (sidebar_search s) (sidebar_depot s))
    else Some s
  else Some s.

Definition clear_all_filters (s : SessionState) : SessionState :=
  {| filter_state := Some initial_filter_state;
     old_status_filter_from_chart :=
       reset_if_present None (old_status_filter_from_chart s);
     old_status_tempo_filter_from_chart :=
       reset_if_present None (old_status_tempo_filter_from_chart s);
     old_problem_type_filter_from_chart :=
       reset_if_present None (old_problem_type_filter_from_chart s);
     w_audit_deposito := reset_if_present [] (w_audit_deposito s);
     w_audit_movimento := reset_if_present [] (w_audit_movimento s);
     w_audit_material := reset_if_present [] (w_audit_material s);
     w_audit_lote := reset_if_present [] (w_audit_lote s);
     w_audit_status_pct := reset_if_present [] (w_audit_status_pct s);
     w_audit_status_tempo := reset_if_present [] (w_audit_status_tempo s);
     w_audit_tipo_problema := reset_if_present [] (w_audit_tipo_problema s);
     date_preset := reset_if_present "Tudo" (date_preset s);
     w_audit_date_range := None;
     toggle_problemas := None;
     sidebar_search := reset_if_present "" (sidebar_search s);
     sidebar_depot := reset_if_present [] (sidebar_depot s) |}.

(** [key in st.session_state and st.session_state[key]] *)
Definition widget_active (w : option (list string)) : bool :=
  match w with Some l => truthy_list l | None => false end.

Definition audit_widget_keys (s : SessionState) : list (option (list string)) :=
  [ w_audit_deposito s; w_audit_movimento s; w_audit_material s; w_audit_lote s;
    w_audit_status_pct s; w_audit_status_tempo s; w_audit_tipo_problema s ].

Definition has_active_filters (s : SessionState) : option bool :=
  fs ← filter_state s;
  if truthy_str (search_query fs) then Some true
  else if truthy_list (depot_filter fs) then Some true
  else if truthy_opt (status_filter_from_chart fs) then Some true
  else if truthy_opt (status_tempo_filter_from_chart fs) then Some true
  else if truthy_opt (problem_type_filter_from_chart fs) then Some true
  else if existsb widget_active (audit_widget_keys s) then Some true
  else match date_preset s with
       | Some p => if negb (String.eqb p "Tudo") then Some true else Some false
       | None => Some false
       end.

(** [len(df[df[c] == filter_value])] for the column that [filter_type]
    names, and 0 for another type or an absent column. *)
Definition get_filter_badge_count (df : DataFrame Row) (filter_type filter_value : string)
    : Z :=
  let count (f : Row -> option string) :=
    Z.of_nat (length (filter (fun r => f r = Some filter_value) (rows df))) in
  if String.eqb filter_type "status" && has_col "Status" df then count Status
  else if String.eqb filter_type "status_tempo" && has_col "Status_Tempo" df
  then count Status_Tempo
  else if String.eqb filter_type "depot" && has_col "Depósito" df
  then count Deposito
  else if String.eqb filter_type "problem_type" && has_col "Tipo_Problema" df
  then count Tipo_Problema
  else 0.

End Session.
(** ** Helpers for the statements about filters *)

Module FilterSpec.
Import Filters.

(** The descriptions of the predicates of [fs] that are active in the
    scope [src], in the order chart, depot, search; [has_tipo] tells
    whether the frame has the column ["Tipo_Problema"]. *)
Definition descriptions (fs : FilterState) (has_tipo : bool) (src : string)
    : list string :=
  (if source_in src ["all"; "chart"] then
     (if truthy_opt (status_filter_from_chart fs)
      then ["Status: " +:+ default "" (status_filter_from_chart fs)] else []) ++
     (if truthy_opt (status_tempo_filter_from_chart fs)
      then ["Temporal Status: " +:+ default "" (status_tempo_filter_from_chart fs)]
      else []) ++
     (if truthy_opt (problem_type_filter_from_chart fs) && has_tipo
      then ["Problem Type: " +:+ default "" (problem_type_filter_from_chart fs)]
      else [])
   else []) ++
  (if source_in src ["all"; "global"] && truthy_list (depot_filter fs)
   then ["Depot: " +:+ join ", " (depot_filter fs)] else []) ++
  (if source_in src ["all"; "global"] && truthy_str (search_query fs)
   then ["Search: '" +:+ search_query fs +:+ "'"] else []).

Section WithRegex.
Context {Pattern : Type}.
Variable re_compile : string -> option Pattern.
Variable re_search : Pattern -> string -> bool.

(** A record satisfies every predicate of [fs] that is active in the
    scope [src]. *)
Definition passes (fs : FilterState) (has_tipo : bool) (src : string) (r : Row)
    : Prop :=
  let chart := source_in src ["all"; "chart"] in
  let glob := source_in src ["all"; "global"] in
  (chart = true -> truthy_opt (status_filter_from_chart fs) = true ->
     Status r = status_filter_from_chart fs) /\
  (chart = true -> truthy_opt (status_tempo_filter_from_chart fs) = true ->
     Status_Tempo r = status_tempo_filter_from_chart fs) /\
  (chart = true -> truthy_opt (problem_type_filter_from_chart fs) = true ->
     has_tipo = true -> Tipo_Problema r = problem_type_filter_from_chart fs) /\
  (glob = true -> truthy_list (depot_filter fs) = true ->
     exists d, Deposito r = Some d /\ d ∈ depot_filter fs) /\
  (glob = true -> truthy_str (search_query fs) = true ->
     exists p, re_compile (search_query fs) = Some p /\
       re_search p (Text.astype_str (Material r))
       || re_search p (Text.astype_str (Descricao r)) = true).

End WithRegex.

End FilterSpec.
(** ** Options of the filter widgets ([get_unique_values]) *)

Module UniqueValues.

(** [Series.dropna()] *)
Definition dropna {A} (l : list (option A)) : list A := omap id l.

(** [Series.unique()]: the distinct values in order of first
    appearance. *)
Definition unique (l : list string) : list string :=
  Loader.drop_duplicates_first id [] l.

(** Order of Python strings. *)
Definition str_le (a b : string) : bool := String.leb a b.

Fixpoint insert_sorted (x : string) (l : list string) : list string :=
  match l with
  | [] => [x]
  | y :: l' => if str_le x y then x :: l else y :: insert_sorted x l'
  end.

(** [sorted(l)] *)
Definition sorted (l : list string) : list string := foldr insert_sorted [] l.

(** [get_unique_values(df, column)] for a column of strings read by the
    accessor [f]. *)
Definition get_unique_values (df : DataFrame Row) (column : string)
    (f : Row -> option string) : list string :=
  if negb (has_col column df) then []
  else sorted (unique (dropna (map f (rows df)))).

End UniqueValues.
(** ** Summary sheet of the export ([multi_to_excel_bytes]) *)

Module Resumo.

(** The counts written to the sheet "Resumo", in source order.  The
    formatted text of "% Problemas" is not represented. *)
Record Valores : Type := mkValores {
  total_de_itens : Z;
  itens_com_problema : Z;
  dentro_do_esperado : Z;
  atencao : Z;
  fora_do_esperado : Z;
  sem_validade : Z;
  critico_tempo : Z;
  atencao_tempo : Z;
  bom_tempo : Z;
  sem_validade_tempo : Z
}.

(** The sheets are written in order.  Before "Resumo" the sheet
    "Timeline Vencimentos" reads ["Venc_Analise"] of [df_monitor] and,
    when some record has an analysis date, aggregates ["Material"] and
    ["Quantidade"]; a column that is missing there raises before the
    counts are written. *)
Definition resumo (df_monitor df_audit : DataFrame Row) : option Valores :=
  if has_col "Venc_Analise" df_monitor then
    let df_timeline := filter (fun r => Venc_Analise r <> None) (rows df_monitor) in
    if match df_timeline with
       | [] => true
       | _ => has_col "Material" df_monitor && has_col "Quantidade" df_monitor
       end
    then
      if has_col "Status" df_monitor && has_col "Status_Tempo" df_monitor then
        let l := rows df_monitor in
        Some {| total_de_itens := Z.of_nat (length l);
                itens_com_problema := Z.of_nat (length (rows df_audit));
                dentro_do_esperado :=
                  KPIs.count_eq Status StatusPercentual.DENTRO_DO_ESPERADO l;
                atencao := KPIs.count_eq Status StatusPercentual.ATENCAO l;
                fora_do_esperado :=
                  KPIs.count_eq Status StatusPercentual.FORA_DO_ESPERADO l;
                sem_validade := KPIs.count_eq Status StatusPercentual.SEM_VALIDADE l;
                critico_tempo := KPIs.count_eq Status_Tempo StatusTempo.CRITICO l;
                atencao_tempo := KPIs.count_eq Status_Tempo StatusTempo.ATENCAO l;
                bom_tempo := KPIs.count_eq Status_Tempo StatusTempo.BOM l;
                sem_validade_tempo :=
                  KPIs.count_eq Status_Tempo StatusTempo.SEM_VALIDADE l |}
      else None
    else None
  else None.

End Resumo.

(** ** Thresholds of the sidebar *)

Module Limiares.

(** The value of [limiar_atencao] after the validation that follows the
    two sliders: [if limiar_atencao >= limiar_bom: limiar_atencao =
    max(0, limiar_bom - 30)]. *)
Definition validar (limiar_bom limiar_atencao : Z) : Z :=
  if bool_decide (limiar_atencao >= limiar_bom)
  then Z.max 0 (limiar_bom - 30)
  else limiar_atencao.

End Limiares.

(** ** Post-processing of the exported sheets ([Atualizar.py]) *)

Module Planilha.

(** An openpyxl worksheet: the cell at a row and a column, both counted
    from 1, or [None] where the sheet has no cell. *)
Definition Worksheet : Type := nat -> nat -> option string.

(** [c.upper()] on the letters a-z. *)
Definition upper_char (c : ascii) : ascii :=
  let n := Text.code c in
  if ((97 <=? n) && (n <=? 122))%nat then ascii_of_nat (n - 32) else c.

Definition is_upper_letter (c : ascii) : bool :=
  let n := Text.code c in ((65 <=? n) && (n <=? 90))%nat.

(** Value of a string of letters read in base 26 with A = 1. *)
Fixpoint letters_value (acc : nat) (s : string) : option nat :=
  match s with
  | EmptyString => Some acc
  | String c s' =>
      let u := upper_char c in
      if is_upper_letter u
      then letters_value (acc * 26 + (Text.code u - 64)) s'
      else None
  end.

(** [openpyxl.utils.column_index_from_string]: defined on one to three
    letters, [ValueError] otherwise. *)
Definition column_index_from_string (col : string) : option nat :=
  if ((1 <=? String.length col) && (String.length col <=? 3))%nat
  then letters_value 0 col else None.

(** [ws.delete_cols(idx)]: the cells right of column [idx] move one
    column to the left. *)
Definition delete_cols (idx : nat) (ws : Worksheet) : Worksheet :=
  fun r c => if (c <? idx)%nat then ws r c else ws r (S c).

(** The loop over [colunas_excluir]; [None] when a column name is
    rejected. *)
Fixpoint excluir (colunas_excluir : list string) (ws : Worksheet) : option Worksheet :=
  match colunas_excluir with
  | [] => Some ws
  | col :: rest =>
      idx ← column_index_from_string col;
      excluir rest (delete_cols idx ws)
  end.

(** The sheet saved by a post-processing function: the result of the
    loop, or the sheet as it was when the loop raised. *)
Definition tratar (colunas_excluir : list string) (ws : Worksheet) : Worksheet :=
  default ws (excluir colunas_excluir ws).

Definition tratar_planilha_mb51 : Worksheet -> Worksheet :=
  tratar ["AA"; "Z"; "Y"; "X"; "W"; "U"; "T"; "S"; "R"; "Q"; "P"; "N"; "M"; "F"; "E";
          "D"; "C"; "B"].

Definition tratar_planilha_sq00 : Worksheet -> Worksheet :=
  tratar ["O"; "N"; "M"; "L"; "K"; "J"; "I"; "H"].

Definition tratar_planilha_venc : Worksheet -> Worksheet :=
  tratar ["O"; "N"; "K"; "J"; "I"; "H"].

End Planilha.
(** ** Further sample data *)

Definition forn_sample : list Loader.FornRow :=
  [ Loader.mkFornRow "100" (Some "100 dias");
    Loader.mkFornRow "200" (Some "12 meses");
    Loader.mkFornRow "100" (Some "2 anos") ].

(** The frame as it leaves the loader. *)
Definition df_loaded : DataFrame Row :=
  Loader.integrar mb51_sample sq00_sample forn_sample.

Definition hoje_sample : Timestamp := date 2024 6 1.

(** The loaded frame after the processing sequence run on 2024-06-01 with
    the default thresholds. *)
Definition df_processed : DataFrame Row :=
  default df_loaded
    (ExpiryCalc.processar to_timedelta_floor df_loaded hoje_sample 90 50).

(** Entry 2024-01-01 with a declared shelf life of 300 years, more than
    a time span can hold. *)
Definition df_out_of_range : DataFrame Row :=
  {| columns := loaded_columns;
     rows := [ Loader.integrated_row (mb51_reagente (date 2024 1 1))
                 (Some (date 2024 2 1)) (Some "300 anos") ] |}.

(** A filter state with a search text, a depot and a chart status. *)
Definition fs_three : Filters.FilterState :=
  Filters.mkFilterState "reag" ["D001"] (Some StatusPercentual.ATENCAO) None None
    [] [] [] [] [] [] None [] [] [] None [].

(** A session holding that state, the chart status also under its key
    kept for backward compatibility, and two widgets of the audit tab. *)
Definition session_sample : Session.SessionState :=
  Session.mkSessionState (Some fs_three) (Some (Some StatusPercentual.ATENCAO))
    (Some None) None (Some ["D001"]) None None None None None None
    (Some "Últimos 30 dias") None (Some true) (Some "reag") (Some ["D001"]).

(** Two timeline records, expiring on 2024-06-03 and on 2024-07-15. *)
Definition df_timeline_two : DataFrame Timeline.TimelineRow :=
  {| columns := ["Planta"; "Depósito"; "Material"; "Material Number"; "Lote";
                 "Expiration Date"; "Production Date"; "Free for Use"; "Restricted"];
     rows := [ Timeline.mkTimelineRow (Some "P1") (Some "D001") (Some "Reagente")
                 (Some "100") (Some "A") (Some (date 2024 6 3))
                 (Some (date 2023 6 3)) (Some 5%Q) (Some 0%Q) None None None;
               Timeline.mkTimelineRow (Some "P1") (Some "D002") (Some "Solvente")
                 (Some "200") (Some "B") (Some (date 2024 7 15))
                 (Some (date 2023 7 15)) (Some 3%Q) (Some 0%Q) None None None ] |}.
(** * Properties *)

(** ** Shared lemmas *)

Lemma lookup_map {A B} (f : A -> B) (l : list A) (i : nat) :
  map f l !! i = f <$> (l !! i).
Proof. exact (list_lookup_fmap f l i). Qed.

Lemma elem_of_map {A B} (f : A -> B) (l : list A) (y : B) :
  y ∈ map f l <-> exists x, y = f x /\ x ∈ l.
Proof. exact (list_elem_of_fmap f l y). Qed.

(** [np_select] returns the choice of the first condition that holds. *)
Lemma np_select_first {A} (conds : list bool) (choices : list A) (d x : A) (k : nat) :
  conds !! k = Some true ->
  (forall j, (j < k)%nat -> conds !! j = Some false) ->
  choices !! k = Some x ->
  np_select conds choices d = x.
Proof.
  revert choices k. induction conds as [|c conds IH]; intros [|y choices] k Hk Hlt Hx;
    try (rewrite lookup_nil in Hk; discriminate);
    try (rewrite lookup_nil in Hx; discriminate).
  destruct k as [|k]; simpl in *.
  - inversion Hk; subst. congruence.
  - assert (c = false) as -> by (specialize (Hlt 0%nat ltac:(lia)); simpl in Hlt; congruence).
    apply (IH choices k); auto.
    intros j Hj. apply (Hlt (S j)). lia.
Qed.

(** When no condition holds, [np_select] returns the default. *)
Lemma np_select_default {A} (conds : list bool) (choices : list A) (d : A) :
  (forall j c, conds !! j = Some c -> c = false) ->
  np_select conds choices d = d.
Proof.
  revert choices. induction conds as [|c conds IH]; intros [|y choices] H; try reflexivity.
  simpl. rewrite (H 0%nat c eq_refl). apply IH. intros j c' Hj. exact (H (S j) c' Hj).
Qed.

(** [np_select] returns the default or the choice of a condition that
    holds. *)
Lemma np_select_cases {A} (conds : list bool) (choices : list A) (d : A) :
  np_select conds choices d = d \/
  exists k x, conds !! k = Some true /\ choices !! k = Some x /\
              np_select conds choices d = x.
Proof.
  revert choices. induction conds as [|c conds IH]; intros [|y choices]; auto.
  simpl. destruct c.
  - right. exists 0%nat, y. auto.
  - destruct (IH choices) as [Hd | (k & x & Hk & Hx & Hsel)]; [left; exact Hd|].
    right. exists (S k), x. auto.
Qed.

(** ** Temporal status *)

Section StatusTempoFacts.
Import StatusTempo.

Lemma rows_calcular_status_tempo df hoje i :
  rows (calcular_status_tempo df hoje) !! i = status_tempo_row df hoje <$> (rows df !! i).
Proof. apply lookup_map. Qed.

(** The label chosen by the four conditions, as a function of the two
    dates. *)
Lemma status_tempo_cases (va ent : option Timestamp) :
  np_select (conds va ent (dias_entre va ent)) choices SEM_VALIDADE =
  match va, ent with
  | Some a, Some e =>
      if bool_decide (90 < dt_days a e) then BOM
      else if bool_decide (30 <= dt_days a e) then ATENCAO
      else if bool_decide (0 <= dt_days a e) then CRITICO
      else SEM_VALIDADE
  | _, _ => SEM_VALIDADE
  end.
Proof. destruct va, ent; reflexivity. Qed.

Lemma status_tempo_row_fields df hoje r :
  let r' := status_tempo_row df hoje r in
  Dias_Validade_Total r' = dias_entre (Venc_Analise r') (Data_de_entrada r') /\
  Dias_Restantes r' = dias_entre (Venc_Analise r') (Some hoje) /\
  Status_Tempo r' =
    Some (np_select (conds (Venc_Analise r') (Data_de_entrada r')
                       (Dias_Validade_Total r')) choices SEM_VALIDADE).
Proof.
  unfold status_tempo_row.
  destruct (venc_analise _ _ _) as [venc va]. simpl. auto.
Qed.

End StatusTempoFacts.

Section StatusTempoClaims.
Import StatusTempo.

(** C1, as stated, fails: a record whose analysis expiration and entry date
    are both present, with a total shelf life of -60 days, is labelled
    "Sem Validade" and not "Crítico". *)
Lemma status_tempo_negative_span_counterexample :
  ~ (forall (df : DataFrame Row) (hoje : Timestamp) (i : nat) (r' : Row),
        rows (calcular_status_tempo df hoje) !! i = Some r' ->
        (Status_Tempo r' = Some SEM_VALIDADE <->
           Venc_Analise r' = None \/ Data_de_entrada r' = None) /\
        (forall a e, Venc_Analise r' = Some a -> Data_de_entrada r' = Some e ->
           Status_Tempo r' =
             Some (if bool_decide (90 < dt_days a e) then BOM
                   else if bool_decide (30 <= dt_days a e) then ATENCAO
                   else CRITICO))).
Proof.
  intros H.
  destruct (H df_negative_span (date 2024 6 1) 0%nat
              (status_tempo_row df_negative_span (date 2024 6 1)
                 (Loader.integrated_row (mb51_reagente (date 2024 3 1))
                    (Some (date 2024 1 1)) None)) eq_refl) as [[Hunk _] _].
  destruct (Hunk eq_refl) as [Hva | Hent];
    [vm_compute in Hva | vm_compute in Hent]; discriminate.
Qed.

(** C1 (amended): for every record of the frame returned by
    [calcular_status_tempo], TotalShelfLifeDays is AnalysisExpiration minus
    EntryDate; TimeStatus is Unknown ("Sem Validade") if and only if
    AnalysisExpiration or EntryDate is absent or TotalShelfLifeDays is
    negative; and when both dates are present the first matching rule gives
    Good for more than 90 days, Warning for 30 to 90 days and Critical for 0
    to 29 days. *)
Theorem status_tempo_classification (df : DataFrame Row) (hoje : Timestamp)
    (i : nat) (r : Row) :
  rows df !! i = Some r ->
  exists r', rows (calcular_status_tempo df hoje) !! i = Some r' /\
    Dias_Validade_Total r' = dias_entre (Venc_Analise r') (Data_de_entrada r') /\
    (Status_Tempo r' = Some SEM_VALIDADE <->
       Venc_Analise r' = None \/ Data_de_entrada r' = None \/
       exists t, Dias_Validade_Total r' = Some t /\ t < 0) /\
    (forall t, Dias_Validade_Total r' = Some t ->
       (90 < t -> Status_Tempo r' = Some BOM) /\
       (30 <= t <= 90 -> Status_Tempo r' = Some ATENCAO) /\
       (0 <= t < 30 -> Status_Tempo r' = Some CRITICO) /\
       (t < 0 -> Status_Tempo r' = Some SEM_VALIDADE)).
Proof.
  intros Hr. exists (status_tempo_row df hoje r).
  split; [rewrite rows_calcular_status_tempo, Hr; reflexivity|].
  destruct (status_tempo_row_fields df hoje r) as (Htot & _ & Hst).
  set (r' := status_tempo_row df hoje r) in *.
  rewrite Htot in Hst. rewrite status_tempo_cases in Hst.
  split; [exact Htot|]. rewrite Htot, Hst.
  destruct (Venc_Analise r') as [a|], (Data_de_entrada r') as [e|]; simpl.
  2-4: (split; [split; [auto|reflexivity]|intros t Ht; discriminate]).
  split.
  - split.
    + intros Heq. right. right. exists (dt_days a e). split; [reflexivity|].
      repeat case_bool_decide; try lia; inversion Heq.
    + intros [Hc | [Hc | (t & Ht & Hneg)]]; try discriminate.
      inversion Ht; subst t. repeat case_bool_decide; try lia; reflexivity.
  - intros t Ht. inversion Ht; subst t.
    repeat split; intros; repeat case_bool_decide; try lia; reflexivity.
Qed.

Lemma status_tempo_classification_witness :
  exists r', rows (calcular_status_tempo df_short_life (date 2024 6 1)) !! 0%nat = Some r' /\
    Dias_Validade_Total r' = Some 20 /\ Status_Tempo r' = Some CRITICO.
Proof.
  destruct (status_tempo_classification df_short_life (date 2024 6 1) 0%nat _ eq_refl)
    as (r' & Hr' & Htot & _ & Hcls).
  exists r'. split; [exact Hr'|].
  assert (Dias_Validade_Total r' = Some 20) as H20
    by (vm_compute in Hr'; inversion Hr'; reflexivity).
  split; [exact H20|].
  apply (Hcls 20 H20). lia.
Defined.

(** The two outputs of [venc_analise] in closed form. *)
Lemma venc_analise_scrub (has_esp : bool) (venc esp : option Timestamp) :
  (has_esp = false -> esp = None) ->
  let va := if is_2070 venc then None else fillna (scrub venc) (scrub esp) in
  venc_analise has_esp venc esp = (scrub venc, va) /\ is_2070 va = false.
Proof.
  intros Hesp. unfold venc_analise, scrub.
  destruct (is_2070 venc) eqn:Hv; [split; reflexivity|].
  destruct venc as [v|]; cbn [fillna].
  - rewrite Hv. destruct has_esp; split; auto.
  - destruct has_esp.
    + destruct (is_2070 esp) eqn:He; rewrite ?He; split; auto.
    + rewrite (Hesp eq_refl). split; reflexivity.
Qed.

(** C2: for every record, the real expiration date kept by
    [calcular_status_tempo] is the original one with a year-2070 date
    nulled out, and the analysis expiration is the scrubbed real date if
    present, else the scrubbed expected date, so it never has year 2070; a
    record whose original real expiration date has year 2070 has no
    analysis expiration, whatever its expected expiration, and its
    TimeStatus is Unknown. *)
Theorem sentinel_2070_nulled (df : DataFrame Row) (hoje : Timestamp)
    (i : nat) (r : Row) :
  rows df !! i = Some r ->
  let venc0 := get_cell df "Data de vencimento" Data_de_vencimento r in
  let esp := get_cell df "Venc_Esperado" Venc_Esperado r in
  exists r', rows (calcular_status_tempo df hoje) !! i = Some r' /\
    Data_de_vencimento r' = scrub venc0 /\
    Venc_Analise r' =
      (if is_2070 venc0 then None else fillna (scrub venc0) (scrub esp)) /\
    is_2070 (Venc_Analise r') = false /\
    (is_2070 venc0 = true ->
       Venc_Analise r' = None /\ Status_Tempo r' = Some SEM_VALIDADE).
Proof.
  intros Hr venc0 esp. exists (status_tempo_row df hoje r).
  split; [rewrite rows_calcular_status_tempo, Hr; reflexivity|].
  assert (has_col "Venc_Esperado" df = false -> esp = None) as Hesp
    by (intros Hc; unfold esp, get_cell; rewrite Hc; reflexivity).
  destruct (venc_analise_scrub (has_col "Venc_Esperado" df) venc0 esp Hesp)
    as (Hva & Hno).
  unfold status_tempo_row. fold venc0. fold esp. rewrite Hva. simpl.
  split; [reflexivity|]. split; [reflexivity|]. split; [exact Hno|].
  intros Hv. rewrite Hv. split; reflexivity.
Qed.

Lemma sentinel_2070_nulled_witness :
  exists r', rows (calcular_status_tempo df_sentinel (date 2024 6 1)) !! 0%nat = Some r' /\
    Venc_Esperado r' = Some (date 2024 12 31) /\
    Venc_Analise r' = None /\ Status_Tempo r' = Some SEM_VALIDADE.
Proof.
  destruct (sentinel_2070_nulled df_sentinel (date 2024 6 1) 0%nat _ eq_refl)
    as (r' & Hr' & _ & _ & _ & H2070).
  exists r'. split; [exact Hr'|].
  split; [vm_compute in Hr'; inversion Hr'; reflexivity|].
  apply H2070. reflexivity.
Defined.

End StatusTempoClaims.

(** ** Percentual status *)

Section StatusPercentualClaims.
Import StatusPercentual.
Local Open Scope Q_scope.

Lemma clip_bounds (lower upper x : Q) :
  lower <= upper -> lower <= clip lower upper x /\ clip lower upper x <= upper.
Proof.
  intros Hlu. unfold clip.
  destruct (Qle_bool lower x) eqn:H1.
  - apply Qle_bool_iff in H1.
    destruct (Qle_bool x upper) eqn:H2.
    + apply Qle_bool_iff in H2. split; assumption.
    + split; [assumption | apply Qle_refl].
  - destruct (Qle_bool lower upper) eqn:H2.
    + split; [apply Qle_refl | assumption].
    + split; [assumption | apply Qle_refl].
Qed.

Lemma clip_cases (lower upper x : Q) :
  lower <= upper ->
  (lower <= x <= upper -> clip lower upper x = x) /\
  (x < lower -> clip lower upper x = lower) /\
  (upper < x -> clip lower upper x = upper).
Proof.
  intros Hlu. unfold clip. repeat split.
  - intros [H1 H2]. apply Qle_bool_iff in H1, H2. rewrite H1, H2. reflexivity.
  - intros H. destruct (Qle_bool lower x) eqn:H1.
    + apply Qle_bool_iff in H1. exfalso. exact (Qlt_not_le _ _ H H1).
    + apply Qle_bool_iff in Hlu. rewrite Hlu. reflexivity.
  - intros H. assert (lower <= x) as H1 by (apply Qlt_le_weak; eapply Qle_lt_trans; eauto).
    apply Qle_bool_iff in H1. rewrite H1.
    destruct (Qle_bool x upper) eqn:H2; [|reflexivity].
    apply Qle_bool_iff in H2. exfalso. exact (Qlt_not_le _ _ H H2).
Qed.

Lemma q_gt_iff (x : option Q) (k : Q) :
  q_gt x k = true <-> exists v, x = Some v /\ k < v.
Proof.
  unfold q_gt. destruct x as [v|].
  - rewrite negb_true_iff. split.
    + intros H. exists v. split; [reflexivity|].
      apply Qnot_le_lt. intros Hle. apply Qle_bool_iff in Hle. congruence.
    + intros (v' & Hv & Hlt). inversion Hv; subst v'.
      destruct (Qle_bool v k) eqn:H; [|reflexivity].
      apply Qle_bool_iff in H. exfalso. exact (Qlt_not_le _ _ Hlt H).
  - split; [discriminate | intros (v & Hv & _); discriminate].
Qed.

Lemma rows_calcular_status_percentual df hoje lb la :
  forallb (fun c => has_col c df) required_columns = true ->
  exists df', calcular_status_percentual df hoje lb la = Some df' /\
    forall i, rows df' !! i = status_percentual_row df hoje lb la <$> (rows df !! i).
Proof.
  intros Hreq. unfold calcular_status_percentual. rewrite Hreq.
  eexists. split; [reflexivity|]. intros i. apply lookup_map.
Qed.

(** C5: for every record of the frame returned by
    [calcular_status_percentual] (which is returned whenever the columns it
    reads exist), RealShelfLifeDays is the real expiration date minus the
    entry date when both are present; PercentConformance is defined if and
    only if RealShelfLifeDays is present, ShelfLifeDays is present and
    ShelfLifeDays > 0; when defined it equals
    (RealShelfLifeDays / ShelfLifeDays) * 100 clamped to [0, 200], and so
    lies in [0, 200]. *)
Theorem pct_restante_clamped (df : DataFrame Row) (hoje : Timestamp)
    (limiar_bom limiar_atencao : Q) :
  forallb (fun c => has_col c df) required_columns = true ->
  exists df', calcular_status_percentual df hoje limiar_bom limiar_atencao = Some df' /\
    forall i r, rows df !! i = Some r ->
    exists r', rows df' !! i = Some r' /\
      Validade_Real r' =
        StatusTempo.dias_entre (Data_de_vencimento r') (Data_de_entrada r') /\
      (Pct_Restante r' <> None <->
         Validade_Real r' <> None /\
         exists d, Dias_Validade r' = Some d /\ 0 < d) /\
      (forall v d, Validade_Real r' = Some v -> Dias_Validade r' = Some d -> 0 < d ->
         Pct_Restante r' = Some (clip 0 200 (inject_Z v / d * 100))) /\
      (forall p, Pct_Restante r' = Some p -> 0 <= p <= 200) /\
      (forall x : Q,
         (0 <= x <= 200 -> clip 0 200 x = x) /\
         (x < 0 -> clip 0 200 x = 0) /\
         (200 < x -> clip 0 200 x = 200)).
Proof.
  intros Hreq.
  destruct (rows_calcular_status_percentual df hoje limiar_bom limiar_atencao Hreq)
    as (df' & Hdf' & Hrows).
  exists df'. split; [exact Hdf'|]. intros i r Hr.
  exists (status_percentual_row df hoje limiar_bom limiar_atencao r).
  split; [rewrite Hrows, Hr; reflexivity|].
  unfold status_percentual_row; cbn [Validade_Real Pct_Restante Dias_Validade
    Data_de_vencimento Data_de_entrada].
  assert (validade_real r = StatusTempo.dias_entre (Data_de_vencimento r) (Data_de_entrada r))
    as Hvr.
  { unfold validade_real.
    destruct (Data_de_entrada r), (Data_de_vencimento r); reflexivity. }
  split; [exact Hvr|].
  assert (forall v d, validade_real r = Some v -> Dias_Validade r = Some d -> 0 < d ->
            pct_restante r = Some (clip 0 200 (inject_Z v / d * 100))) as Hdef.
  { intros v d Hv Hd Hpos. unfold pct_restante. rewrite Hv, Hd.
    assert (q_gt (Some d) 0 = true) as -> by (apply q_gt_iff; eauto).
    reflexivity. }
  assert (0 <= 200) as H0200 by (vm_compute; discriminate).
  split; [|split; [exact Hdef|split]].
  - split.
    + intros Hp. unfold pct_restante in Hp.
      destruct (validade_real r) as [v|]; [|contradiction].
      destruct (Dias_Validade r) as [d|]; [|contradiction].
      cbn [notna isna negb andb] in Hp.
      destruct (q_gt (Some d) 0) eqn:Hgt; [|contradiction].
      apply q_gt_iff in Hgt as (d' & Hd' & Hpos). inversion Hd'; subst d'.
      split; [discriminate | eauto].
    + intros (Hv & d & Hd & Hpos).
      destruct (validade_real r) as [v|] eqn:Hv'; [|contradiction].
      rewrite (Hdef v d eq_refl Hd Hpos). discriminate.
  - intros p Hp. unfold pct_restante in Hp.
    destruct (validade_real r) as [v|]; [|discriminate].
    destruct (Dias_Validade r) as [d|]; [|discriminate].
    cbn [notna isna negb andb] in Hp.
    destruct (q_gt (Some d) 0); [|discriminate].
    inversion Hp; subst p. apply clip_bounds, H0200.
  - intros x. apply clip_cases, H0200.
Qed.

End StatusPercentualClaims.

(** ** Divergence detector *)

Section DivergenciasClaims.
Import Divergencias.

Lemma rows_identificar_divergencias df :
  forallb (fun c => has_col c df) required_columns = true ->
  exists df', identificar_divergencias df = Some df' /\
    forall i, rows df' !! i =
      divergencias_row (has_col "Tempo de Validade" df) <$> (rows df !! i).
Proof.
  intros Hreq. unfold identificar_divergencias. rewrite Hreq.
  eexists. split; [reflexivity|]. intros i. apply lookup_map.
Qed.

Lemma choices_nonempty (k : nat) (tag : string) :
  choices !! k = Some tag -> tag <> "".
Proof.
  do 5 (destruct k as [|k]; [intros H; inversion H; discriminate|]).
  discriminate.
Qed.

(** The sample record without declared shelf life is what the two status
    stages produce from the loaded frame. *)
Lemma row_no_shelf_life_from_pipeline :
  StatusPercentual.calcular_status_percentual
    (StatusTempo.calcular_status_tempo df_no_shelf_life (date 2024 6 1))
    (date 2024 6 1) 90 50
  = Some {| columns := full_columns; rows := [row_no_shelf_life] |} /\
  conds true row_no_shelf_life = [true; false; true; true; false].
Proof. split; vm_compute; reflexivity. Qed.

(** C3, as stated, fails: a record without declared shelf life, with a real
    expiration date already past and no expected expiration, satisfies
    conditions 3 and 4 (and 1), and is tagged with condition 1's tag, not
    condition 3's. *)
Lemma divergencias_adjacent_counterexample :
  ~ (forall (has_tempo : bool) (r : Row) (k : nat) (tag : string),
        conds has_tempo r !! k = Some true ->
        conds has_tempo r !! S k = Some true ->
        choices !! k = Some tag ->
        Tipo_Problema (divergencias_row has_tempo r) = Some tag).
Proof.
  intros H.
  specialize (H true row_no_shelf_life 2%nat SEM_TEMPO_PARA_CALCULAR
                eq_refl eq_refl eq_refl).
  vm_compute in H. discriminate.
Qed.

(** C3 (amended): for every record of the frame returned by
    [identificar_divergencias] (which is returned whenever the columns it
    reads exist), ProblemType is the tag of the first of the five
    conditions, in the order of 4.5, that the record satisfies, and
    HasProblem is true; in particular when conditions k and k+1 both hold
    and no earlier condition does, the tag is condition k's; when no
    condition holds ProblemType is empty and HasProblem is false; so a
    record carries exactly one tag or none. *)
Theorem divergencias_first_match (df : DataFrame Row) :
  forallb (fun c => has_col c df) required_columns = true ->
  exists df', identificar_divergencias df = Some df' /\
    forall i r, rows df !! i = Some r ->
    exists r', rows df' !! i = Some r' /\
      let cs := conds (has_col "Tempo de Validade" df) r in
      (forall k tag,
         cs !! k = Some true ->
         (forall j, (j < k)%nat -> cs !! j = Some false) ->
         choices !! k = Some tag ->
         Tipo_Problema r' = Some tag /\ Tem_Problema r' = Some true) /\
      (forall k tag,
         cs !! k = Some true -> cs !! S k = Some true ->
         (forall j, (j < k)%nat -> cs !! j = Some false) ->
         choices !! k = Some tag ->
         Tipo_Problema r' = Some tag) /\
      ((forall k c, cs !! k = Some c -> c = false) ->
         Tipo_Problema r' = Some "" /\ Tem_Problema r' = Some false) /\
      (Tipo_Problema r' = Some "" \/
       exists k tag, cs !! k = Some true /\ choices !! k = Some tag /\
                     Tipo_Problema r' = Some tag).
Proof.
  intros Hreq. destruct (rows_identificar_divergencias df Hreq) as (df' & Hdf' & Hrows).
  exists df'. split; [exact Hdf'|]. intros i r Hr.
  exists (divergencias_row (has_col "Tempo de Validade" df) r).
  split; [rewrite Hrows, Hr; reflexivity|].
  set (has_tempo := has_col "Tempo de Validade" df).
  intros cs. unfold divergencias_row; cbn [Tipo_Problema Tem_Problema]. fold cs.
  assert (forall k tag, cs !! k = Some true ->
            (forall j, (j < k)%nat -> cs !! j = Some false) ->
            choices !! k = Some tag -> np_select cs choices "" = tag) as Hfirst
    by (intros k tag; apply np_select_first).
  split; [|split; [|split]].
  - intros k tag Hk Hlt Htag. rewrite (Hfirst k tag Hk Hlt Htag).
    split; [reflexivity|]. rewrite bool_decide_eq_false_2; [reflexivity|].
    eapply choices_nonempty; eauto.
  - intros k tag Hk _ Hlt Htag. rewrite (Hfirst k tag Hk Hlt Htag). reflexivity.
  - intros Hnone. rewrite np_select_default by exact Hnone. split; reflexivity.
  - destruct (np_select_cases cs choices "") as [Hd | (k & tag & Hk & Htag & Hsel)].
    + left. rewrite Hd. reflexivity.
    + right. exists k, tag. rewrite Hsel. auto.
Qed.

End DivergenciasClaims.

(** ** Timeline urgency *)

Section TimelineClaims.
Import Timeline.

Lemma rows_calcular_status_timeline df hoje i :
  rows (calcular_status_timeline df hoje) !! i =
  status_timeline_row (has_col "Expiration Date" df) hoje <$> (rows df !! i).
Proof. apply lookup_map. Qed.

(** C8: for every record of the frame returned by
    [calcular_status_timeline] and every caller-supplied [hoje]: when the
    expiration date is absent, DaysUntilExpiration is undefined and the
    status is Unknown with level 4; otherwise DaysUntilExpiration is the
    expiration date minus [hoje] in days and the first matching rule gives
    Expired (level 1) below 0, Critical (level 2) up to 7, Warning
    (level 3) up to 30 and Normal (level 4) above; with [hoje] =
    2024-06-01 and an expiration date of 2024-06-03 this is 2 days,
    Critical, level 2. *)
Theorem timeline_classification :
  (forall (df : DataFrame TimelineRow) (hoje : Timestamp) (i : nat) (r : TimelineRow),
     rows df !! i = Some r ->
     exists r', rows (calcular_status_timeline df hoje) !! i = Some r' /\
       match (if has_col "Expiration Date" df then Expiration_Date r else None) with
       | None =>
           Dias_ate_Vencimento r' = None /\
           Status r' = Some SEM_VALIDADE /\ Urgency_Level r' = Some 4
       | Some e =>
           let d := dt_days e hoje in
           Dias_ate_Vencimento r' = Some d /\
           (d < 0 -> Status r' = Some VENCIDO /\ Urgency_Level r' = Some 1) /\
           (0 <= d <= 7 -> Status r' = Some CRITICO /\ Urgency_Level r' = Some 2) /\
           (7 < d <= 30 -> Status r' = Some ATENCAO /\ Urgency_Level r' = Some 3) /\
           (30 < d -> Status r' = Some NORMAL /\ Urgency_Level r' = Some 4)
       end) /\
  (forall r : TimelineRow,
     Expiration_Date r = Some (date 2024 6 3) ->
     let r' := status_timeline_row true (date 2024 6 1) r in
     Dias_ate_Vencimento r' = Some 2 /\
     Status r' = Some CRITICO /\ Urgency_Level r' = Some 2).
Proof.
  split.
  - intros df hoje i r Hr.
    exists (status_timeline_row (has_col "Expiration Date" df) hoje r).
    split; [rewrite rows_calcular_status_timeline, Hr; reflexivity|].
    unfold status_timeline_row.
    destruct (has_col "Expiration Date" df); [|repeat split; reflexivity].
    destruct (Expiration_Date r) as [e|]; [|repeat split; reflexivity].
    cbn [StatusTempo.dias_entre with_status Dias_ate_Vencimento Status Urgency_Level].
    unfold conditions, cell_lt, cell_le, cell_gt.
    cbn [isna np_select status_choices urgency_choices].
    split; [reflexivity|].
    repeat split; intros; repeat case_bool_decide; try lia; reflexivity.
  - intros r He r'. subst r'. unfold status_timeline_row. rewrite He.
    repeat split; reflexivity.
Qed.

Lemma timeline_classification_witness :
  exists r', rows (calcular_status_timeline df_timeline_sample (date 2024 6 1)) !! 0%nat
             = Some r' /\
    Dias_ate_Vencimento r' = Some 2 /\
    Status r' = Some CRITICO /\ Urgency_Level r' = Some 2.
Proof.
  destruct timeline_classification as [Hall _].
  destruct (Hall df_timeline_sample (date 2024 6 1) 0%nat _ eq_refl)
    as (r' & Hr' & Hcls).
  exists r'. split; [exact Hr'|].
  cbn in Hcls. destruct Hcls as (Hd & _ & Hcrit & _).
  split; [exact Hd|]. apply Hcrit. vm_compute. split; discriminate.
Defined.

End TimelineClaims.

(** ** Loader: de-duplication and joins *)

Section LoaderClaims.
Import Loader.

Lemma drop_duplicates_last_subset {A K} `{EqDecision K} (key : A -> K) (l : list A) x :
  x ∈ drop_duplicates_last key l -> x ∈ l.
Proof.
  induction l as [|y l IH]; simpl; [auto|].
  case_bool_decide; [intros; right; auto|].
  intros [->|Hin]%elem_of_cons; [left|right; auto].
Qed.

(** After [drop_duplicates(keep="last")] no two rows share a key. *)
Lemma drop_duplicates_last_NoDup {A K} `{EqDecision K} (key : A -> K) (l : list A) :
  NoDup (map key (drop_duplicates_last key l)).
Proof.
  induction l as [|x l IH]; simpl; [constructor|].
  case_bool_decide as Hx; [exact IH|].
  simpl. constructor; [|exact IH].
  intros Hin. apply Hx. apply elem_of_map in Hin as (y & Hy & Hyin).
  apply elem_of_map. exists y. split; [exact Hy|].
  eapply drop_duplicates_last_subset; eauto.
Qed.

Lemma drop_duplicates_first_seen {A K} `{EqDecision K} (key : A -> K) seen (l : list A) x :
  x ∈ drop_duplicates_first key seen l -> key x ∉ seen.
Proof.
  revert seen. induction l as [|y l IH]; intros seen; simpl.
  - intros Hin. inversion Hin.
  - case_bool_decide as Hy; [apply IH|].
    intros [->|Hin]%elem_of_cons; [exact Hy|].
    specialize (IH _ Hin). intros Hs. apply IH. right. exact Hs.
Qed.

(** After [drop_duplicates] (first occurrence kept) no two rows share a
    key. *)
Lemma drop_duplicates_first_NoDup {A K} `{EqDecision K} (key : A -> K) seen (l : list A) :
  NoDup (map key (drop_duplicates_first key seen l)).
Proof.
  revert seen. induction l as [|x l IH]; intros seen; simpl; [constructor|].
  case_bool_decide as Hx; [apply IH|].
  simpl. constructor; [|apply IH].
  intros Hin. apply elem_of_map in Hin as (y & Hy & Hyin).
  apply drop_duplicates_first_seen in Hyin. apply Hyin. rewrite <- Hy. left.
Qed.

Lemma filter_none {A} (P : A -> Prop) `{forall x, Decision (P x)} (l : list A) :
  (forall x, x ∈ l -> ~ P x) -> filter P l = [].
Proof.
  induction l as [|x l IH]; intros Hl; [reflexivity|].
  rewrite filter_cons. case_decide as Hx.
  - exfalso. apply (Hl x); [left|exact Hx].
  - apply IH. intros y Hy. apply Hl. right. exact Hy.
Qed.

Lemma filter_key_unique {A K} `{EqDecision K} (key : A -> K) (k : K) (l : list A) :
  NoDup (map key l) -> (length (filter (fun x => key x = k) l) <= 1)%nat.
Proof.
  induction l as [|x l IH]; simpl; [lia|].
  intros Hnd. apply list.NoDup_cons in Hnd as [Hx Hnd].
  rewrite filter_cons. case_decide as Hk; [|auto].
  simpl. assert (filter (fun x => key x = k) l = []) as ->; [|simpl; lia].
  apply filter_none. intros y Hy Hyk. apply Hx.
  apply elem_of_map. exists y. split; [congruence|exact Hy].
Qed.

(** A left merge against a right side without duplicate keys keeps the
    number of rows of the left side. *)
Lemma merge_left_length {L R O K} `{EqDecision K} (key_l : L -> K) (key_r : R -> K)
    (combine : L -> option R -> O) (left : list L) (right : list R) :
  NoDup (map key_r right) ->
  length (merge_left key_l key_r combine left right) = length left.
Proof.
  intros Hnd. unfold merge_left.
  induction left as [|l left IH]; [reflexivity|].
  cbn [flat_map]. rewrite length_app, IH. cbn [length]. f_equal.
  pose proof (filter_key_unique key_r (key_l l) right Hnd) as Hle.
  destruct (filter (fun r => key_r r = key_l l) right) as [|m [|m' ms]];
    simpl in *; try reflexivity; lia.
Qed.

(** C9: the integration step of [carregar_dados] drops and adds no
    records: for all cleaned tables the integrated frame has as many rows
    as MB51, since SQ00 is de-duplicated on (Material, Lote) and the
    shelf-life table on Material before the two left merges; and each left
    merge against a right side with at most one row per key preserves the
    row count. *)
Theorem integrar_row_count :
  (forall (mb51 : list Mb51Row) (sq00 : list Sq00Row) (forn_sel : list FornRow),
     length (rows (integrar mb51 sq00 forn_sel)) = length mb51) /\
  (forall (mb51 : list Mb51Row) (sq00 : list Sq00Row),
     NoDup (map sq_key sq00) -> length (merge1 mb51 sq00) = length mb51) /\
  (forall (df : list (Mb51Row * option Timestamp)) (forn : list FornRow),
     NoDup (map fn_Material forn) -> length (merge2 df forn) = length df).
Proof.
  assert (forall mb51 sq00, NoDup (map sq_key sq00) ->
            length (merge1 mb51 sq00) = length mb51) as H1
    by (intros; apply merge_left_length; assumption).
  assert (forall df forn, NoDup (map fn_Material forn) ->
            length (merge2 df forn) = length df) as H2
    by (intros; apply merge_left_length; assumption).
  split; [|split; assumption].
  intros mb51 sq00 forn_sel. unfold integrar. cbn [rows].
  rewrite H2 by apply drop_duplicates_first_NoDup.
  apply H1. apply drop_duplicates_last_NoDup.
Qed.

Lemma integrar_row_count_witness :
  length (merge1 mb51_sample (dedup_sq00 sq00_sample)) = length mb51_sample.
Proof.
  destruct integrar_row_count as (_ & H1 & _).
  apply H1. apply (bool_decide_unpack _). vm_compute. exact I.
Defined.

(** C6 fails on the code: of two SQ00 rows for (Material 100, Lote A), one
    dated 2024-03-01 and one whose date cell is missing, the
    de-duplication keeps the undated row, because [sort_values] puts
    missing dates last and [drop_duplicates] keeps the last row. *)
Theorem dedup_sq00_keeps_missing_date :
  dedup_sq00 [ mkSq00Row "100" "A" (Some (date 2024 3 1));
               mkSq00Row "100" "A" None ]
  = [ mkSq00Row "100" "A" None ] /\
  dedup_sq00 [ mkSq00Row "100" "A" None;
               mkSq00Row "100" "A" (Some (date 2024 3 1)) ]
  = [ mkSq00Row "100" "A" None ].
Proof. split; vm_compute; reflexivity. Qed.

(** The scenario of the specification: with both dates present the later
    row is kept, whatever the input order. *)
Lemma dedup_sq00_scenario :
  dedup_sq00 [ mkSq00Row "100" "A" (Some (date 2024 1 1));
               mkSq00Row "100" "A" (Some (date 2024 3 1)) ]
  = [ mkSq00Row "100" "A" (Some (date 2024 3 1)) ] /\
  dedup_sq00 [ mkSq00Row "100" "A" (Some (date 2024 3 1));
               mkSq00Row "100" "A" (Some (date 2024 1 1)) ]
  = [ mkSq00Row "100" "A" (Some (date 2024 3 1)) ].
Proof. split; vm_compute; reflexivity. Qed.

(** After the de-duplication of SQ00 at most one row remains per
    (Material, Lote). *)
Lemma dedup_sq00_unique_keys (sq00 : list Sq00Row) :
  NoDup (map sq_key (dedup_sq00 sq00)).
Proof. apply drop_duplicates_last_NoDup. Qed.

(** [date_le] is a total preorder on optional dates. *)
Lemma date_le_refl a : date_le a a = true.
Proof. destruct a; cbn; [apply bool_decide_eq_true; lia | reflexivity]. Qed.

Lemma date_le_trans a b c :
  date_le a b = true -> date_le b c = true -> date_le a c = true.
Proof.
  destruct a, b, c; cbn; try (intros; reflexivity || discriminate).
  rewrite !bool_decide_eq_true. lia.
Qed.

Lemma date_le_total a b : date_le a b = false -> date_le b a = true.
Proof.
  destruct a, b; cbn; try (intros; reflexivity || discriminate).
  rewrite bool_decide_eq_false, bool_decide_eq_true. lia.
Qed.

Lemma insert_sorted_elem x l y : y ∈ insert_sorted x l <-> y = x \/ y ∈ l.
Proof.
  induction l as [|z l IH]; cbn [insert_sorted].
  - rewrite elem_of_cons. reflexivity.
  - destruct (date_le _ _).
    + rewrite elem_of_cons. reflexivity.
    + rewrite !elem_of_cons, IH. tauto.
Qed.

Lemma insert_sorted_sorted x l :
  StronglySorted sq_le l -> StronglySorted sq_le (insert_sorted x l).
Proof.
  induction 1 as [|z l Hs IH Hz]; cbn [insert_sorted].
  - repeat constructor.
  - destruct (date_le (sq_Data_de_vencimento x) (sq_Data_de_vencimento z)) eqn:E.
    + constructor; [constructor; assumption|].
      constructor; [exact E|].
      apply list.Forall_forall. intros y Hy. rewrite list.Forall_forall in Hz.
      specialize (Hz y Hy). unfold sq_le in *. eapply date_le_trans; eauto.
    + constructor; [exact IH|].
      apply list.Forall_forall. intros y Hy. apply insert_sorted_elem in Hy as [->|Hy].
      * apply date_le_total, E.
      * rewrite list.Forall_forall in Hz. apply Hz, Hy.
Qed.

Lemma sort_values_elem l y : y ∈ sort_values l <-> y ∈ l.
Proof.
  unfold sort_values. induction l as [|x l IH]; cbn [foldr]; [reflexivity|].
  rewrite insert_sorted_elem, elem_of_cons, IH. reflexivity.
Qed.

Lemma sort_values_sorted l : StronglySorted sq_le (sort_values l).
Proof.
  unfold sort_values. induction l as [|x l IH]; cbn [foldr]; [constructor|].
  apply insert_sorted_sorted, IH.
Qed.

Lemma drop_duplicates_last_keeps_key {A K} `{EqDecision K} (key : A -> K) (l : list A) y :
  y ∈ l -> exists x, x ∈ drop_duplicates_last key l /\ key x = key y.
Proof.
  revert y. induction l as [|z l IH]; intros y; [intros Hy; inversion Hy|].
  cbn [drop_duplicates_last]. intros [->|Hy]%elem_of_cons.
  - case_bool_decide as Hz.
    + apply elem_of_map in Hz as (y' & Hk & Hy').
      destruct (IH y' Hy') as (x & Hx & Hkx).
      exists x. split; [exact Hx | congruence].
    + exists z. split; [left | reflexivity].
  - destruct (IH y Hy) as (x & Hx & Hkx). exists x. split; [|exact Hkx].
    case_bool_decide; [exact Hx | right; exact Hx].
Qed.

Lemma drop_duplicates_last_max (l : list Sq00Row) x :
  StronglySorted sq_le l ->
  x ∈ drop_duplicates_last sq_key l ->
  forall y, y ∈ l -> sq_key y = sq_key x -> sq_le y x.
Proof.
  induction 1 as [|z l Hs IH Hz]; [intros Hx; inversion Hx|].
  rewrite list.Forall_forall in Hz.
  cbn [drop_duplicates_last]. case_bool_decide as Hk.
  - intros Hx y [->|Hy]%elem_of_cons Hkey.
    + apply Hz. eapply drop_duplicates_last_subset, Hx.
    + apply IH; assumption.
  - intros [->|Hx]%elem_of_cons y [->|Hy]%elem_of_cons Hkey.
    + apply date_le_refl.
    + exfalso. apply Hk. apply elem_of_map. exists y. split; [congruence|exact Hy].
    + apply Hz. eapply drop_duplicates_last_subset, Hx.
    + apply IH; assumption.
Qed.

(** What the de-duplication of SQ00 does: every key of the input keeps
    exactly one row, which is a row of the input and is last in the order
    of [sort_values] among the rows of its key; so it carries the latest
    date when all dates of the group are present, and a missing date as
    soon as one is present in the group. *)
Lemma dedup_sq00_keeps_last (sq00 : list Sq00Row) :
  NoDup (map sq_key (dedup_sq00 sq00)) /\
  (forall y, y ∈ sq00 -> exists x, x ∈ dedup_sq00 sq00 /\ sq_key x = sq_key y) /\
  (forall x, x ∈ dedup_sq00 sq00 ->
     x ∈ sq00 /\
     forall y, y ∈ sq00 -> sq_key y = sq_key x ->
       match sq_Data_de_vencimento y, sq_Data_de_vencimento x with
       | Some dy, Some dx => dy <= dx
       | None, Some _ => False
       | _, None => True
       end).
Proof.
  split; [apply dedup_sq00_unique_keys|]. split.
  - intros y Hy. apply drop_duplicates_last_keeps_key, sort_values_elem, Hy.
  - intros x Hx. split.
    + apply sort_values_elem. eapply drop_duplicates_last_subset, Hx.
    + intros y Hy Hkey.
      pose proof (drop_duplicates_last_max _ x (sort_values_sorted sq00) Hx y
                    (proj2 (sort_values_elem sq00 y) Hy) Hkey) as Hle.
      unfold sq_le, date_le in Hle.
      destruct (sq_Data_de_vencimento y), (sq_Data_de_vencimento x);
        try exact I; [apply bool_decide_eq_true in Hle; exact Hle | discriminate Hle].
Qed.

End LoaderClaims.

(** ** Filter engine *)

Section FiltersClaims.
Import Filters.
Context {Pattern : Type}.
Variable re_compile : string -> option Pattern.
Variable re_search : Pattern -> string -> bool.

Lemma has_filters_initial (filter_source : string) :
  has_filters initial_filter_state filter_source = false.
Proof.
  unfold has_filters. cbn.
  rewrite !andb_false_r. reflexivity.
Qed.

(** C7: [apply_filters] with the all-empty filter state of
    [initialize_filter_state] returns, for every frame and every scope, the
    frame itself and an empty list of descriptions; more generally it does
    so whenever no predicate of the requested scope is active. *)
Theorem apply_filters_empty_identity :
  (forall (df : DataFrame Row) (filter_source : string),
     apply_filters re_compile re_search initial_filter_state df filter_source
     = Some (df, [])) /\
  (forall (fs : FilterState) (df : DataFrame Row) (filter_source : string),
     has_filters fs filter_source = false ->
     apply_filters re_compile re_search fs df filter_source = Some (df, [])).
Proof.
  assert (forall fs df src, has_filters fs src = false ->
            apply_filters re_compile re_search fs df src = Some (df, [])) as H
    by (intros fs df src Hf; unfold apply_filters; rewrite Hf; reflexivity).
  split; [|exact H].
  intros df src. apply H, has_filters_initial.
Qed.

Lemma select_rows_sublist {A} (mask : list bool) (l : list A) :
  select_rows mask l `sublist_of` l.
Proof.
  revert mask. induction l as [|x l IH]; intros [|b mask]; simpl;
    try apply sublist_nil_l.
  destruct b; [apply sublist_skip | apply sublist_cons]; apply IH.
Qed.

Lemma column_Some {A} (df : DataFrame Row) (c : string) (f : Row -> A) :
  has_col c df = true -> column df c f = Some (map f (rows df)).
Proof. intros H. unfold column. rewrite H. reflexivity. Qed.

Lemma chart_step_Some df c f label value acc :
  has_col c df = true -> is_Some (chart_step df c f label value acc).
Proof.
  intros H. unfold chart_step. rewrite (column_Some df c f H).
  destruct (truthy_opt value); simpl; eauto.
Qed.

Lemma chart_filters_Some fs df src acc :
  has_col "Status" df = true -> has_col "Status_Tempo" df = true ->
  is_Some (chart_filters fs df src acc).
Proof.
  intros Hs Ht. unfold chart_filters.
  destruct (source_in src ["all"; "chart"]); [|eauto].
  destruct (chart_step_Some df "Status" Status "Status: "
              (status_filter_from_chart fs) acc Hs) as [a ->].
  cbn [mbind option_bind].
  destruct (chart_step_Some df "Status_Tempo" Status_Tempo "Temporal Status: "
              (status_tempo_filter_from_chart fs) a Ht) as [b ->].
  cbn [mbind option_bind].
  destruct (truthy_opt (problem_type_filter_from_chart fs)); [|eauto].
  destruct (has_col "Tipo_Problema" df) eqn:Htp; [|eauto].
  apply chart_step_Some, Htp.
Qed.

Lemma depot_step_Some fs df src acc :
  has_col "Depósito" df = true -> is_Some (depot_step fs df src acc).
Proof.
  intros Hd. unfold depot_step. rewrite (column_Some df _ _ Hd).
  destruct (source_in src ["all"; "global"]), (truthy_list (depot_filter fs));
    cbn [mbind option_bind]; eauto.
Qed.

Lemma search_step_Some fs df src acc p :
  re_compile (search_query fs) = Some p ->
  has_col "Material" df = true -> has_col "Descrição" df = true ->
  is_Some (search_step re_compile re_search fs df src acc).
Proof.
  intros Hp Hm Hd. unfold search_step, str_contains.
  rewrite (column_Some df _ _ Hm), (column_Some df _ _ Hd), Hp.
  destruct (source_in src ["all"; "global"]), (truthy_str (search_query fs));
    cbn [mbind option_bind]; eauto.
Qed.

(** C10: whenever [apply_filters] returns, the rows of its output are a
    subsequence of the rows of its input (each output row is an input row,
    unaltered, none repeated, order kept) and the columns are unchanged;
    and it returns whenever the columns it reads exist and the search
    pattern compiles. *)
Theorem apply_filters_subsequence (fs : FilterState) (df : DataFrame Row)
    (filter_source : string) :
  (forall out descs,
     apply_filters re_compile re_search fs df filter_source = Some (out, descs) ->
     rows out `sublist_of` rows df /\ columns out = columns df) /\
  (forallb (fun c => has_col c df) filter_columns = true ->
   is_Some (re_compile (search_query fs)) ->
   is_Some (apply_filters re_compile re_search fs df filter_source)).
Proof.
  split.
  - intros out descs. unfold apply_filters.
    destruct (negb (has_filters fs filter_source)).
    { intros Heq. inversion Heq; subst. split; reflexivity. }
    intros Heq.
    apply bind_Some in Heq as (acc1 & _ & Heq).
    apply bind_Some in Heq as (acc2 & _ & Heq).
    apply bind_Some in Heq as ([mask af] & _ & Heq).
    case_bool_decide; inversion Heq; subst; cbn [rows columns].
    + split; reflexivity.
    + split; [apply select_rows_sublist | reflexivity].
  - intros Hcols [p Hp]. unfold filter_columns in Hcols. cbn [forallb] in Hcols.
    repeat (apply andb_prop in Hcols as [? Hcols]).
    unfold apply_filters.
    destruct (negb (has_filters fs filter_source)); [eauto|].
    destruct (chart_filters_Some fs df filter_source
                (replicate (length (rows df)) true, [])) as [acc1 ->];
      [assumption..|].
    cbn [mbind option_bind].
    destruct (depot_step_Some fs df filter_source acc1) as [acc2 ->]; [assumption|].
    cbn [mbind option_bind].
    destruct (search_step_Some fs df filter_source acc2 p Hp) as [[mask af] ->];
      [assumption..|].
    cbn [mbind option_bind]. case_bool_decide; eauto.
Qed.

End FiltersClaims.

(** ** Duration parser *)

Section ParserClaims.
Import Text Parser DurationText.

Lemma app_cons (x : ascii) (a b : string) : String x a +:+ b = String x (a +:+ b).
Proof. reflexivity. Qed.

Lemma app_nil (b : string) : "" +:+ b = b.
Proof. reflexivity. Qed.

Lemma app_assoc_str (a b c : string) : (a +:+ b) +:+ c = a +:+ (b +:+ c).
Proof.
  induction a as [|x a IH]; [reflexivity|].
  rewrite !app_cons, IH. reflexivity.
Qed.

Lemma all_chars_app p (a b : string) :
  all_chars p (a +:+ b) = all_chars p a && all_chars p b.
Proof.
  induction a as [|x a IH]; [reflexivity|].
  rewrite app_cons. cbn [all_chars]. rewrite IH. apply andb_assoc.
Qed.

Lemma all_chars_impl (p q : ascii -> bool) (s : string) :
  (forall c, p c = true -> q c = true) ->
  all_chars p s = true -> all_chars q s = true.
Proof.
  intros Hpq. induction s as [|c s IH]; simpl; [auto|].
  intros [Hc Hs]%andb_prop. rewrite (Hpq c Hc), (IH Hs). reflexivity.
Qed.

Lemma map_chars_app f (a b : string) :
  map_chars f (a +:+ b) = map_chars f a +:+ map_chars f b.
Proof.
  induction a as [|x a IH]; [reflexivity|].
  rewrite app_cons. cbn [map_chars]. rewrite app_cons, IH. reflexivity.
Qed.

Lemma map_chars_id f (s : string) (p : ascii -> bool) :
  (forall c, p c = true -> f c = c) ->
  all_chars p s = true -> map_chars f s = s.
Proof.
  intros Hf. induction s as [|c s IH]; simpl; [auto|].
  intros [Hc Hs]%andb_prop. rewrite (Hf c Hc), (IH Hs). reflexivity.
Qed.

Lemma ascii_cases (P : ascii -> Prop) :
  (forall n, (n < 256)%nat -> P (ascii_of_nat n)) -> forall c, P c.
Proof.
  intros H c. rewrite <- (ascii_nat_embedding c). apply H. apply nat_ascii_bounded.
Qed.

Lemma num_char_facts (c : ascii) :
  num_char c = true ->
  is_space c = false /\ lower_char c = c /\ num_char (if Ascii.eqb c "," then "." else c) = true /\
  Ascii.eqb "m" c = false /\ Ascii.eqb "a" c = false /\
  Ascii.eqb "y" c = false /\ Ascii.eqb "d" c = false.
Proof.
  destruct c as [[] [] [] [] [] [] [] []]; vm_compute; intros H;
    try discriminate H; repeat split; reflexivity.
Qed.

Lemma digit_facts (c : ascii) :
  is_digit c = true ->
  num_char c = true /\ Ascii.eqb c "," = false /\
  c <> "-"%char /\ c <> "+"%char /\ c <> "."%char.
Proof.
  destruct c as [[] [] [] [] [] [] [] []]; vm_compute; intros H;
    try discriminate H; repeat split; try reflexivity; discriminate.
Qed.

Lemma rstrip_app (s t : string) :
  t <> "" -> rstrip t = t -> rstrip (s +:+ t) = s +:+ t.
Proof.
  intros Hne Ht. induction s as [|c s IH]; [exact Ht|].
  rewrite app_cons. cbn [rstrip]. rewrite IH.
  destruct (s +:+ t) eqn:E; [|reflexivity].
  exfalso. destruct s; [apply Hne; exact E | discriminate E].
Qed.

Lemma str_in_skip (p0 : ascii) (p' s t : string) :
  all_chars (fun c => negb (Ascii.eqb p0 c)) s = true ->
  str_in (String p0 p') (s +:+ t) = str_in (String p0 p') t.
Proof.
  induction s as [|c s IH]; [reflexivity|].
  cbn [all_chars]. intros [Hc Hs]%andb_prop. apply negb_true_iff in Hc.
  rewrite app_cons. cbn [str_in strip_prefix]. rewrite Hc. apply IH, Hs.
Qed.

Lemma word_search_skip (w0 : ascii) (w' s u : string) (b : bool) :
  Ascii.eqb w0 " " = false ->
  all_chars (fun c => negb (Ascii.eqb w0 c)) s = true ->
  word_search_from b (String w0 w') (s +:+ String " " u) =
  word_search_from false (String w0 w') u.
Proof.
  intros Hsp. revert b. induction s as [|c s IH]; intros b.
  - intros _. rewrite app_nil. cbn [word_search_from strip_prefix].
    rewrite Hsp, andb_false_r. reflexivity.
  - cbn [all_chars]. intros [Hc Hs]%andb_prop. apply negb_true_iff in Hc.
    rewrite app_cons. cbn [word_search_from strip_prefix].
    rewrite Hc, andb_false_r. apply IH, Hs.
Qed.

Lemma span_digits_app (ds rest : string) :
  all_chars is_digit ds = true ->
  match rest with String c _ => is_digit c = false | EmptyString => True end ->
  span_digits (ds +:+ rest) = (ds, rest).
Proof.
  intros Hds Hrest. induction ds as [|c ds IH].
  - rewrite app_nil. destruct rest as [|c r]; [reflexivity|].
    cbn [span_digits]. rewrite Hrest. reflexivity.
  - cbn [all_chars] in Hds. apply andb_prop in Hds as [Hc Hds].
    rewrite app_cons. cbn [span_digits]. rewrite Hc, (IH Hds). reflexivity.
Qed.

Lemma digits_value_app (acc : Z) (a b : string) :
  digits_value acc (a +:+ b) = digits_value (digits_value acc a) b.
Proof.
  revert acc. induction a as [|c a IH]; intros acc; [reflexivity|].
  rewrite app_cons. cbn [digits_value]. apply IH.
Qed.

Lemma digits_value_shift (acc : Z) (b : string) :
  digits_value acc b = acc * 10 ^ Z.of_nat (String.length b) + digits_value 0 b.
Proof.
  revert acc. induction b as [|c b IH]; intros acc.
  - cbn. lia.
  - cbn [digits_value String.length]. rewrite (IH (acc * 10 + digit_val c)).
    rewrite (IH (0 * 10 + digit_val c)).
    rewrite Nat2Z.inj_succ, Z.pow_succ_r by lia. lia.
Qed.

(** The numeral after normalisation: the decimal comma has become a
    point. *)
Lemma numeral_text_chars (n : Numeral) :
  well_formed n -> all_chars num_char (numeral_text n) = true.
Proof.
  intros (Hi & _ & Hf). unfold numeral_text. rewrite !all_chars_app.
  assert (forall s, all_chars is_digit s = true -> all_chars num_char s = true) as Hd
    by (intros s; apply all_chars_impl; intros c Hc; apply digit_facts, Hc).
  rewrite (Hd _ Hi). cbn [andb]. apply andb_true_intro. split.
  - destruct (n_sign n); reflexivity.
  - unfold frac_text. destruct (n_frac n) as [|c f] eqn:E; [reflexivity|].
    rewrite all_chars_app, (Hd _ Hf), andb_true_r.
    destruct (n_comma n); reflexivity.
Qed.

Lemma numeral_text_replace (n : Numeral) :
  well_formed n ->
  replace_char "," "." (numeral_text n)
  = sign_text (n_sign n) +:+ n_int n +:+ frac_text "." (n_frac n).
Proof.
  intros (Hi & _ & Hf). unfold replace_char, numeral_text.
  assert (forall s, all_chars is_digit s = true ->
            map_chars (fun c => if Ascii.eqb c "," then "."%char else c) s = s) as Hd.
  { intros s. apply map_chars_id. intros c Hc.
    destruct (digit_facts c Hc) as (_ & -> & _). reflexivity. }
  rewrite !map_chars_app, (Hd _ Hi). f_equal; [destruct (n_sign n); reflexivity|].
  f_equal. unfold frac_text. destruct (n_frac n) as [|c f] eqn:E; [reflexivity|].
  rewrite map_chars_app, (Hd _ Hf). destruct (n_comma n); reflexivity.
Qed.

Lemma numeral_text_nonempty (n : Numeral) :
  well_formed n -> exists c r, numeral_text n = String c r /\ num_char c = true.
Proof.
  intros Hwf. pose proof (numeral_text_chars n Hwf) as Hall.
  destruct Hwf as (_ & Hne & _).
  destruct (numeral_text n) as [|c r] eqn:E.
  - exfalso. unfold numeral_text in E.
    destruct (n_sign n); destruct (n_int n); try discriminate E; congruence.
  - exists c, r. split; [reflexivity|].
    cbn [all_chars] in Hall. apply andb_prop in Hall as [Hc _]. exact Hc.
Qed.

Lemma match_number_at_digit (c : ascii) (s : string) :
  is_digit c = true ->
  match_number_at (String c s) = match_unsigned false (String c s).
Proof.
  destruct c as [[] [] [] [] [] [] [] []]; vm_compute; intros H;
    try discriminate H; reflexivity.
Qed.

Lemma match_unsigned_numeral (neg : bool) (ip fp w : string) :
  all_chars is_digit ip = true -> ip <> "" -> all_chars is_digit fp = true ->
  match_unsigned neg (ip +:+ frac_text "." fp +:+ " " +:+ w)
  = Some (mkNumMatch neg ip fp).
Proof.
  intros Hi Hne Hf. unfold match_unsigned, frac_text.
  destruct ip as [|c ip']; [congruence|].
  destruct fp as [|f fp'].
  - rewrite app_nil, span_digits_app by (assumption || reflexivity). reflexivity.
  - rewrite (app_assoc_str "." (String f fp')).
    change ("." +:+ (String f fp' +:+ " " +:+ w))
      with (String "." (String f fp' +:+ " " +:+ w)).
    rewrite span_digits_app by (assumption || reflexivity).
    rewrite span_digits_app by (assumption || reflexivity). reflexivity.
Qed.

Lemma re_search_number_head (s : string) (m : NumMatch) :
  match_number_at s = Some m -> re_search_number s = Some m.
Proof. intros H. destruct s; cbn [re_search_number]; rewrite H; reflexivity. Qed.

Lemma re_search_number_numeral (n : Numeral) (w : string) :
  well_formed n ->
  re_search_number (sign_text (n_sign n) +:+ n_int n +:+ frac_text "." (n_frac n)
                    +:+ " " +:+ w)
  = Some (mkNumMatch (match n_sign n with Minus => true | _ => false end)
            (n_int n) (n_frac n)).
Proof.
  intros (Hi & Hne & Hf). apply re_search_number_head.
  destruct (n_sign n); cbn [sign_text].
  - rewrite app_nil. destruct (n_int n) as [|c ip'] eqn:E; [congruence|].
    cbn [all_chars] in Hi. pose proof Hi as Hi'. apply andb_prop in Hi' as [Hc _].
    rewrite app_cons, (match_number_at_digit c _ Hc), <- app_cons.
    apply match_unsigned_numeral; auto.
  - change (match_unsigned false (n_int n +:+ frac_text "." (n_frac n) +:+ " " +:+ w)
            = Some (mkNumMatch false (n_int n) (n_frac n))).
    apply match_unsigned_numeral; auto.
  - change (match_unsigned true (n_int n +:+ frac_text "." (n_frac n) +:+ " " +:+ w)
            = Some (mkNumMatch true (n_int n) (n_frac n))).
    apply match_unsigned_numeral; auto.
Qed.

Lemma float_of_match_value (n : Numeral) :
  (float_of_match (mkNumMatch (match n_sign n with Minus => true | _ => false end)
                     (n_int n) (n_frac n))
   == numeral_value n)%Q.
Proof.
  unfold float_of_match, numeral_value. cbn [negative int_digits frac_digits].
  rewrite digits_value_app, digits_value_shift.
  set (i := digits_value 0 (n_int n)). set (f := digits_value 0 (n_frac n)).
  set (k := Z.of_nat (String.length (n_frac n))).
  assert (0 < 10 ^ k) as Hpos by (apply Z.pow_pos_nonneg; lia).
  assert (~ (inject_Z (10 ^ k) == 0)%Q) as Hnz.
  { intros H. unfold Qeq in H. cbn in H. lia. }
  assert (forall z, (z # Z.to_pos (10 ^ k) == inject_Z z / inject_Z (10 ^ k))%Q) as Hmk.
  { intros z. rewrite Qmake_Qdiv. rewrite Z2Pos.id by exact Hpos. reflexivity. }
  destruct (n_sign n); rewrite Hmk.
  - rewrite inject_Z_plus, inject_Z_mult. field. exact Hnz.
  - rewrite inject_Z_plus, inject_Z_mult. field. exact Hnz.
  - rewrite inject_Z_opp, inject_Z_plus, inject_Z_mult. field. exact Hnz.
Qed.

(** The parser on a text "<number> <unit-word>": the number is found at
    the head and the unit is decided on the word alone. *)
Lemma parse_duration_text (n : Numeral) (w : string) :
  well_formed n ->
  rstrip (" " +:+ w) = " " +:+ w -> lower w = w -> replace_char "," "." w = w ->
  parse_tempo_validade_to_days (Some (duration_text n w)) =
  let num := float_of_match
               (mkNumMatch (match n_sign n with Minus => true | _ => false end)
                  (n_int n) (n_frac n)) in
  if is_month (" " +:+ w) then Some (num * DAYS_PER_MONTH)%Q
  else if is_year (" " +:+ w) then Some (num * DAYS_PER_YEAR)%Q
  else if is_day (" " +:+ w) then Some num
  else None.
Proof.
  intros Hwf Hr Hl Hc.
  pose proof (numeral_text_chars n Hwf) as Hchars.
  destruct (numeral_text_nonempty n Hwf) as (c & r & Htxt & Hcn).
  unfold parse_tempo_validade_to_days, duration_text.
  (* strip *)
  assert (strip (numeral_text n +:+ " " +:+ w) = numeral_text n +:+ " " +:+ w) as ->.
  { unfold strip.
    assert (lstrip (numeral_text n +:+ " " +:+ w) = numeral_text n +:+ " " +:+ w) as ->.
    { rewrite Htxt, app_cons. cbn [lstrip].
      destruct (num_char_facts c Hcn) as (-> & _). reflexivity. }
    apply rstrip_app; [discriminate | exact Hr]. }
  (* lower *)
  assert (lower (numeral_text n +:+ " " +:+ w) = numeral_text n +:+ " " +:+ w) as ->.
  { unfold lower in *. rewrite !map_chars_app, Hl.
    rewrite (map_chars_id lower_char (numeral_text n) num_char); [reflexivity| |exact Hchars].
    intros x Hx. apply (num_char_facts x Hx). }
  assert (String.eqb (numeral_text n +:+ " " +:+ w) "" = false) as ->
    by (rewrite Htxt; reflexivity).
  (* decimal comma *)
  assert (replace_char "," "." (numeral_text n +:+ " " +:+ w)
          = (sign_text (n_sign n) +:+ n_int n +:+ frac_text "." (n_frac n))
            +:+ " " +:+ w) as ->.
  { unfold replace_char. rewrite !map_chars_app.
    fold (replace_char "," "." (numeral_text n)). fold (replace_char "," "." w).
    rewrite (numeral_text_replace n Hwf), Hc. reflexivity. }
  set (canon := sign_text (n_sign n) +:+ n_int n +:+ frac_text "." (n_frac n)).
  assert (all_chars num_char canon = true) as Hcanon.
  { subst canon. rewrite <- (numeral_text_replace n Hwf).
    unfold replace_char. clear -Hchars. induction (numeral_text n) as [|x s IH]; [reflexivity|].
    cbn [all_chars map_chars] in *. apply andb_prop in Hchars as [Hx Hs].
    destruct (num_char_facts x Hx) as (_ & _ & -> & _). exact (IH Hs). }
  (* number *)
  assert (re_search_number (canon +:+ " " +:+ w)
          = Some (mkNumMatch (match n_sign n with Minus => true | _ => false end)
                    (n_int n) (n_frac n))) as ->.
  { subst canon. rewrite !app_assoc_str. apply re_search_number_numeral, Hwf. }
  (* unit *)
  assert (forall p0 p', In p0 ["m"; "a"; "y"; "d"]%char ->
            str_in (String p0 p') (canon +:+ " " +:+ w)
            = str_in (String p0 p') (" " +:+ w)) as Hin.
  { intros p0 p' Hp. apply str_in_skip.
    eapply all_chars_impl; [|exact Hcanon]. intros x Hx. apply negb_true_iff.
    destruct (num_char_facts x Hx) as (_ & _ & _ & Hm & Ha & Hy & Hd).
    cbn [In] in Hp. destruct Hp as [<-|[<-|[<-|[<-|[]]]]]; assumption. }
  assert (forall w0 w', In w0 ["m"; "d"]%char ->
            word_search (String w0 w') (canon +:+ " " +:+ w)
            = word_search (String w0 w') (" " +:+ w)) as Hws.
  { intros w0 w' Hp. unfold word_search.
    change (" " +:+ w) with ("" +:+ String " " w) at 2.
    change (" " +:+ w) with (String " " w).
    assert (Ascii.eqb w0 " " = false) as Hsp
      by (cbn [In] in Hp; destruct Hp as [<-|[<-|[]]]; reflexivity).
    rewrite !word_search_skip; [reflexivity|exact Hsp|reflexivity|exact Hsp|].
    eapply all_chars_impl; [|exact Hcanon]. intros x Hx. apply negb_true_iff.
    destruct (num_char_facts x Hx) as (_ & _ & _ & Hm & Ha & Hy & Hd).
    cbn [In] in Hp. destruct Hp as [<-|[<-|[]]]; assumption. }
  unfold is_month, is_year, is_day.
  rewrite !Hin by (cbn; tauto). rewrite !Hws by (cbn; tauto).
  reflexivity.
Qed.

(** *** Unit words in any case, between word boundaries *)

Lemma letter_facts (c : ascii) :
  UnitWord.is_letter c = true ->
  is_space c = false /\ lower_char c = UnitWord.to_lower c /\
  UnitWord.is_letter (UnitWord.to_lower c) = true /\
  lower_char (UnitWord.to_lower c) = UnitWord.to_lower c /\
  Ascii.eqb (UnitWord.to_lower c) "," = false /\
  is_word (UnitWord.to_lower c) = true /\
  is_space (UnitWord.to_lower c) = false.
Proof.
  destruct c as [[] [] [] [] [] [] [] []]; vm_compute; intros H;
    try discriminate H; repeat split; reflexivity.
Qed.

Lemma fold_case_facts (w : string) :
  all_chars UnitWord.is_letter w = true ->
  lower w = UnitWord.fold_case w /\
  lower (UnitWord.fold_case w) = UnitWord.fold_case w /\
  replace_char "," "." (UnitWord.fold_case w) = UnitWord.fold_case w /\
  all_chars is_word (UnitWord.fold_case w) = true /\
  all_chars (fun c => negb (is_space c)) w = true /\
  all_chars (fun c => negb (is_space c)) (UnitWord.fold_case w) = true /\
  (w <> "" -> UnitWord.fold_case w <> "").
Proof.
  induction w as [|c w IH]; [repeat split; try reflexivity; tauto|].
  cbn [all_chars]. intros [Hc Hw]%andb_prop.
  destruct (letter_facts c Hc) as (Hs & Hl & _ & Hll & Hcm & Hwd & Hs').
  destruct (IH Hw) as (IH1 & IH2 & IH3 & IH4 & IH5 & IH6 & _).
  unfold lower, replace_char in *.
  cbn [map_chars UnitWord.fold_case all_chars].
  rewrite Hl, IH1, Hll, IH2, Hcm, IH3, Hwd, IH4, Hs, IH5, Hs', IH6.
  repeat split; try reflexivity. discriminate.
Qed.

Lemma rstrip_nospace (w : string) :
  all_chars (fun c => negb (is_space c)) w = true -> rstrip w = w.
Proof.
  induction w as [|c w IH]; [reflexivity|].
  cbn [all_chars]. intros [Hc Hw]%andb_prop. apply negb_true_iff in Hc.
  cbn [rstrip]. rewrite (IH Hw), Hc. destruct w; reflexivity.
Qed.

Lemma strip_duration_text (n : Numeral) (w : string) :
  well_formed n -> w <> "" ->
  all_chars (fun c => negb (is_space c)) w = true ->
  strip (duration_text n w) = duration_text n w.
Proof.
  intros Hwf Hne Hw. destruct (numeral_text_nonempty n Hwf) as (c & r & Htxt & Hcn).
  unfold strip, duration_text.
  assert (lstrip (numeral_text n +:+ " " +:+ w) = numeral_text n +:+ " " +:+ w) as ->.
  { rewrite Htxt, app_cons. cbn [lstrip].
    destruct (num_char_facts c Hcn) as (-> & _). reflexivity. }
  apply rstrip_app; [discriminate|].
  apply (rstrip_app " " w Hne). apply rstrip_nospace, Hw.
Qed.

(** The parser does not see the case of a unit word. *)
Lemma parse_duration_text_fold_case (n : Numeral) (w : string) :
  well_formed n -> w <> "" -> all_chars UnitWord.is_letter w = true ->
  parse_tempo_validade_to_days (Some (duration_text n w))
  = parse_tempo_validade_to_days (Some (duration_text n (UnitWord.fold_case w))).
Proof.
  intros Hwf Hne Hw.
  destruct (fold_case_facts w Hw) as (Hl & Hll & _ & _ & Hs & Hs' & Hne').
  assert (lower (strip (duration_text n w))
          = lower (strip (duration_text n (UnitWord.fold_case w)))) as Heq.
  { rewrite !strip_duration_text by auto. unfold duration_text, lower in *.
    rewrite !map_chars_app, Hl, Hll. reflexivity. }
  unfold parse_tempo_validade_to_days. rewrite Heq. reflexivity.
Qed.

Lemma strip_prefix_Some (p s r : string) :
  strip_prefix p s = Some r <-> s = p +:+ r.
Proof.
  revert s. induction p as [|a p IH]; intros s.
  - cbn. split; [intros [= ->]; reflexivity | intros ->; reflexivity].
  - destruct s as [|b s]; [split; discriminate|].
    cbn [strip_prefix]. rewrite app_cons. destruct (Ascii.eqb a b) eqn:E.
    + apply Ascii.eqb_eq in E as ->. rewrite IH. split; [intros ->; reflexivity|].
      intros [= ->]. reflexivity.
    + split; [discriminate|]. intros [= -> _].
      rewrite Ascii.eqb_refl in E. discriminate E.
Qed.

(** [p in s] is the occurrence of [p] in [s]. *)
Lemma str_in_contains (p s : string) : str_in p s = true <-> UnitWord.contains p s.
Proof.
  unfold UnitWord.contains. induction s as [|c s IH].
  - cbn [str_in]. destruct (strip_prefix p "") as [r|] eqn:E.
    + apply strip_prefix_Some in E. split; [|reflexivity].
      intros _. exists EmptyString, r. exact E.
    + split; [discriminate|]. intros (a & b & Hab). exfalso.
      destruct a; [|discriminate Hab].
      assert (strip_prefix p "" = Some b) as E'
        by (apply strip_prefix_Some; exact Hab).
      rewrite E' in E. discriminate E.
  - cbn [str_in]. destruct (strip_prefix p (String c s)) as [r|] eqn:E.
    + apply strip_prefix_Some in E. split; [|reflexivity].
      intros _. exists EmptyString, r. exact E.
    + rewrite IH. split.
      * intros (a & b & ->). exists (String c a), b. reflexivity.
      * intros (a & b & Hab). destruct a as [|c' a].
        -- exfalso. assert (strip_prefix p (String c s) = Some b) as E'
             by (apply strip_prefix_Some; exact Hab).
           rewrite E' in E. discriminate E.
        -- rewrite app_cons in Hab. injection Hab as _ ->. eauto.
Qed.

Lemma word_search_inside (w s : string) :
  all_chars is_word s = true -> word_search_from true w s = false.
Proof.
  induction s as [|c s IH]; [reflexivity|].
  cbn [all_chars]. intros [Hc Hs]%andb_prop.
  cbn [word_search_from negb andb]. rewrite Hc. exact (IH Hs).
Qed.

(** In a run of word characters, [\bW\b] finds [W] only as the whole
    run. *)
Lemma word_search_whole (w s : string) :
  w <> "" -> all_chars is_word s = true ->
  word_search_from false w s = true <-> s = w.
Proof.
  intros Hw Hs. destruct s as [|c s].
  - cbn [word_search_from negb andb]. destruct w as [|a w]; [congruence|].
    cbn [strip_prefix]. split; discriminate.
  - cbn [all_chars] in Hs. apply andb_prop in Hs as [Hc Hs'].
    cbn [word_search_from negb andb]. rewrite Hc, (word_search_inside w s Hs').
    destruct (strip_prefix w (String c s)) as [[|x r]|] eqn:E.
    + apply strip_prefix_Some in E. split; [intros _|reflexivity].
      rewrite E. clear. induction w as [|a w IH]; [reflexivity|].
      rewrite app_cons, IH. reflexivity.
    + apply strip_prefix_Some in E.
      assert (is_word x = true) as Hx.
      { assert (all_chars is_word (String c s) = true) as Hall
          by (cbn [all_chars]; rewrite Hc, Hs'; reflexivity).
        rewrite E, all_chars_app in Hall. apply andb_prop in Hall as [_ Hall].
        cbn [all_chars] in Hall. apply andb_prop in Hall as [Hx _]. exact Hx. }
      rewrite Hx. cbn [negb]. split; [discriminate|]. intros Heq. exfalso.
      rewrite Heq in E. clear -E. revert E.
      induction w as [|a w IH]; [discriminate|].
      rewrite app_cons. intros [= E]. exact (IH E).
    + split; [discriminate|]. intros Heq. exfalso.
      assert (strip_prefix w (String c s) = Some "") as E'.
      { apply strip_prefix_Some. rewrite Heq. clear.
        induction w as [|a w IH]; [reflexivity|]. rewrite app_cons, <- IH. reflexivity. }
      rewrite E' in E. discriminate E.
Qed.

Lemma contains_longer (p q s : string) :
  UnitWord.contains (p +:+ q) s -> UnitWord.contains p s.
Proof.
  intros (a & b & ->). exists a, (q +:+ b). rewrite app_assoc_str. reflexivity.
Qed.

(** The three unit tests on " <word>", for a word of lower-case
    letters. *)
Lemma unit_tests_word (lw : string) :
  all_chars is_word lw = true ->
  (is_month (" " +:+ lw) = true <-> UnitWord.month_word lw) /\
  (is_year (" " +:+ lw) = true <-> UnitWord.year_word lw) /\
  (is_day (" " +:+ lw) = true <-> UnitWord.day_word lw).
Proof.
  intros Hw.
  assert (forall p0 p', Ascii.eqb p0 " " = false ->
            str_in (String p0 p') (" " +:+ lw) = true
            <-> UnitWord.contains (String p0 p') lw) as Hin.
  { intros p0 p' Hp. rewrite <- str_in_contains.
    change (" " +:+ lw) with (String " " lw). cbn [str_in strip_prefix].
    rewrite Hp. reflexivity. }
  assert (forall w0 w', Ascii.eqb w0 " " = false ->
            word_search (String w0 w') (" " +:+ lw) = true <-> lw = String w0 w') as Hws.
  { intros w0 w' Hp. unfold word_search.
    change (" " +:+ lw) with (String " " lw).
    cbn [word_search_from strip_prefix negb andb]. rewrite Hp.
    change (is_word " ") with false.
    apply word_search_whole; [discriminate | exact Hw]. }
  unfold is_month, is_year, is_day, UnitWord.month_word, UnitWord.year_word,
    UnitWord.day_word.
  rewrite !orb_true_iff, !Hin, !Hws by reflexivity.
  split; [reflexivity|]. split; split.
  - intros [[H|H]|H]; [left; exact H | left | right; exact H].
    exact (contains_longer "ano" "s" lw H).
  - tauto.
  - intros [[H|H]|H]; [left; exact H | left | right; exact H].
    exact (contains_longer "dia" "s" lw H).
  - tauto.
Qed.

(** C4: [parse_tempo_validade_to_days] returns undefined for a missing or
    blank text, for a text without a number, and for a text without a unit
    indicator; otherwise it multiplies the first number found by 30.4375,
    365 or 1, testing the month indicator first ("mes", or "mo" between
    word boundaries), then the year indicator ("ano", "anos", "year"),
    then the day indicator ("dia", "dias", or "d" between word
    boundaries); in particular for every text "<number> <unit>", where the
    number is a signed decimal numeral and the unit one of the unit words,
    it returns the number times 1, 30.4375 or 365 for a day, month or year
    word.  The unit is recognised in any case and, for "mo" and "d", only
    between word boundaries: for every text "<number> <word>" whose word
    is made of letters, with the word taken in lower case, the result is
    the number times 30.4375 when the word contains "mes" or is "mo",
    else the number times 365 when it contains "ano" or "year", else the
    number when it contains "dia" or is "d", and undefined otherwise (so
    "2 demo" and "5 unidades" are undefined). *)
Theorem parse_tempo_validade_spec :
  parse_tempo_validade_to_days None = None /\
  (forall v, lower (strip v) = "" -> parse_tempo_validade_to_days (Some v) = None) /\
  (forall v, re_search_number (normalize v) = None ->
     parse_tempo_validade_to_days (Some v) = None) /\
  (forall v,
     is_month (normalize v) = false -> is_year (normalize v) = false ->
     is_day (normalize v) = false ->
     parse_tempo_validade_to_days (Some v) = None) /\
  (forall v m,
     lower (strip v) <> "" -> re_search_number (normalize v) = Some m ->
     let num := float_of_match m in
     parse_tempo_validade_to_days (Some v) =
       if is_month (normalize v) then Some (num * 30.4375)%Q
       else if is_year (normalize v) then Some (num * 365)%Q
       else if is_day (normalize v) then Some num
       else None) /\
  (forall (n : Numeral) (u : TimeUnit) (w : string),
     well_formed n -> w ∈ unit_words u ->
     exists d, parse_tempo_validade_to_days (Some (duration_text n w)) = Some d /\
               (d == numeral_value n * unit_factor u)%Q) /\
  (forall (n : Numeral) (w : string),
     well_formed n -> w <> "" -> all_chars UnitWord.is_letter w = true ->
     let lw := UnitWord.fold_case w in
     let result := parse_tempo_validade_to_days (Some (duration_text n w)) in
     (UnitWord.month_word lw ->
        exists d, result = Some d /\ (d == numeral_value n * 30.4375)%Q) /\
     (~ UnitWord.month_word lw -> UnitWord.year_word lw ->
        exists d, result = Some d /\ (d == numeral_value n * 365)%Q) /\
     (~ UnitWord.month_word lw -> ~ UnitWord.year_word lw -> UnitWord.day_word lw ->
        exists d, result = Some d /\ (d == numeral_value n)%Q) /\
     (~ UnitWord.month_word lw -> ~ UnitWord.year_word lw ->
      ~ UnitWord.day_word lw -> result = None)).
Proof.
  split; [reflexivity|]. split; [|split; [|split; [|split; [|split]]]].
  - intros v Hv. unfold parse_tempo_validade_to_days. rewrite Hv. reflexivity.
  - intros v Hn. unfold parse_tempo_validade_to_days. fold (normalize v).
    rewrite Hn. destruct (String.eqb (lower (strip v)) ""); reflexivity.
  - intros v Hm Hy Hd. unfold parse_tempo_validade_to_days. fold (normalize v).
    rewrite Hm, Hy, Hd.
    destruct (String.eqb (lower (strip v)) ""); [reflexivity|].
    destruct (re_search_number (normalize v)); reflexivity.
  - intros v m Hne Hm num. unfold parse_tempo_validade_to_days. fold (normalize v).
    rewrite Hm. apply String.eqb_neq in Hne. rewrite Hne. reflexivity.
  - intros n u w Hwf Hw.
    assert (rstrip (" " +:+ w) = " " +:+ w /\ lower w = w /\
            replace_char "," "." w = w /\
            (is_month (" " +:+ w), is_year (" " +:+ w), is_day (" " +:+ w)) =
            match u with
            | Month => (true, false, false)
            | Year => (false, true, false)
            | Day => (false, false, true)
            end) as (Hr & Hl & Hc & Hunit).
    { destruct u; cbn [unit_words] in Hw;
        repeat (apply elem_of_cons in Hw as [->|Hw];
                [repeat split; vm_compute; reflexivity|]);
        inversion Hw. }
    rewrite (parse_duration_text n w Hwf Hr Hl Hc). cbv zeta.
    pose proof (float_of_match_value n) as Hval.
    destruct u; injection Hunit as Hm Hy Hd; rewrite ?Hm, ?Hy, ?Hd;
      eexists; (split; [reflexivity|]); cbn [unit_factor];
      rewrite Hval; try reflexivity.
    rewrite Qmult_1_r. reflexivity.
  - intros n w Hwf Hne Hw lw result. subst result.
    destruct (fold_case_facts w Hw) as (_ & Hll & Hc & Hword & _ & Hs' & Hne').
    rewrite (parse_duration_text_fold_case n w Hwf Hne Hw). fold lw.
    rewrite (parse_duration_text n lw Hwf); cycle 1.
    { apply (rstrip_app " " lw (Hne' Hne)). apply rstrip_nospace, Hs'. }
    { exact Hll. }
    { exact Hc. }
    cbv zeta. destruct (unit_tests_word lw Hword) as (Hm & Hy & Hd).
    pose proof (float_of_match_value n) as Hval.
    destruct (is_month (" " +:+ lw)) eqn:Em;
      [|destruct (is_year (" " +:+ lw)) eqn:Ey;
        [|destruct (is_day (" " +:+ lw)) eqn:Ed]].
    + assert (UnitWord.month_word lw) as Hmw by (apply Hm; reflexivity).
      repeat split; try (intros; contradiction).
      intros _. eexists. split; [reflexivity|]. rewrite Hval. reflexivity.
    + assert (~ UnitWord.month_word lw) as Hmw by (rewrite <- Hm; discriminate).
      assert (UnitWord.year_word lw) as Hyw by (apply Hy; reflexivity).
      repeat split; try (intros; contradiction).
      intros _ _. eexists. split; [reflexivity|]. rewrite Hval. reflexivity.
    + assert (~ UnitWord.month_word lw) as Hmw by (rewrite <- Hm; discriminate).
      assert (~ UnitWord.year_word lw) as Hyw by (rewrite <- Hy; discriminate).
      assert (UnitWord.day_word lw) as Hdw by (apply Hd; reflexivity).
      repeat split; try (intros; contradiction).
      intros _ _ _. eexists. split; [reflexivity|]. exact Hval.
    + assert (~ UnitWord.month_word lw) as Hmw by (rewrite <- Hm; discriminate).
      assert (~ UnitWord.year_word lw) as Hyw by (rewrite <- Hy; discriminate).
      assert (~ UnitWord.day_word lw) as Hdw by (rewrite <- Hd; discriminate).
      repeat split; try (intros; contradiction).
Qed.

End ParserClaims.

Lemma parse_tempo_validade_spec_witness :
  (exists d, Parser.parse_tempo_validade_to_days (Some "12 meses") = Some d /\
             (d == 365.25)%Q) /\
  (exists d, Parser.parse_tempo_validade_to_days (Some "12 MESES") = Some d /\
             (d == 365.25)%Q) /\
  Parser.parse_tempo_validade_to_days (Some "2 demo") = None /\
  Parser.parse_tempo_validade_to_days (Some "5 unidades") = None.
Proof.
  destruct parse_tempo_validade_spec as (_ & _ & _ & _ & _ & Hform & Hword).
  assert (forall p w, ~ UnitWord.contains p w <-> Text.str_in p w = false) as Hno.
  { intros p w. rewrite <- str_in_contains. destruct (Text.str_in p w); split;
      (congruence || discriminate || auto). }
  split; [|split; [|split]].
  - destruct (Hform (DurationText.mkNumeral DurationText.NoSign "12" false "")
                    DurationText.Month "meses") as (d & Hd & Hv).
    + split; [reflexivity | split; [discriminate | reflexivity]].
    + cbn [DurationText.unit_words]. right. left.
    + exists d. split; [exact Hd|]. rewrite Hv. vm_compute. reflexivity.
  - pose proof (Hword (DurationText.mkNumeral DurationText.NoSign "12" false "")
                  "MESES"
                  ltac:(split; [reflexivity | split; [discriminate | reflexivity]])
                  ltac:(discriminate) ltac:(reflexivity)) as H.
    cbv zeta in H. destruct H as (Hm & _).
    destruct Hm as (d & Hd & Hv); [left; exists EmptyString, "es"; reflexivity|].
    exists d. split; [exact Hd|]. rewrite Hv. vm_compute. reflexivity.
  - pose proof (Hword (DurationText.mkNumeral DurationText.NoSign "2" false "")
                  "demo"
                  ltac:(split; [reflexivity | split; [discriminate | reflexivity]])
                  ltac:(discriminate) ltac:(reflexivity)) as H.
    cbv zeta in H. destruct H as (_ & _ & _ & Hn).
    apply Hn; intros [H|H];
      first [ revert H; apply Hno; vm_compute; reflexivity
            | vm_compute in H; discriminate H ].
  - pose proof (Hword (DurationText.mkNumeral DurationText.NoSign "5" false "")
                  "unidades"
                  ltac:(split; [reflexivity | split; [discriminate | reflexivity]])
                  ltac:(discriminate) ltac:(reflexivity)) as H.
    cbv zeta in H. destruct H as (_ & _ & _ & Hn).
    apply Hn; intros [H|H];
      first [ revert H; apply Hno; vm_compute; reflexivity
            | vm_compute in H; discriminate H ].
Defined.

(** ** Witnesses on sample data *)

Lemma pct_restante_clamped_witness :
  exists df' r' p,
    StatusPercentual.calcular_status_percentual df_classified (date 2024 6 1) 90 50
    = Some df' /\
    rows df' !! 0%nat = Some r' /\ Pct_Restante r' = Some p /\
    (p == 31)%Q /\ (0 <= p <= 200)%Q.
Proof.
  destruct (pct_restante_clamped df_classified (date 2024 6 1) 90 50 eq_refl)
    as (df' & Hdf' & Hrows).
  destruct (Hrows 0%nat row_short_lived eq_refl) as (r' & Hr' & _ & _ & Hval & Hbnd & _).
  assert (Validade_Real r' = Some 31 /\ Dias_Validade r' = Some 100%Q) as [Hv Hd].
  { vm_compute in Hdf'. inversion Hdf'; subst df'.
    vm_compute in Hr'. inversion Hr'; subst r'. split; reflexivity. }
  exists df', r', (StatusPercentual.clip 0 200 (inject_Z 31 / 100 * 100)).
  assert (Pct_Restante r' = Some (StatusPercentual.clip 0 200 (inject_Z 31 / 100 * 100)))
    as Hp by (apply (Hval 31 100%Q Hv Hd); reflexivity).
  split; [exact Hdf'|]. split; [exact Hr'|]. split; [exact Hp|].
  split; [vm_compute; reflexivity|]. apply Hbnd, Hp.
Defined.

Lemma divergencias_first_match_witness :
  exists df' r',
    Divergencias.identificar_divergencias df_classified = Some df' /\
    rows df' !! 0%nat = Some r' /\
    Tipo_Problema r' = Some Divergencias.MATERIAL_VENCIDO /\
    Tem_Problema r' = Some true.
Proof.
  destruct (divergencias_first_match df_classified eq_refl) as (df' & Hdf' & Hrows).
  destruct (Hrows 0%nat row_short_lived eq_refl) as (r' & Hr' & Hfirst & _).
  exists df', r'. split; [exact Hdf'|]. split; [exact Hr'|].
  apply (Hfirst 3%nat Divergencias.MATERIAL_VENCIDO); [reflexivity| |reflexivity].
  intros j Hj. do 3 (destruct j as [|j]; [reflexivity|]). lia.
Defined.

Lemma apply_filters_empty_identity_witness :
  Filters.apply_filters literal_compile literal_search fs_search_only df_classified "tab"
  = Some (df_classified, []).
Proof.
  destruct (apply_filters_empty_identity literal_compile literal_search) as [_ H].
  apply H. reflexivity.
Defined.

Lemma apply_filters_subsequence_witness :
  match Filters.apply_filters literal_compile literal_search fs_status_fora
          df_classified "all" with
  | Some (out, descs) =>
      rows out `sublist_of` rows df_classified /\ rows out = [row_short_lived]
  | None => False
  end.
Proof.
  destruct (Filters.apply_filters literal_compile literal_search fs_status_fora
              df_classified "all") as [[out descs]|] eqn:E.
  - split.
    + destruct (apply_filters_subsequence literal_compile literal_search
                  fs_status_fora df_classified "all") as [Hsub _].
      apply (Hsub out descs E).
    + vm_compute in E. inversion E. reflexivity.
  - vm_compute in E. discriminate E.
Defined.

(** * Further properties *)

(** ** Columns *)

Lemma has_col_set_col {R} (c c' : string) (cols : list string) (rs rs' : list R) :
  has_col c {| columns := cols; rows := rs |} = true ->
  has_col c {| columns := set_col c' cols; rows := rs' |} = true.
Proof.
  unfold has_col, set_col. cbn [columns]. rewrite !bool_decide_eq_true.
  intros Hc. case_bool_decide; [exact Hc | apply elem_of_app; left; exact Hc].
Qed.

Lemma elem_of_set_col (c c' : string) (cols : list string) :
  c ∈ set_col c' cols <-> c = c' \/ c ∈ cols.
Proof.
  unfold set_col. case_bool_decide as H.
  - split; [auto | intros [->|Hc]; assumption].
  - rewrite elem_of_app, list_elem_of_singleton. tauto.
Qed.

Lemma elem_of_set_cols (c : string) (new cols : list string) :
  c ∈ foldl (fun cols c => set_col c cols) cols new <-> c ∈ new \/ c ∈ cols.
Proof.
  revert cols. induction new as [|n new IH]; intros cols; cbn [foldl].
  - split; [auto | intros [H|H]; [inversion H | exact H]].
  - rewrite IH, elem_of_set_col, elem_of_cons. tauto.
Qed.

Lemma has_col_set_cols {R} (c : string) (new cols : list string) (rs : list R) :
  has_col c {| columns := foldl (fun cols c => set_col c cols) cols new; rows := rs |}
  = bool_decide (c ∈ new \/ c ∈ cols).
Proof.
  unfold has_col. cbn [columns]. apply bool_decide_ext, elem_of_set_cols.
Qed.

Lemma calcular_status_percentual_inv df hoje lb la df' :
  StatusPercentual.calcular_status_percentual df hoje lb la = Some df' ->
  rows df' = map (StatusPercentual.status_percentual_row df hoje lb la) (rows df) /\
  forall c, c ∈ columns df' <-> c ∈ StatusPercentual.new_columns \/ c ∈ columns df.
Proof.
  unfold StatusPercentual.calcular_status_percentual.
  destruct (forallb _ _); [|discriminate]. intros H. injection H as <-.
  cbn [rows columns]. split; [reflexivity|]. intros c.
  exact (elem_of_set_cols c StatusPercentual.new_columns (columns df)).
Qed.

Lemma identificar_divergencias_inv df df' :
  Divergencias.identificar_divergencias df = Some df' ->
  rows df' = map (Divergencias.divergencias_row (has_col "Tempo de Validade" df))
               (rows df) /\
  forall c, c ∈ columns df' <-> c ∈ Divergencias.new_columns \/ c ∈ columns df.
Proof.
  unfold Divergencias.identificar_divergencias.
  destruct (forallb _ _); [|discriminate]. intros H. injection H as <-.
  cbn [rows columns]. split; [reflexivity|]. intros c.
  exact (elem_of_set_cols c Divergencias.new_columns (columns df)).
Qed.

(** ** Expected expiration and the processing sequence *)

Section ExpiryCalcFacts.
Import ExpiryCalc.
Variable to_timedelta_days : Q -> option Z.
Local Open Scope Q_scope.

Lemma vencimento_esperado_row_fields (df : DataFrame Row) (r r1 : Row) :
  vencimento_esperado_row to_timedelta_days df r = Some r1 ->
  Tempo_de_Validade r1 = get_cell df "Tempo de Validade" Tempo_de_Validade r /\
  Data_de_entrada r1 = get_cell df "Data de entrada" Data_de_entrada r /\
  Data_de_vencimento r1 = Data_de_vencimento r /\
  Dias_Validade r1 = Parser.parse_tempo_validade_to_days (Tempo_de_Validade r1) /\
  venc_esperado to_timedelta_days (Data_de_entrada r1) (Dias_Validade r1)
  = Some (Venc_Esperado r1).
Proof.
  unfold vencimento_esperado_row. intros H.
  apply bind_Some in H as (esp & Hesp & H). injection H as <-.
  cbn [Tempo_de_Validade Data_de_entrada Data_de_vencimento Dias_Validade Venc_Esperado].
  repeat split; try reflexivity. exact Hesp.
Qed.

Lemma venc_esperado_defined (ent : option Timestamp) (dias : option Q)
    (esp : option Timestamp) :
  venc_esperado to_timedelta_days ent dias = Some esp ->
  (esp <> None <-> ent <> None /\ exists d, dias = Some d /\ 0 < d) /\
  (forall e d, ent = Some e -> dias = Some d -> 0 < d ->
     exists t, to_timedelta_days d = Some t /\
       (- TIMESTAMP_MAX <= e + t <= TIMESTAMP_MAX)%Z /\ esp = Some (e + t)%Z).
Proof.
  unfold venc_esperado. intros H.
  destruct ent as [e|], dias as [d|]; cbn [notna isna negb andb] in H;
    try (injection H as <-; split;
         [split; [intros Hn; exfalso; apply Hn; reflexivity
                 | intros (He & d' & Hd & _); congruence]
         | intros e' d' He Hd; discriminate]).
  destruct (StatusPercentual.q_gt (Some d) 0) eqn:Hgt.
  - apply q_gt_iff in Hgt as (d' & Hd' & Hpos). injection Hd' as <-.
    apply bind_Some in H as (t & Ht & H).
    apply bind_Some in H as (x & Hx & H). injection H as <-.
    unfold add_timedelta in Hx. case_bool_decide as Hb; [|discriminate Hx].
    injection Hx as <-. split.
    + split; [intros _; split; [discriminate | eauto] | discriminate].
    + intros e' d' [= <-] [= <-] _. eauto.
  - injection H as <-. split.
    + split; [intros Hn; exfalso; apply Hn; reflexivity|].
      intros (_ & d' & [= <-] & Hpos).
      assert (StatusPercentual.q_gt (Some d) 0 = true) as Hgt'
        by (apply q_gt_iff; eauto).
      rewrite Hgt' in Hgt. discriminate Hgt.
    + intros e' d' _ [= <-] Hpos.
      assert (StatusPercentual.q_gt (Some d) 0 = true) as Hgt'
        by (apply q_gt_iff; eauto).
      rewrite Hgt' in Hgt. discriminate Hgt.
Qed.

(** When the expected expiration of a record cannot be computed. *)
Lemma venc_esperado_fails (ent : option Timestamp) (dias : option Q) :
  venc_esperado to_timedelta_days ent dias = None <->
  exists e d, ent = Some e /\ dias = Some d /\ 0 < d /\
    (to_timedelta_days d = None \/
     exists t, to_timedelta_days d = Some t /\
       ~ (- TIMESTAMP_MAX <= e + t <= TIMESTAMP_MAX)%Z).
Proof.
  unfold venc_esperado. split.
  - destruct ent as [e|], dias as [d|]; cbn [notna isna negb andb];
      try discriminate.
    destruct (StatusPercentual.q_gt (Some d) 0) eqn:Hgt; [|discriminate].
    apply q_gt_iff in Hgt as (d' & [= <-] & Hpos). intros H.
    exists e, d. split; [reflexivity|]. split; [reflexivity|]. split; [exact Hpos|].
    destruct (to_timedelta_days d) as [t|]; [|left; reflexivity].
    right. exists t. split; [reflexivity|]. cbn [mbind option_bind] in H.
    unfold add_timedelta in H. case_bool_decide as Hb; [discriminate H | exact Hb].
  - intros (e & d & -> & -> & Hpos & Hbad). cbn [notna isna negb andb].
    assert (StatusPercentual.q_gt (Some d) 0 = true) as -> by (apply q_gt_iff; eauto).
    destruct Hbad as [->|(t & -> & Hb)]; [reflexivity|].
    cbn [mbind option_bind]. unfold add_timedelta.
    rewrite bool_decide_eq_false_2 by exact Hb. reflexivity.
Qed.

Lemma calcular_vencimento_esperado_inv (df df1 : DataFrame Row) :
  calcular_vencimento_esperado to_timedelta_days df = Some df1 ->
  columns df1 = foldl (fun cols c => set_col c cols) (columns df) new_columns /\
  length (rows df1) = length (rows df) /\
  (forall i r1, rows df1 !! i = Some r1 ->
     exists r, rows df !! i = Some r /\
       vencimento_esperado_row to_timedelta_days df r = Some r1) /\
  (forall i r, rows df !! i = Some r ->
     exists r1, rows df1 !! i = Some r1 /\
       vencimento_esperado_row to_timedelta_days df r = Some r1).
Proof.
  unfold calcular_vencimento_esperado. intros H.
  apply bind_Some in H as (rs & Hrs & H). injection H as <-. cbn [columns rows].
  apply mapM_Some in Hrs. split; [reflexivity|].
  split; [symmetry; eapply Forall2_length, Hrs|]. split.
  - intros i r1 Hr1. destruct (Forall2_lookup_r _ _ _ _ _ Hrs Hr1) as (r & Hr & Hf).
    eauto.
  - intros i r Hr. destruct (Forall2_lookup_l _ _ _ _ _ Hrs Hr) as (r1 & Hr1 & Hf).
    eauto.
Qed.

(** X1: for every record of the frame returned by
    [calcular_vencimento_esperado], the shelf life in days is the parsed
    shelf-life text, and the expected expiration is defined exactly when
    the entry date is present and the shelf life is present and positive;
    it is then the entry date plus that many days, a sum within the range
    of timestamps.  A record without shelf-life text has no expected
    expiration. *)
Theorem vencimento_esperado_defined (df df1 : DataFrame Row) (i : nat) (r' : Row) :
  calcular_vencimento_esperado to_timedelta_days df = Some df1 ->
  rows df1 !! i = Some r' ->
  Dias_Validade r' = Parser.parse_tempo_validade_to_days (Tempo_de_Validade r') /\
  (Venc_Esperado r' <> None <->
     Data_de_entrada r' <> None /\ exists d, Dias_Validade r' = Some d /\ 0 < d) /\
  (forall e d, Data_de_entrada r' = Some e -> Dias_Validade r' = Some d -> 0 < d ->
     exists t, to_timedelta_days d = Some t /\
       (- TIMESTAMP_MAX <= e + t <= TIMESTAMP_MAX)%Z /\
       Venc_Esperado r' = Some (e + t)%Z) /\
  (Tempo_de_Validade r' = None -> Venc_Esperado r' = None).
Proof.
  intros Hdf1 Hr'.
  destruct (calcular_vencimento_esperado_inv df df1 Hdf1) as (_ & _ & Hrows & _).
  destruct (Hrows i r' Hr') as (r & _ & Hrow).
  destruct (vencimento_esperado_row_fields df r r' Hrow) as (_ & _ & _ & Hd & Hesp).
  destruct (venc_esperado_defined _ _ _ Hesp) as [Hiff Hval].
  split; [exact Hd|]. split; [exact Hiff|]. split; [exact Hval|].
  intros Ht. destruct (Venc_Esperado r') as [x|] eqn:Ex; [|reflexivity].
  exfalso. destruct Hiff as [Hiff _].
  destruct (Hiff ltac:(discriminate)) as (_ & d & Hd' & _).
  rewrite Hd, Ht in Hd'. discriminate Hd'.
Qed.

(** The columns that the last two stages read exist after the first
    two, whatever the columns of the loaded frame. *)
Lemma processar_required_columns (df df1 : DataFrame Row) (hoje : Timestamp) :
  calcular_vencimento_esperado to_timedelta_days df = Some df1 ->
  let df2 := StatusTempo.calcular_status_tempo df1 hoje in
  forallb (fun c => has_col c df2) StatusPercentual.required_columns = true /\
  (forall lb la df3,
     StatusPercentual.calcular_status_percentual df2 hoje lb la = Some df3 ->
     forallb (fun c => has_col c df3) Divergencias.required_columns = true /\
     has_col "Tempo de Validade" df3 = true).
Proof.
  intros Hdf1 df2.
  destruct (calcular_vencimento_esperado_inv df df1 Hdf1) as (Hcols & _).
  assert (forall c, c ∈ columns df2 <->
            c ∈ StatusTempo.new_columns \/ c ∈ new_columns \/ c ∈ columns df) as Hc2.
  { intros c. unfold df2, StatusTempo.calcular_status_tempo. cbn [columns].
    rewrite Hcols, !elem_of_set_cols. reflexivity. }
  assert (forall c, bool_decide (c ∈ StatusTempo.new_columns ++ new_columns) = true ->
            has_col c df2 = true) as H2.
  { intros c Hc. apply bool_decide_eq_true, Hc2.
    apply bool_decide_eq_true_1 in Hc. rewrite elem_of_app in Hc. tauto. }
  split.
  - cbn [forallb StatusPercentual.required_columns].
    rewrite !H2 by reflexivity. reflexivity.
  - intros lb la df3 Hdf3.
    destruct (calcular_status_percentual_inv _ _ _ _ _ Hdf3) as [_ Hc3].
    assert (forall c, bool_decide (c ∈ StatusPercentual.new_columns ++
                                      StatusTempo.new_columns ++ new_columns) = true ->
              has_col c df3 = true) as H3.
    { intros c Hc. apply bool_decide_eq_true, Hc3.
      apply bool_decide_eq_true_1 in Hc. rewrite !elem_of_app in Hc.
      destruct Hc as [Hc|Hc]; [left; exact Hc|]. right. apply Hc2. tauto. }
    cbn [forallb Divergencias.required_columns].
    rewrite !H3 by reflexivity. split; reflexivity.
Qed.

(** The frame returned by the processing sequence, record by record. *)
Lemma processar_rows (df df' : DataFrame Row) (hoje : Timestamp) (lb la : Q) :
  processar to_timedelta_days df hoje lb la = Some df' ->
  exists df1,
    calcular_vencimento_esperado to_timedelta_days df = Some df1 /\
    let df2 := StatusTempo.calcular_status_tempo df1 hoje in
    forall i, rows df' !! i =
      (fun r1 => Divergencias.divergencias_row true
                   (StatusPercentual.status_percentual_row df2 hoje lb la
                      (StatusTempo.status_tempo_row df1 hoje r1)))
      <$> (rows df1 !! i).
Proof.
  intros H. unfold processar in H.
  apply bind_Some in H as (df1 & Hdf1 & H).
  apply bind_Some in H as (df3 & Hdf3 & Hdf').
  exists df1. split; [exact Hdf1|]. intros df2 i.
  destruct (processar_required_columns df df1 hoje Hdf1) as [_ Hreq].
  destruct (Hreq lb la df3 Hdf3) as [_ Htempo].
  destruct (calcular_status_percentual_inv _ _ _ _ _ Hdf3) as [Hr3 _].
  destruct (identificar_divergencias_inv _ _ Hdf') as [Hr' _].
  rewrite Hr', Htempo, Hr3. unfold StatusTempo.calcular_status_tempo.
  cbn [rows]. rewrite !lookup_map.
  destruct (rows df1 !! i); reflexivity.
Qed.

(** Every record leaving the processing sequence is consistent: each
    derived field is the stage's function of the record's own fields. *)
Lemma processar_row_consistent (df df1 : DataFrame Row) (hoje : Timestamp) (lb la : Q)
    (r r1 : Row) :
  calcular_vencimento_esperado to_timedelta_days df = Some df1 ->
  vencimento_esperado_row to_timedelta_days df r = Some r1 ->
  let df2 := StatusTempo.calcular_status_tempo df1 hoje in
  let venc0 := get_cell df "Data de vencimento" Data_de_vencimento r in
  let r' := Divergencias.divergencias_row true
              (StatusPercentual.status_percentual_row df2 hoje lb la
                 (StatusTempo.status_tempo_row df1 hoje r1)) in
  Dias_Validade r' = Parser.parse_tempo_validade_to_days (Tempo_de_Validade r') /\
  Venc_Esperado r' = Venc_Esperado r1 /\
  Data_de_entrada r' = Data_de_entrada r1 /\
  Data_de_vencimento r' = scrub venc0 /\
  Venc_Analise r' =
    (if StatusTempo.is_2070 venc0 then None
     else fillna (scrub venc0) (scrub (Venc_Esperado r'))) /\
  Dias_Restantes r' = StatusTempo.dias_entre (Venc_Analise r') (Some hoje) /\
  Status_Tempo r' =
    Some (np_select (StatusTempo.conds (Venc_Analise r') (Data_de_entrada r')
                       (StatusTempo.dias_entre (Venc_Analise r') (Data_de_entrada r')))
            StatusTempo.choices StatusTempo.SEM_VALIDADE) /\
  Pct_Restante r' = StatusPercentual.pct_restante r' /\
  Status r' = Some (StatusPercentual.status_of (Pct_Restante r') lb la) /\
  Tipo_Problema r' =
    Some (np_select (Divergencias.conds true r') Divergencias.choices "").
Proof.
  intros Hdf1 Hr1 df2 venc0 r'.
  destruct (calcular_vencimento_esperado_inv df df1 Hdf1) as (Hcols & _).
  destruct (vencimento_esperado_row_fields df r r1 Hr1) as (_ & _ & Hvenc1 & Hdias1 & _).
  assert (forall c, has_col c df1 = bool_decide (c ∈ new_columns \/ c ∈ columns df))
    as Hhas1.
  { intros c. unfold has_col. rewrite Hcols. apply bool_decide_ext, elem_of_set_cols. }
  assert (has_col "Data de entrada" df1 = true) as He by (rewrite Hhas1; reflexivity).
  assert (has_col "Venc_Esperado" df1 = true) as Hesp by (rewrite Hhas1; reflexivity).
  assert (has_col "Data de vencimento" df1 = has_col "Data de vencimento" df) as Hv.
  { rewrite Hhas1. unfold has_col. apply bool_decide_ext. split; [|auto].
    intros [H|H]; [|exact H]. unfold new_columns in H.
    repeat (apply elem_of_cons in H as [H|H]; [discriminate H|]). inversion H. }
  assert (forall c, has_col c df2
                    = bool_decide (c ∈ StatusTempo.new_columns \/ c ∈ columns df1))
    as Hhas2.
  { intros c. unfold df2, StatusTempo.calcular_status_tempo. apply has_col_set_cols. }
  assert (has_col "Dias_Validade" df2 = true) as Hd.
  { rewrite Hhas2. apply bool_decide_eq_true. right. rewrite Hcols.
    apply elem_of_set_cols. left. apply (bool_decide_unpack _). vm_compute. exact I. }
  assert (has_col "Dias_Restantes" df2 = true) as Hr by (rewrite Hhas2; reflexivity).
  assert (get_cell df1 "Data de vencimento" Data_de_vencimento r1 = venc0) as Hvenc0
    by (unfold get_cell, venc0; rewrite Hv, Hvenc1; reflexivity).
  assert (get_cell df1 "Venc_Esperado" Venc_Esperado r1 = Venc_Esperado r1) as Hesp1
    by (unfold get_cell; rewrite Hesp; reflexivity).
  assert (get_cell df1 "Data de entrada" Data_de_entrada r1 = Data_de_entrada r1) as Hent1
    by (unfold get_cell; rewrite He; reflexivity).
  destruct (venc_analise_scrub true venc0 (Venc_Esperado r1)) as [Hva _];
    [discriminate|].
  subst r'. unfold StatusTempo.status_tempo_row.
  rewrite Hvenc0, Hesp1, Hent1, Hesp, Hva.
  unfold Divergencias.divergencias_row, StatusPercentual.status_percentual_row.
  unfold get_cell at 1. rewrite Hd, Hr.
  cbn [Dias_Validade Tempo_de_Validade Venc_Esperado Data_de_entrada
       Data_de_vencimento Venc_Analise Dias_Restantes Status_Tempo Pct_Restante
       Status Tipo_Problema Dias_Validade_Total].
  repeat split; try reflexivity. exact Hdias1.
Qed.

(** A record of the processed frame, with the record it comes from. *)
Lemma processar_lookup (df df' : DataFrame Row) (hoje : Timestamp) (lb la : Q) :
  processar to_timedelta_days df hoje lb la = Some df' ->
  exists df1,
    calcular_vencimento_esperado to_timedelta_days df = Some df1 /\
    length (rows df') = length (rows df) /\
    (forall i r', rows df' !! i = Some r' ->
       exists r r1, rows df !! i = Some r /\
         vencimento_esperado_row to_timedelta_days df r = Some r1 /\
         r' = Divergencias.divergencias_row true
                (StatusPercentual.status_percentual_row
                   (StatusTempo.calcular_status_tempo df1 hoje) hoje lb la
                   (StatusTempo.status_tempo_row df1 hoje r1))) /\
    (forall i r, rows df !! i = Some r ->
       exists r1, vencimento_esperado_row to_timedelta_days df r = Some r1 /\
         rows df' !! i
         = Some (Divergencias.divergencias_row true
                   (StatusPercentual.status_percentual_row
                      (StatusTempo.calcular_status_tempo df1 hoje) hoje lb la
                      (StatusTempo.status_tempo_row df1 hoje r1)))).
Proof.
  intros Hdf'. destruct (processar_rows df df' hoje lb la Hdf') as (df1 & Hdf1 & Hrows).
  cbv zeta in Hrows.
  destruct (calcular_vencimento_esperado_inv df df1 Hdf1) as (_ & Hlen & Hback & Hfwd).
  exists df1. split; [exact Hdf1|]. split; [|split].
  - rewrite <- Hlen. apply Nat.le_antisymm.
    + destruct (decide (length (rows df') <= length (rows df1))%nat) as [H|H]; [exact H|].
      exfalso. assert (is_Some (rows df' !! length (rows df1))) as [x Hx]
        by (apply lookup_lt_is_Some; lia).
      rewrite Hrows in Hx. rewrite (lookup_ge_None_2 (rows df1)) in Hx by lia.
      discriminate Hx.
    + destruct (decide (length (rows df1) <= length (rows df'))%nat) as [H|H]; [exact H|].
      exfalso. assert (is_Some (rows df1 !! length (rows df'))) as [x Hx]
        by (apply lookup_lt_is_Some; lia).
      pose proof (Hrows (length (rows df'))) as Hi. rewrite Hx in Hi.
      rewrite (lookup_ge_None_2 (rows df')) in Hi by lia. discriminate Hi.
  - intros i r' Hr'. rewrite Hrows in Hr'.
    destruct (rows df1 !! i) as [r1|] eqn:E1; [|discriminate Hr'].
    injection Hr' as <-. destruct (Hback i r1 E1) as (r & Hr & Hrow). eauto.
  - intros i r Hr. destruct (Hfwd i r Hr) as (r1 & Hr1 & Hrow).
    exists r1. split; [exact Hrow|]. rewrite Hrows, Hr1. reflexivity.
Qed.

(** X2: the processing sequence (expected expiration, temporal status,
    percentual status, divergences) cannot fail on a missing column,
    whatever the columns of the loaded frame.  Whenever
    [calcular_vencimento_esperado] returns, the frame that reaches
    [calcular_status_percentual] has every column that function reads,
    and the frame it returns has every column that
    [identificar_divergencias] reads.  [calcular_vencimento_esperado]
    itself fails exactly when, for some record with an entry date and a
    positive shelf life, the conversion of the shelf life to a time span
    raises or the sum leaves the range of timestamps.  When the sequence
    returns, its result has as many rows as its input. *)
Theorem processar_columns_present (df : DataFrame Row) (hoje : Timestamp) (lb la : Q) :
  (calcular_vencimento_esperado to_timedelta_days df = None <->
   exists r e d,
     r ∈ rows df /\
     get_cell df "Data de entrada" Data_de_entrada r = Some e /\
     Parser.parse_tempo_validade_to_days
       (get_cell df "Tempo de Validade" Tempo_de_Validade r) = Some d /\
     0 < d /\
     (to_timedelta_days d = None \/
      exists t, to_timedelta_days d = Some t /\
        ~ (- TIMESTAMP_MAX <= e + t <= TIMESTAMP_MAX)%Z)) /\
  (forall df1,
     calcular_vencimento_esperado to_timedelta_days df = Some df1 ->
     let df2 := StatusTempo.calcular_status_tempo df1 hoje in
     forallb (fun c => has_col c df2) StatusPercentual.required_columns = true /\
     forall df3,
       StatusPercentual.calcular_status_percentual df2 hoje lb la = Some df3 ->
       forallb (fun c => has_col c df3) Divergencias.required_columns = true) /\
  (forall df',
     processar to_timedelta_days df hoje lb la = Some df' ->
     length (rows df') = length (rows df)).
Proof.
  split; [|split].
  - unfold calcular_vencimento_esperado. split.
    + intros H. destruct (mapM _ (rows df)) as [rs|] eqn:E; [discriminate H|].
      clear H. apply mapM_None, list.Exists_exists in E as (r & Hr & Hrow).
      unfold vencimento_esperado_row in Hrow.
      destruct (venc_esperado to_timedelta_days _ _) eqn:Ev; [discriminate Hrow|].
      apply venc_esperado_fails in Ev as (e & d & He & Hd & Hpos & Hbad).
      exists r, e, d. split; [exact Hr|]. split; [exact He|].
      split; [exact Hd|]. split; [exact Hpos | exact Hbad].
    + intros (r & e & d & Hr & He & Hd & Hpos & Hbad).
      assert (mapM (vencimento_esperado_row to_timedelta_days df) (rows df) = None)
        as ->; [|reflexivity].
      apply mapM_None, list.Exists_exists. exists r. split; [exact Hr|].
      unfold vencimento_esperado_row.
      assert (venc_esperado to_timedelta_days
                (get_cell df "Data de entrada" Data_de_entrada r)
                (Parser.parse_tempo_validade_to_days
                   (get_cell df "Tempo de Validade" Tempo_de_Validade r)) = None)
        as ->; [|reflexivity].
      apply venc_esperado_fails. exists e, d. split; [exact He|].
      split; [exact Hd|]. split; [exact Hpos | exact Hbad].
  - intros df1 Hdf1 df2.
    destruct (processar_required_columns df df1 hoje Hdf1) as [H2 H3].
    split; [exact H2|]. intros df3 Hdf3. apply (H3 lb la df3 Hdf3).
  - intros df' Hdf'.
    destruct (processar_lookup df df' hoje lb la Hdf') as (_ & _ & Hlen & _).
    exact Hlen.
Qed.

(** X3: in the frame returned by the processing sequence, a record whose
    percent conformance is defined has its shelf-life text, entry date,
    real expiration date and expected expiration all present, so none of
    the three missing-data problems applies to it: its problem type is
    "Material Vencido" when its remaining days are negative, else "Desvio
    Percentual Crítico" when its status is "Fora do esperado", else
    empty. *)
Theorem processar_conformance_problem (df : DataFrame Row) (hoje : Timestamp)
    (lb la : Q) (df' : DataFrame Row) (i : nat) (r' : Row) :
  processar to_timedelta_days df hoje lb la = Some df' ->
  rows df' !! i = Some r' ->
  Pct_Restante r' <> None ->
  (Tempo_de_Validade r' <> None /\ Data_de_entrada r' <> None /\
   Data_de_vencimento r' <> None /\ Venc_Esperado r' <> None) /\
  Tipo_Problema r' =
    Some (if cell_lt (Dias_Restantes r') 0 then Divergencias.MATERIAL_VENCIDO
          else if bool_decide (Status r' = Some StatusPercentual.FORA_DO_ESPERADO)
               then Divergencias.DESVIO_CRITICO
               else "").
Proof.
  intros Hdf' Hr' Hpct.
  destruct (processar_lookup df df' hoje lb la Hdf') as (df1 & Hdf1 & _ & Hback & _).
  destruct (Hback i r' Hr') as (r & r1 & _ & Hrow & Hr).
  destruct (processar_row_consistent df df1 hoje lb la r r1 Hdf1 Hrow)
    as (Hdias & Hesp & Hent & _ & _ & _ & _ & Hp & _ & Htipo).
  destruct (vencimento_esperado_row_fields df r r1 Hrow) as (_ & _ & _ & _ & Hv1).
  destruct (venc_esperado_defined _ _ _ Hv1) as [Hdef _].
  cbv zeta in Hdias, Hesp, Hent, Hp, Htipo. rewrite <- Hr in *.
  assert (Dias_Validade r1 = Dias_Validade r') as Hd1 by (rewrite Hr; reflexivity).
  rewrite <- Hesp, <- Hent, Hd1 in Hdef.
  rewrite Hp in Hpct. unfold StatusPercentual.pct_restante in Hpct.
  unfold StatusPercentual.validade_real in Hpct.
  destruct (Data_de_entrada r') as [e|] eqn:Ee; [|exfalso; apply Hpct; reflexivity].
  destruct (Data_de_vencimento r') as [v|] eqn:Ev; [|exfalso; apply Hpct; reflexivity].
  cbn [notna isna negb andb StatusTempo.dias_entre] in Hpct.
  destruct (Dias_Validade r') as [d|] eqn:Ed; [|exfalso; apply Hpct; reflexivity].
  cbn [notna isna negb andb] in Hpct.
  destruct (StatusPercentual.q_gt (Some d) 0) eqn:Hgt; [|exfalso; apply Hpct; reflexivity].
  apply q_gt_iff in Hgt as (d' & Hd' & Hpos). inversion Hd'; subst d'.
  assert (Tempo_de_Validade r' <> None) as Ht.
  { intros Ht. rewrite Ht in Hdias. discriminate Hdias. }
  assert (Venc_Esperado r' <> None) as Hex.
  { apply Hdef. split; [discriminate | eauto]. }
  split; [repeat split; (assumption || discriminate)|].
  rewrite Htipo. unfold Divergencias.conds. rewrite Ev.
  destruct (Tempo_de_Validade r'); [|contradiction].
  destruct (Venc_Esperado r'); [|contradiction].
  cbn [isna notna negb andb orb np_select Divergencias.choices].
  destruct (cell_lt (Dias_Restantes r') 0); [reflexivity|].
  destruct (bool_decide (Status r' = Some StatusPercentual.FORA_DO_ESPERADO));
    reflexivity.
Qed.

(** X4: in the frame returned by the processing sequence, a record whose
    original real expiration date has year 2070 has no real expiration
    date and no analysis date, both statuses are "Sem Validade", its
    percent conformance is undefined, and its problem type is "Sem Data
    Real no SQ00" when it has an expected expiration and empty
    otherwise. *)
Theorem processar_sentinel_2070 (df : DataFrame Row) (hoje : Timestamp)
    (lb la : Q) (df' : DataFrame Row) (i : nat) (r : Row) :
  processar to_timedelta_days df hoje lb la = Some df' ->
  rows df !! i = Some r ->
  StatusTempo.is_2070 (get_cell df "Data de vencimento" Data_de_vencimento r) = true ->
  exists r', rows df' !! i = Some r' /\
    Data_de_vencimento r' = None /\ Venc_Analise r' = None /\
    Status_Tempo r' = Some StatusTempo.SEM_VALIDADE /\
    Pct_Restante r' = None /\
    Status r' = Some StatusPercentual.SEM_VALIDADE /\
    Tipo_Problema r' =
      Some (if isna (Venc_Esperado r') then "" else Divergencias.SEM_DATA_REAL).
Proof.
  intros Hdf' Hr H2070.
  destruct (processar_lookup df df' hoje lb la Hdf') as (df1 & Hdf1 & _ & _ & Hfwd).
  destruct (Hfwd i r Hr) as (r1 & Hrow & Hr').
  eexists. split; [exact Hr'|].
  destruct (processar_row_consistent df df1 hoje lb la r r1 Hdf1 Hrow)
    as (Hdias & Hesp & Hent & Hv & Hva & Hrest & Hst & Hp & Hs & Htipo).
  destruct (vencimento_esperado_row_fields df r r1 Hrow) as (_ & _ & _ & _ & Hv1).
  destruct (venc_esperado_defined _ _ _ Hv1) as [Hdef _].
  cbv zeta in Hdias, Hesp, Hent, Hv, Hva, Hrest, Hst, Hp, Hs, Htipo.
  set (r' := Divergencias.divergencias_row true _) in *.
  assert (Dias_Validade r1 = Dias_Validade r') as Hd1 by reflexivity.
  rewrite <- Hesp, <- Hent, Hd1 in Hdef.
  unfold scrub in Hv. rewrite H2070 in Hv, Hva.
  assert (Pct_Restante r' = None) as Hp0.
  { rewrite Hp. unfold StatusPercentual.pct_restante, StatusPercentual.validade_real.
    rewrite Hv. destruct (Data_de_entrada r'); reflexivity. }
  split; [exact Hv|]. split; [exact Hva|].
  split; [rewrite Hst, Hva; reflexivity|].
  split; [exact Hp0|].
  split; [rewrite Hs, Hp0; reflexivity|].
  rewrite Htipo. unfold Divergencias.conds. rewrite Hv, Hrest, Hva, Hs, Hp0.
  destruct (Venc_Esperado r') eqn:Ee.
  - assert (Tempo_de_Validade r' <> None) as Ht.
    { intros Ht. destruct Hdef as [Hdef _].
      destruct (Hdef ltac:(discriminate)) as (_ & d & Hd & _).
      rewrite Hdias, Ht in Hd. discriminate Hd. }
    destruct (Tempo_de_Validade r'); [|contradiction]. reflexivity.
  - destruct (Tempo_de_Validade r'); reflexivity.
Qed.

End ExpiryCalcFacts.

Section StatusPercentualFacts.
Import StatusPercentual.
Local Open Scope Q_scope.

Lemma status_of_cases (lb la : Q) :
  la < lb ->
  status_of None lb la = SEM_VALIDADE /\
  forall p,
    (lb <= p -> status_of (Some p) lb la = DENTRO_DO_ESPERADO) /\
    (la <= p < lb -> status_of (Some p) lb la = ATENCAO) /\
    (p < la -> status_of (Some p) lb la = FORA_DO_ESPERADO).
Proof.
  intros Hlt. split; [reflexivity|]. intros p.
  unfold status_of, q_ge, q_lt. cbn [notna isna negb andb].
  assert (forall a b, a <= b -> Qle_bool a b = true) as Hle
    by (intros a b; apply Qle_bool_iff).
  assert (forall a b, b < a -> Qle_bool a b = false) as Hgt.
  { intros a b H. destruct (Qle_bool a b) eqn:E; [|reflexivity].
    apply Qle_bool_iff in E. exfalso. exact (Qlt_not_le _ _ H E). }
  repeat split.
  - intros H. rewrite (Hle lb p H).
    rewrite (Hle la p) by (apply Qlt_le_weak; eapply Qlt_le_trans; eauto).
    reflexivity.
  - intros [H1 H2]. rewrite (Hgt lb p H2), (Hle la p H1). reflexivity.
  - intros H. rewrite (Hgt la p H).
    destruct (Qle_bool lb p); reflexivity.
Qed.

(** X5: with thresholds [limiar_atencao < limiar_bom], every record of
    the frame returned by [calcular_status_percentual] has status "Sem
    Validade" when its percent conformance is undefined, "Dentro do
    esperado" when it is at least [limiar_bom], "Atenção" when it is at
    least [limiar_atencao] and below [limiar_bom], and "Fora do esperado"
    when it is below [limiar_atencao]. *)
Theorem status_percentual_classification (df df' : DataFrame Row) (hoje : Timestamp)
    (limiar_bom limiar_atencao : Q) (i : nat) (r' : Row) :
  limiar_atencao < limiar_bom ->
  calcular_status_percentual df hoje limiar_bom limiar_atencao = Some df' ->
  rows df' !! i = Some r' ->
  match Pct_Restante r' with
  | None => Status r' = Some SEM_VALIDADE
  | Some p =>
      (limiar_bom <= p -> Status r' = Some DENTRO_DO_ESPERADO) /\
      (limiar_atencao <= p < limiar_bom -> Status r' = Some ATENCAO) /\
      (p < limiar_atencao -> Status r' = Some FORA_DO_ESPERADO)
  end.
Proof.
  intros Hlt Hdf' Hr'. unfold calcular_status_percentual in Hdf'.
  destruct (forallb _ _); [|discriminate Hdf'].
  inversion Hdf'; subst df'. cbn [rows] in Hr'. rewrite lookup_map in Hr'.
  destruct (rows df !! i) as [r|]; [|discriminate Hr'].
  injection Hr' as <-. unfold status_percentual_row; cbn [Pct_Restante Status].
  destruct (status_of_cases limiar_bom limiar_atencao Hlt) as [Hnone Hsome].
  destruct (pct_restante r) as [p|].
  - destruct (Hsome p) as (H1 & H2 & H3).
    split; [|split]; intros H; f_equal; auto.
  - rewrite Hnone. reflexivity.
Qed.

End StatusPercentualFacts.

(** ** Audit report and indicators *)

Lemma length_map_rows {A B} (f : A -> B) (l : list A) : length (map f l) = length l.
Proof. induction l; cbn; auto. Qed.

Lemma filter_length_le {A} (P : A -> Prop) `{forall x, Decision (P x)} (l : list A) :
  (length (filter P l) <= length l)%nat.
Proof. apply sublist_length, sublist_filter. Qed.

Lemma filter_disjoint_length {A} (P Q : A -> Prop)
    `{forall x, Decision (P x)} `{forall x, Decision (Q x)} (l : list A) :
  (forall x, P x -> Q x -> False) ->
  (length (filter P l) + length (filter Q l) <= length l)%nat.
Proof.
  intros Hd. induction l as [|x l IH]; [reflexivity|].
  rewrite !filter_cons. destruct (decide (P x)) as [Hp|], (decide (Q x)) as [Hq|];
    cbn [length]; try lia.
  exfalso. exact (Hd x Hp Hq).
Qed.

Section AuditoriaFacts.
Import Auditoria.

(** X6: the audit report of a frame that went through
    [identificar_divergencias] is always produced; when some record is
    flagged as problem its columns are exactly those of the documented
    audit list that the frame has, in the order of that list; it has one
    row per record flagged as problem, in order, and no row at all (and
    no column) when no record is flagged; every row carries one of the
    five problem tags and no longer carries the flag. *)
Theorem auditoria_of_divergencias (df : DataFrame Row) :
  forallb (fun c => has_col c df) Divergencias.required_columns = true ->
  exists df' audit,
    Divergencias.identificar_divergencias df = Some df' /\
    gerar_auditoria df' = Some audit /\
    columns audit `sublist_of` cols_audit /\
    (forall c, c ∈ columns audit -> c ∈ columns df') /\
    rows audit =
      map (project_row (columns audit))
          (filter (fun r => Tem_Problema r = Some true) (rows df')) /\
    (rows audit = [] <-> forall r, r ∈ rows df' -> Tem_Problema r = Some false) /\
    (rows audit = [] -> columns audit = []) /\
    (rows audit <> [] ->
       columns audit = filter (fun c => c ∈ columns df') cols_audit) /\
    (forall a, a ∈ rows audit ->
       Tem_Problema a = None /\
       exists tag, tag ∈ Divergencias.choices /\ Tipo_Problema a = Some tag).
Proof.
  intros Hreq. destruct (rows_identificar_divergencias df Hreq) as (df' & Hdf' & _).
  destruct (identificar_divergencias_inv df df' Hdf') as [Hrows Hcols].
  assert (forall r, r ∈ rows df' ->
            exists tipo, Tipo_Problema r = Some tipo /\
              Tem_Problema r = Some (negb (bool_decide (tipo = ""))) /\
              (tipo = "" \/ tipo ∈ Divergencias.choices)) as Hrow.
  { intros r Hr. rewrite Hrows in Hr. apply elem_of_map in Hr as (r0 & -> & _).
    eexists. split; [reflexivity|]. split; [reflexivity|].
    destruct (np_select_cases
                (Divergencias.conds (has_col "Tempo de Validade" df) r0)
                Divergencias.choices "") as [->|(k & tag & _ & Htag & ->)];
      [left; reflexivity|].
    right. eapply list_elem_of_lookup_2, Htag. }
  assert (has_col "Tem_Problema" df' = true) as Hflag.
  { unfold has_col. apply bool_decide_eq_true, Hcols. left.
    apply (bool_decide_unpack _). vm_compute. exact I. }
  assert (forallb (fun r => notna (Tem_Problema r)) (rows df') = true) as Hnotna.
  { apply forallb_forall. intros r Hr%list_elem_of_In.
    destruct (Hrow r Hr) as (tipo & _ & -> & _). reflexivity. }
  remember (filter (fun r => Tem_Problema r = Some true) (rows df')) as prob eqn:Eprob.
  assert (problem_rows df' = Some prob) as Hprob
    by (unfold problem_rows; rewrite Hflag, Hnotna, Eprob; reflexivity).
  assert (prob = [] <-> forall r, r ∈ rows df' -> Tem_Problema r = Some false) as Hnil.
  { split.
    - intros Hp r Hr. destruct (Hrow r Hr) as (tipo & _ & Ht & _).
      destruct (bool_decide (tipo = "")) eqn:E; cbn [negb] in Ht; [exact Ht|].
      exfalso. assert (r ∈ prob) as Hin
        by (rewrite Eprob; apply list_elem_of_filter; auto).
      rewrite Hp in Hin. inversion Hin.
    - intros Hall. rewrite Eprob. apply filter_none. intros r Hr Ht.
      rewrite (Hall r Hr) in Ht. discriminate Ht. }
  destruct prob as [|p prob'].
  - exists df', {| columns := []; rows := [] |}.
    split; [exact Hdf'|]. split; [unfold gerar_auditoria; rewrite Hprob; reflexivity|].
    cbn [columns rows]. split; [apply sublist_nil_l|].
    split; [intros c Hc; inversion Hc|]. split; [rewrite <- Eprob; reflexivity|].
    split; [split; [intros _; apply Hnil; reflexivity | reflexivity]|].
    split; [reflexivity|]. split; [intros H; exfalso; apply H; reflexivity|].
    intros a Ha. inversion Ha.
  - set (cols_keep := filter (fun c => c ∈ columns df') cols_audit).
    exists df', {| columns := cols_keep; rows := map (project_row cols_keep) (p :: prob') |}.
    split; [exact Hdf'|]. split; [unfold gerar_auditoria; rewrite Hprob; reflexivity|].
    cbn [columns rows]. split; [apply sublist_filter|].
    split; [intros c Hc; apply list_elem_of_filter in Hc as [Hc _]; exact Hc|].
    split; [rewrite <- Eprob; reflexivity|].
    split; [split; [discriminate | intros H; apply Hnil in H; discriminate H]|].
    split; [discriminate|]. split; [intros _; reflexivity|].
    intros a Ha. apply elem_of_map in Ha as (r & -> & Hr).
    rewrite Eprob in Hr. apply list_elem_of_filter in Hr as [Hflagr Hr].
    split.
    + unfold project_row, keep. cbn [Tem_Problema].
      rewrite bool_decide_eq_false_2; [reflexivity|].
      intros Hin. apply list_elem_of_filter in Hin as [_ Hin].
      apply (bool_decide_pack _) in Hin. vm_compute in Hin. exact Hin.
    + destruct (Hrow r Hr) as (tipo & Htipo & Ht & Hchoice).
      exists tipo. split.
      * destruct Hchoice as [->|Hc]; [|exact Hc].
        rewrite Ht in Hflagr. discriminate Hflagr.
      * unfold project_row, keep. cbn [Tipo_Problema].
        rewrite bool_decide_eq_true_2; [exact Htipo|].
        apply list_elem_of_filter. split.
        -- apply Hcols. left. apply (bool_decide_unpack _). vm_compute. exact I.
        -- apply (bool_decide_unpack _). vm_compute. exact I.
Qed.

End AuditoriaFacts.

Section KPIsFacts.
Import KPIs.

Lemma perc_zero_total (x : Z) : perc x 0 = 0%Q.
Proof. reflexivity. Qed.

Lemma perc_nonneg (x t : Z) : 0 <= x -> (0 <= perc x t)%Q.
Proof.
  intros Hx. unfold perc. case_bool_decide as Ht; [|apply Qle_refl].
  destruct t as [|t|t]; try lia.
  unfold Qle, Qdiv, Qmult, Qinv, inject_Z. cbn. nia.
Qed.

Lemma perc_le_100 (x t : Z) : 0 <= x -> x <= t -> (perc x t <= 100)%Q.
Proof.
  intros Hx Hxt. unfold perc. case_bool_decide as Ht; [|discriminate].
  destruct t as [|t|t]; try lia.
  unfold Qle, Qdiv, Qmult, Qinv, inject_Z. cbn. nia.
Qed.

Lemma count_eq_bounds (f : Row -> option string) (v : string) (l : list Row) :
  0 <= count_eq f v l <= Z.of_nat (length l).
Proof.
  unfold count_eq. split; [lia|].
  apply inj_le, filter_length_le.
Qed.

Lemma count_eq_disjoint (f : Row -> option string) (v w : string) (l : list Row) :
  v <> w -> count_eq f v l + count_eq f w l <= Z.of_nat (length l).
Proof.
  intros Hvw. unfold count_eq. rewrite <- Nat2Z.inj_add. apply inj_le.
  apply filter_disjoint_length. intros r Hv Hw. rewrite Hv in Hw.
  injection Hw as Hw. exact (Hvw Hw).
Qed.

Lemma count_eq_map (f : Row -> option string) (g : Row -> Row) (v : string)
    (l : list Row) :
  (forall r, r ∈ l -> f (g r) = f r) ->
  count_eq f v (map g l) = count_eq f v l.
Proof.
  unfold count_eq. intros Hg. f_equal.
  induction l as [|r l IH]; [reflexivity|].
  cbn [map]. rewrite !filter_cons, (Hg r) by (left).
  destruct (decide (f r = Some v)); cbn [length];
    rewrite IH by (intros r' Hr'; apply Hg; right; exact Hr'); reflexivity.
Qed.

(** The frame on which [calcular_kpis] counts. *)
Lemma calcular_kpis_inv (df : DataFrame Row) (hoje : Timestamp) (lb la : Q) (k : Kpis) :
  calcular_kpis df hoje lb la = Some k ->
  exists l, length l = length (rows df) /\
    k = {| total := Z.of_nat (length (rows df));
           critico_desvio := count_eq Status StatusPercentual.FORA_DO_ESPERADO l;
           perc_critico_desvio :=
             perc (count_eq Status StatusPercentual.FORA_DO_ESPERADO l)
                  (Z.of_nat (length (rows df)));
           critico_tempo := count_eq Status_Tempo StatusTempo.CRITICO l;
           perc_critico_tempo :=
             perc (count_eq Status_Tempo StatusTempo.CRITICO l)
                  (Z.of_nat (length (rows df)));
           atencao := count_eq Status StatusPercentual.ATENCAO l;
           perc_atencao :=
             perc (count_eq Status StatusPercentual.ATENCAO l)
                  (Z.of_nat (length (rows df))) |}.
Proof.
  unfold calcular_kpis.
  set (df0 := if negb (has_col "Status_Tempo" df)
              then StatusTempo.calcular_status_tempo df hoje else df).
  assert (length (rows df0) = length (rows df)) as H0.
  { unfold df0. destruct (negb _); [|reflexivity].
    unfold StatusTempo.calcular_status_tempo. cbn [rows]. apply length_map_rows. }
  destruct (StatusPercentual.calcular_status_percentual df0 hoje lb la) as [df1|] eqn:E1;
    [|discriminate].
  destruct (calcular_status_percentual_inv _ _ _ _ _ E1) as [H1 _].
  cbn [mbind option_bind].
  destruct (Divergencias.identificar_divergencias df1) as [df2|] eqn:E2; [|discriminate].
  destruct (identificar_divergencias_inv _ _ E2) as [H2 _].
  cbn [mbind option_bind]. intros Hk. injection Hk as <-.
  exists (rows df2). split; [|reflexivity].
  rewrite H2, length_map_rows, H1, length_map_rows. exact H0.
Qed.

(** X7: whenever [calcular_kpis] returns, the total is the number of rows
    of the frame it was given, each count lies between zero and the
    total, the records "Fora do esperado" and "Atenção" together do not
    exceed the total, and each of the three percentages lies between 0
    and 100.  For a frame with no rows all counts and percentages are
    zero. *)
Theorem calcular_kpis_bounds (df : DataFrame Row) (hoje : Timestamp) (lb la : Q)
    (k : Kpis) :
  calcular_kpis df hoje lb la = Some k ->
  total k = Z.of_nat (length (rows df)) /\
  0 <= critico_desvio k /\ 0 <= atencao k /\
  critico_desvio k + atencao k <= total k /\
  0 <= critico_tempo k <= total k /\
  (0 <= perc_critico_desvio k <= 100)%Q /\
  (0 <= perc_atencao k <= 100)%Q /\
  (0 <= perc_critico_tempo k <= 100)%Q /\
  (rows df = [] ->
     critico_desvio k = 0 /\ atencao k = 0 /\ critico_tempo k = 0 /\
     perc_critico_desvio k = 0%Q /\ perc_atencao k = 0%Q /\
     perc_critico_tempo k = 0%Q).
Proof.
  intros Hk. destruct (calcular_kpis_inv df hoje lb la k Hk) as (l & Hlen & ->).
  cbn [total critico_desvio atencao critico_tempo perc_critico_desvio perc_atencao
       perc_critico_tempo].
  rewrite <- Hlen.
  pose proof (count_eq_bounds Status StatusPercentual.FORA_DO_ESPERADO l) as Hd.
  pose proof (count_eq_bounds Status StatusPercentual.ATENCAO l) as Ha.
  pose proof (count_eq_bounds Status_Tempo StatusTempo.CRITICO l) as Ht.
  assert (count_eq Status StatusPercentual.FORA_DO_ESPERADO l
          + count_eq Status StatusPercentual.ATENCAO l <= Z.of_nat (length l)) as Hsum
    by (apply count_eq_disjoint; discriminate).
  split; [reflexivity|]. split; [lia|]. split; [lia|]. split; [exact Hsum|].
  split; [exact Ht|].
  split; [split; [apply perc_nonneg | apply perc_le_100]; lia|].
  split; [split; [apply perc_nonneg | apply perc_le_100]; lia|].
  split; [split; [apply perc_nonneg | apply perc_le_100]; lia|].
  intros Hnil. assert (l = []) as ->.
  { destruct l; [reflexivity|]. rewrite Hnil in Hlen. discriminate Hlen. }
  repeat split; reflexivity.
Qed.

(** X9: [calcular_kpis] never returns on an audit report.  The report
    keeps only columns of the audit list, which has neither
    ["Venc_Analise"] nor ["Dias_Validade"]; [calcular_status_percentual]
    reads both, and [calcular_status_tempo], run first when the report
    has no ["Status_Tempo"], creates only the former. *)
Theorem calcular_kpis_fails_on_auditoria (df audit : DataFrame Row)
    (hoje : Timestamp) (lb la : Q) :
  Auditoria.gerar_auditoria df = Some audit ->
  calcular_kpis audit hoje lb la = None.
Proof.
  intros Ha.
  assert (forall c, c ∈ columns audit -> c ∈ Auditoria.cols_audit) as Hcols.
  { unfold Auditoria.gerar_auditoria in Ha.
    destruct (Auditoria.problem_rows df) as [[|p l]|]; cbn [mbind option_bind] in Ha;
      [| |discriminate Ha]; injection Ha as <-; cbn [columns]; intros c Hc.
    - inversion Hc.
    - apply list_elem_of_filter in Hc as [_ Hc]. exact Hc. }
  assert (has_col "Venc_Analise" audit = false) as Hva.
  { apply bool_decide_eq_false. intros Hc%Hcols.
    apply (bool_decide_pack _) in Hc. vm_compute in Hc. exact Hc. }
  assert ("Dias_Validade" ∉ columns audit) as Hdv.
  { intros Hc%Hcols. apply (bool_decide_pack _) in Hc. vm_compute in Hc. exact Hc. }
  unfold calcular_kpis. destruct (has_col "Status_Tempo" audit); cbn [negb].
  - unfold StatusPercentual.calcular_status_percentual.
    cbn [forallb StatusPercentual.required_columns]. rewrite Hva. reflexivity.
  - unfold StatusPercentual.calcular_status_percentual.
    assert (has_col "Dias_Validade" (StatusTempo.calcular_status_tempo audit hoje)
            = false) as Hd.
    { unfold StatusTempo.calcular_status_tempo. rewrite has_col_set_cols.
      apply bool_decide_eq_false. intros [Hc|Hc]; [|exact (Hdv Hc)].
      apply (bool_decide_pack _) in Hc. vm_compute in Hc. exact Hc. }
    cbn [forallb StatusPercentual.required_columns]. rewrite Hd.
    rewrite !andb_false_r. reflexivity.
Qed.

End KPIsFacts.

Section KPIsOfProcessed.
Import ExpiryCalc KPIs.
Variable to_timedelta_days : Q -> option Z.

Lemma processar_columns (df df' : DataFrame Row) (hoje : Timestamp) (lb la : Q)
    (c : string) :
  processar to_timedelta_days df hoje lb la = Some df' ->
  c ∈ columns df' <->
  c ∈ Divergencias.new_columns \/ c ∈ StatusPercentual.new_columns \/
  c ∈ StatusTempo.new_columns \/ c ∈ ExpiryCalc.new_columns \/ c ∈ columns df.
Proof.
  unfold processar. intros H.
  apply bind_Some in H as (df1 & E1 & H).
  apply bind_Some in H as (df3 & E3 & E4).
  destruct (identificar_divergencias_inv _ _ E4) as [_ H4].
  destruct (calcular_status_percentual_inv _ _ _ _ _ E3) as [_ H3].
  destruct (calcular_vencimento_esperado_inv to_timedelta_days df df1 E1) as (H1 & _).
  rewrite H4, H3. unfold StatusTempo.calcular_status_tempo. cbn [columns].
  rewrite H1, !elem_of_set_cols. reflexivity.
Qed.

Lemma processar_row_of (df df' : DataFrame Row) (hoje : Timestamp) (lb la : Q)
    (r' : Row) :
  processar to_timedelta_days df hoje lb la = Some df' ->
  r' ∈ rows df' ->
  (exists t, Status_Tempo r' = Some t /\ t ∈ StatusTempo.choices) /\
  (exists b, Tem_Problema r' = Some b) /\
  Pct_Restante r' = StatusPercentual.pct_restante r' /\
  Status r' = Some (StatusPercentual.status_of (Pct_Restante r') lb la) /\
  Tipo_Problema r' =
    Some (np_select (Divergencias.conds true r') Divergencias.choices "").
Proof.
  intros Hdf' Hr'.
  destruct (processar_lookup to_timedelta_days df df' hoje lb la Hdf')
    as (df1 & Hdf1 & _ & Hback & _).
  apply list_elem_of_lookup in Hr' as [i Hi].
  destruct (Hback i r' Hi) as (r & r1 & _ & Hrow & ->).
  destruct (processar_row_consistent to_timedelta_days df df1 hoje lb la r r1 Hdf1 Hrow)
    as (_ & _ & _ & _ & _ & _ & Hst & Hp & Hs & Htipo).
  cbv zeta in Hst, Hp, Hs, Htipo.
  split; [|split; [eexists; reflexivity | auto]].
  rewrite Hst. eexists. split; [reflexivity|].
  match goal with |- np_select ?c _ _ ∈ _ =>
    destruct (np_select_cases c StatusTempo.choices StatusTempo.SEM_VALIDADE)
      as [->|(k & tag & _ & Htag & ->)]
  end.
  - left.
  - eapply list_elem_of_lookup_2, Htag.
Qed.

(** X8: on any selection of records of the processed frame that keeps
    its columns, [calcular_kpis] with the same thresholds returns, and its
    three counts are the numbers of records that already carry the labels
    "Fora do esperado", "Crítico (<30 dias)" and "Atenção": recomputing
    the percentual status reproduces the stored one, and the date passed
    to [calcular_kpis] has no influence. *)
Theorem calcular_kpis_counts_stored_labels (df df' d : DataFrame Row)
    (hoje hoje' : Timestamp) (lb la : Q) :
  processar to_timedelta_days df hoje lb la = Some df' ->
  (forall c, c ∈ columns df' -> c ∈ columns d) ->
  (forall r, r ∈ rows d -> r ∈ rows df') ->
  exists k, calcular_kpis d hoje' lb la = Some k /\
    total k = Z.of_nat (length (rows d)) /\
    critico_desvio k = count_eq Status StatusPercentual.FORA_DO_ESPERADO (rows d) /\
    critico_tempo k = count_eq Status_Tempo StatusTempo.CRITICO (rows d) /\
    atencao k = count_eq Status StatusPercentual.ATENCAO (rows d).
Proof.
  intros Hdf' Hcols Hsel.
  assert (forall c, c ∈ Divergencias.new_columns ++ StatusPercentual.new_columns ++
                      StatusTempo.new_columns ++ ExpiryCalc.new_columns ->
                    has_col c d = true) as Hhas.
  { intros c Hc. apply bool_decide_eq_true, Hcols.
    apply (processar_columns df df' hoje lb la c Hdf').
    rewrite !elem_of_app in Hc. tauto. }
  assert (forall c, bool_decide
            (c ∈ Divergencias.new_columns ++ StatusPercentual.new_columns ++
                 StatusTempo.new_columns ++ ExpiryCalc.new_columns) = true ->
          has_col c d = true) as Hhas'
    by (intros c Hc; apply Hhas; exact (bool_decide_eq_true_1 _ Hc)).
  unfold calcular_kpis. rewrite (Hhas' "Status_Tempo" eq_refl). cbn [negb].
  unfold StatusPercentual.calcular_status_percentual.
  cbn [forallb StatusPercentual.required_columns].
  rewrite (Hhas' "Venc_Analise" eq_refl), (Hhas' "Data de entrada" eq_refl),
    (Hhas' "Data de vencimento" eq_refl), (Hhas' "Dias_Validade" eq_refl).
  cbn [andb mbind option_bind]. unfold Divergencias.identificar_divergencias.
  match goal with |- context [forallb ?f ?l] =>
    assert (forallb f l = true) as -> end.
  { cbn [forallb Divergencias.required_columns]. rewrite !has_col_set_cols.
    repeat (apply andb_true_intro; split); try reflexivity;
      apply bool_decide_eq_true.
    - right. exact (bool_decide_eq_true_1 _ (Hhas' "Data de vencimento" eq_refl)).
    - right. exact (bool_decide_eq_true_1 _ (Hhas' "Venc_Esperado" eq_refl)). }
  eexists. split; [reflexivity|].
  cbn [total critico_desvio critico_tempo atencao rows].
  split; [reflexivity|].
  assert (forall r, r ∈ rows d ->
            Status (StatusPercentual.status_percentual_row d hoje' lb la r) = Status r)
    as Hstatus.
  { intros r Hr. destruct (processar_row_of df df' hoje lb la r Hdf' (Hsel r Hr))
      as (_ & _ & Hp & Hs & _).
    rewrite Hs, Hp. reflexivity. }
  repeat split.
  - rewrite count_eq_map by reflexivity. apply count_eq_map, Hstatus.
  - rewrite count_eq_map by reflexivity. apply count_eq_map. reflexivity.
  - rewrite count_eq_map by reflexivity. apply count_eq_map, Hstatus.
Qed.

End KPIsOfProcessed.

(** ** Filters: what is selected and what is reported *)

Section FiltersFacts.
Import Filters.
Context {Pattern : Type}.
Variable re_compile : string -> option Pattern.
Variable re_search : Pattern -> string -> bool.

Lemma select_rows_map {A} (g : A -> bool) (l : list A) :
  select_rows (map g l) l = filter (fun x => g x = true) l.
Proof.
  induction l as [|x l IH]; [reflexivity|].
  cbn [map select_rows]. rewrite filter_cons, IH.
  destruct (g x); [rewrite decide_True by reflexivity | rewrite decide_False by discriminate];
    reflexivity.
Qed.

Lemma mask_and_map {A} (g h : A -> bool) (l : list A) :
  mask_and (map g l) (map h l) = map (fun x => g x && h x) l.
Proof.
  unfold mask_and. induction l as [|x l IH]; [reflexivity|].
  cbn [map zip_with]. rewrite IH. reflexivity.
Qed.

Lemma zip_with_orb_map {A} (g h : A -> bool) (l : list A) :
  zip_with orb (map g l) (map h l) = map (fun x => g x || h x) l.
Proof.
  induction l as [|x l IH]; [reflexivity|].
  cbn [map zip_with]. rewrite IH. reflexivity.
Qed.

Lemma replicate_true_map {A} (l : list A) :
  replicate (length l) true = map (fun _ => true) l.
Proof. induction l as [|x l IH]; [reflexivity|]. cbn. rewrite IH. reflexivity. Qed.

Lemma chart_step_mask df c f label value acc acc' (g : Row -> bool) :
  chart_step df c f label value acc = Some acc' ->
  acc.1 = map g (rows df) ->
  acc'.1 = map (fun r => g r && (if truthy_opt value
                                 then bool_decide (f r = value) else true))
               (rows df) /\
  acc'.2 = acc.2 ++ (if truthy_opt value then [label +:+ default "" value] else []).
Proof.
  unfold chart_step, column. intros Hstep Hacc.
  destruct (truthy_opt value) eqn:Hv.
  - destruct value as [v|]; [|discriminate Hv].
    destruct (has_col c df); [|discriminate Hstep].
    cbn [mbind option_bind default] in Hstep. injection Hstep as <-.
    cbn [fst snd]. split; [|reflexivity].
    rewrite Hacc, map_map, mask_and_map. reflexivity.
  - injection Hstep as <-. split.
    + rewrite Hacc. apply map_ext. intros r. rewrite andb_true_r. reflexivity.
    + rewrite app_nil_r. reflexivity.
Qed.

Lemma chart_filters_mask fs df src acc acc' (g : Row -> bool) :
  Filters.chart_filters fs df src acc = Some acc' ->
  acc.1 = map g (rows df) ->
  let chart := source_in src ["all"; "chart"] in
  (exists g', acc'.1 = map g' (rows df) /\
     forall r, g' r = true <->
       g r = true /\
       (chart = true -> truthy_opt (status_filter_from_chart fs) = true ->
          Status r = status_filter_from_chart fs) /\
       (chart = true -> truthy_opt (status_tempo_filter_from_chart fs) = true ->
          Status_Tempo r = status_tempo_filter_from_chart fs) /\
       (chart = true -> truthy_opt (problem_type_filter_from_chart fs) = true ->
          has_col "Tipo_Problema" df = true ->
          Tipo_Problema r = problem_type_filter_from_chart fs)) /\
  acc'.2 = acc.2 ++
    (if chart then
       (if truthy_opt (status_filter_from_chart fs)
        then ["Status: " +:+ default "" (status_filter_from_chart fs)] else []) ++
       (if truthy_opt (status_tempo_filter_from_chart fs)
        then ["Temporal Status: " +:+ default "" (status_tempo_filter_from_chart fs)]
        else []) ++
       (if truthy_opt (problem_type_filter_from_chart fs) && has_col "Tipo_Problema" df
        then ["Problem Type: " +:+ default "" (problem_type_filter_from_chart fs)]
        else [])
     else []).
Proof.
  intros Hstep Hacc chart. subst chart. unfold Filters.chart_filters in Hstep.
  destruct (source_in src ["all"; "chart"]).
  2:{ injection Hstep as <-. split; [|rewrite app_nil_r; reflexivity].
      exists g. split; [exact Hacc|]. intros r. split; [|tauto].
      intros Hg. repeat split; try exact Hg; discriminate. }
  apply bind_Some in Hstep as (a & Ha & Hstep).
  apply bind_Some in Hstep as (b & Hb & Hstep).
  destruct (chart_step_mask _ _ _ _ _ _ _ g Ha Hacc) as [Ha1 Ha2].
  destruct (chart_step_mask _ _ _ _ _ _ _ _ Hb Ha1) as [Hb1 Hb2].
  assert (forall (v : option string) (x : option string),
            (if truthy_opt v then bool_decide (x = v) else true) = true <->
            (truthy_opt v = true -> x = v)) as Hcond.
  { intros v x. destruct (truthy_opt v).
    - rewrite bool_decide_eq_true. split; [auto | intros H; apply H; reflexivity].
    - split; [discriminate | reflexivity]. }
  destruct (truthy_opt (problem_type_filter_from_chart fs)) eqn:Hp;
    [destruct (has_col "Tipo_Problema" df) eqn:Htp|].
  - destruct (chart_step_mask _ _ _ _ _ _ _ _ Hstep Hb1) as [Hc1 Hc2].
    rewrite Hp in Hc1, Hc2. split.
    + eexists. split; [exact Hc1|]. intros r. cbn beta.
      rewrite !andb_true_iff, !Hcond, bool_decide_eq_true. tauto.
    + rewrite Hc2, Hb2, Ha2, <- !app_assoc. reflexivity.
  - injection Hstep as <-. split.
    + eexists. split; [exact Hb1|]. intros r. cbn beta.
      rewrite !andb_true_iff, !Hcond. split; [|tauto].
      intros [[Hg H1] H2]. repeat split; auto. discriminate.
    + rewrite Hb2, Ha2, <- !app_assoc. cbn [andb]. rewrite app_nil_r. reflexivity.
  - injection Hstep as <-. split.
    + eexists. split; [exact Hb1|]. intros r. cbn beta.
      rewrite !andb_true_iff, !Hcond. split; [|tauto].
      intros [[Hg H1] H2]. repeat split; auto. discriminate.
    + rewrite Hb2, Ha2, <- !app_assoc. cbn [andb]. rewrite app_nil_r. reflexivity.
Qed.

Lemma depot_step_mask fs df src acc acc' (g : Row -> bool) :
  depot_step fs df src acc = Some acc' ->
  acc.1 = map g (rows df) ->
  let glob := source_in src ["all"; "global"] in
  (exists g', acc'.1 = map g' (rows df) /\
     forall r, g' r = true <->
       g r = true /\
       (glob = true -> truthy_list (depot_filter fs) = true ->
          exists d, Deposito r = Some d /\ d ∈ depot_filter fs)) /\
  acc'.2 = acc.2 ++
    (if glob && truthy_list (depot_filter fs)
     then ["Depot: " +:+ join ", " (depot_filter fs)] else []).
Proof.
  intros Hstep Hacc glob. subst glob. unfold depot_step, column in Hstep.
  destruct (source_in src ["all"; "global"]), (truthy_list (depot_filter fs)) eqn:Hd;
    cbn [andb];
    try (injection Hstep as <-; split; [|rewrite app_nil_r; reflexivity];
         exists g; split; [exact Hacc|]; intros r; split; [|tauto];
         intros Hg; split; [exact Hg|]; discriminate).
  destruct (has_col "Depósito" df); [|discriminate Hstep].
  cbn [mbind option_bind] in Hstep. injection Hstep as <-. cbn [fst snd].
  split; [|reflexivity].
  eexists. split; [rewrite Hacc, map_map, mask_and_map; reflexivity|].
  intros r. cbn beta. rewrite andb_true_iff, bool_decide_eq_true.
  split.
  - intros [Hg Hin]. split; [exact Hg|]. intros _ _.
    apply elem_of_map in Hin as (d & Hd' & Hin). eauto.
  - intros [Hg Hin]. split; [exact Hg|].
    destruct (Hin eq_refl eq_refl) as (d & -> & Hd').
    apply elem_of_map. eauto.
Qed.

Lemma search_step_mask fs df src acc acc' (g : Row -> bool) :
  search_step re_compile re_search fs df src acc = Some acc' ->
  acc.1 = map g (rows df) ->
  let glob := source_in src ["all"; "global"] in
  (exists g', acc'.1 = map g' (rows df) /\
     forall r, g' r = true <->
       g r = true /\
       (glob = true -> truthy_str (search_query fs) = true ->
          exists p, re_compile (search_query fs) = Some p /\
            re_search p (Text.astype_str (Material r))
            || re_search p (Text.astype_str (Descricao r)) = true)) /\
  acc'.2 = acc.2 ++
    (if glob && truthy_str (search_query fs)
     then ["Search: '" +:+ search_query fs +:+ "'"] else []).
Proof.
  intros Hstep Hacc glob. subst glob. unfold search_step, str_contains, column in Hstep.
  destruct (source_in src ["all"; "global"]), (truthy_str (search_query fs)) eqn:Hq;
    cbn [andb];
    try (injection Hstep as <-; split; [|rewrite app_nil_r; reflexivity];
         exists g; split; [exact Hacc|]; intros r; split; [|tauto];
         intros Hg; split; [exact Hg|]; discriminate).
  destruct (has_col "Material" df); [|discriminate Hstep].
  cbn [mbind option_bind] in Hstep.
  destruct (re_compile (search_query fs)) as [p|] eqn:Hp; [|discriminate Hstep].
  cbn [mbind option_bind] in Hstep.
  destruct (has_col "Descrição" df); [|discriminate Hstep].
  cbn [mbind option_bind] in Hstep. injection Hstep as <-. cbn [fst snd].
  split; [|reflexivity].
  eexists. split;
    [rewrite Hacc, !map_map, zip_with_orb_map, mask_and_map; reflexivity|].
  intros r. cbn beta. rewrite andb_true_iff. split.
  - intros [Hg Hs]. split; [exact Hg|]. intros _ _. exists p. auto.
  - intros [Hg Hs]. split; [exact Hg|].
    destruct (Hs eq_refl eq_refl) as (p' & Hp' & Hs'). injection Hp' as <-. exact Hs'.
Qed.

Lemma descriptions_nil_passes fs has_tipo src r :
  FilterSpec.descriptions fs has_tipo src = [] ->
  FilterSpec.passes re_compile re_search fs has_tipo src r.
Proof.
  unfold FilterSpec.descriptions, FilterSpec.passes.
  destruct (source_in src ["all"; "chart"]), (source_in src ["all"; "global"]),
    (truthy_opt (status_filter_from_chart fs)),
    (truthy_opt (status_tempo_filter_from_chart fs)),
    (truthy_opt (problem_type_filter_from_chart fs)), has_tipo,
    (truthy_list (depot_filter fs)), (truthy_str (search_query fs));
    cbn [andb app]; intros H; try discriminate H;
    repeat split; intros; discriminate.
Qed.

Lemma has_filters_false_descriptions fs has_tipo src :
  has_filters fs src = false -> FilterSpec.descriptions fs has_tipo src = [].
Proof.
  unfold has_filters, FilterSpec.descriptions.
  destruct (source_in src ["all"; "chart"]), (source_in src ["all"; "global"]),
    (truthy_opt (status_filter_from_chart fs)),
    (truthy_opt (status_tempo_filter_from_chart fs)),
    (truthy_opt (problem_type_filter_from_chart fs)), has_tipo,
    (truthy_list (depot_filter fs)), (truthy_str (search_query fs));
    cbn [andb orb app]; intros H; try discriminate H; reflexivity.
Qed.

Lemma filter_all {A} (P : A -> Prop) `{forall x, Decision (P x)} (l : list A) :
  (forall x, x ∈ l -> P x) -> filter P l = l.
Proof.
  induction l as [|x l IH]; intros Hall; [reflexivity|].
  rewrite filter_cons, decide_True by (apply Hall; left).
  rewrite IH by (intros y Hy; apply Hall; right; exact Hy). reflexivity.
Qed.

(** What [apply_filters] computes: the descriptions of the active
    predicates, and the rows selected by a mask that is true exactly on
    the records passing all of them. *)
Lemma apply_filters_inv fs df src out descs :
  apply_filters re_compile re_search fs df src = Some (out, descs) ->
  descs = FilterSpec.descriptions fs (has_col "Tipo_Problema" df) src /\
  columns out = columns df /\
  exists g, rows out = filter (fun r => g r = true) (rows df) /\
    forall r, g r = true <->
      FilterSpec.passes re_compile re_search fs (has_col "Tipo_Problema" df) src r.
Proof.
  unfold apply_filters. destruct (has_filters fs src) eqn:Hf; cbn [negb].
  2:{ intros H. injection H as <- <-.
      pose proof (has_filters_false_descriptions fs (has_col "Tipo_Problema" df) src Hf)
        as Hd.
      split; [symmetry; exact Hd|]. split; [reflexivity|].
      exists (fun _ => true). split; [symmetry; apply filter_all; reflexivity|].
      intros r. split; [intros _; apply descriptions_nil_passes, Hd | reflexivity]. }
  intros H.
  apply bind_Some in H as (acc1 & H1 & H).
  apply bind_Some in H as (acc2 & H2 & H).
  apply bind_Some in H as ([mask af] & H3 & H).
  destruct (chart_filters_mask _ _ _ _ _ (fun _ => true) H1)
    as [(g1 & Hm1 & Hg1) Hd1]; [apply replicate_true_map|].
  destruct (depot_step_mask _ _ _ _ _ g1 H2 Hm1) as [(g2 & Hm2 & Hg2) Hd2].
  destruct (search_step_mask _ _ _ _ _ g2 H3 Hm2) as [(g3 & Hm3 & Hg3) Hd3].
  cbn [fst snd] in *.
  assert (af = FilterSpec.descriptions fs (has_col "Tipo_Problema" df) src) as Haf.
  { rewrite Hd3, Hd2, Hd1. cbn [app]. unfold FilterSpec.descriptions.
    rewrite <- !app_assoc. reflexivity. }
  assert (forall r, g3 r = true <->
            FilterSpec.passes re_compile re_search fs (has_col "Tipo_Problema" df) src r)
    as Hg.
  { intros r. rewrite Hg3, Hg2, Hg1. unfold FilterSpec.passes. cbv zeta. tauto. }
  case_bool_decide as Hlen; injection H as <- <-; cbn [rows columns].
  - split; [exact Haf|]. split; [reflexivity|].
    exists g3. split; [|exact Hg]. symmetry. apply filter_all. intros r _.
    apply Hg, descriptions_nil_passes. rewrite <- Haf.
    destruct af; [reflexivity | discriminate Hlen].
  - split; [exact Haf|]. split; [reflexivity|].
    exists g3. split; [|exact Hg]. rewrite Hm3. apply select_rows_map.
Qed.

(** X10: whenever [apply_filters] returns, its output holds exactly the
    input records that satisfy every predicate active in the requested
    scope, each as often and in the order it occurs in the input: the
    chart status, chart temporal status and (when the frame has the
    column) chart problem type equal to the stored value, the depot among
    the selected depots, and the search pattern found in the material or
    in the description. *)
Theorem apply_filters_selects_exactly (fs : FilterState) (df out : DataFrame Row)
    (src : string) (descs : list string) :
  apply_filters re_compile re_search fs df src = Some (out, descs) ->
  let chart := source_in src ["all"; "chart"] in
  let glob := source_in src ["all"; "global"] in
  exists keep : Row -> bool,
    rows out = filter (fun r => keep r = true) (rows df) /\
    forall r, keep r = true <->
      (chart = true -> truthy_opt (status_filter_from_chart fs) = true ->
         Status r = status_filter_from_chart fs) /\
      (chart = true -> truthy_opt (status_tempo_filter_from_chart fs) = true ->
         Status_Tempo r = status_tempo_filter_from_chart fs) /\
      (chart = true -> truthy_opt (problem_type_filter_from_chart fs) = true ->
         has_col "Tipo_Problema" df = true ->
         Tipo_Problema r = problem_type_filter_from_chart fs) /\
      (glob = true -> truthy_list (depot_filter fs) = true ->
         exists d, Deposito r = Some d /\ d ∈ depot_filter fs) /\
      (glob = true -> truthy_str (search_query fs) = true ->
         exists p, re_compile (search_query fs) = Some p /\
           re_search p (Text.astype_str (Material r))
           || re_search p (Text.astype_str (Descricao r)) = true).
Proof.
  intros H chart glob.
  destruct (apply_filters_inv fs df src out descs H) as (_ & _ & g & Hrows & Hg).
  exists g. split; [exact Hrows|]. exact Hg.
Qed.

End FiltersFacts.

(** ** Filter state of the session *)

Section SessionFacts.
Import Filters Session.

Lemma elem_of_append_if {A} (c : bool) (x : A) (l : list A) (y : A) :
  y ∈ append_if c x l <-> y ∈ l \/ (c = true /\ y = x).
Proof.
  unfold append_if. destruct c.
  - rewrite elem_of_app, list_elem_of_singleton. intuition.
  - intuition discriminate.
Qed.

Lemma truthy_list_true {A} (l : list A) : truthy_list l = true <-> l <> [].
Proof. destruct l; cbn; split; intros; congruence. Qed.

Lemma elem_of_global_filters (fs : FilterState) (u : string) :
  u ∈ global_filters fs <->
  (truthy_str (search_query fs) = true /\ u = "Search: '" +:+ search_query fs +:+ "'") \/
  (truthy_list (depot_filter fs) = true /\ u = "Depot: " +:+ join ", " (depot_filter fs)).
Proof.
  unfold global_filters. rewrite !elem_of_append_if, elem_of_nil. tauto.
Qed.

Lemma elem_of_chart_filters (fs : FilterState) (u : string) :
  u ∈ Session.chart_filters fs <->
  (truthy_opt (status_filter_from_chart fs) = true /\
   u = "Status: " +:+ default "" (status_filter_from_chart fs)) \/
  (truthy_opt (status_tempo_filter_from_chart fs) = true /\
   u = "Temporal Status: " +:+ default "" (status_tempo_filter_from_chart fs)) \/
  (truthy_opt (problem_type_filter_from_chart fs) = true /\
   u = "Problem Type: " +:+ default "" (problem_type_filter_from_chart fs)).
Proof.
  unfold Session.chart_filters. rewrite !elem_of_append_if, elem_of_nil. tauto.
Qed.

(** The entries listed under a category of the summary. *)
Lemma summary_entries (s : SessionState) (fs : FilterState)
    (summary : list (string * list string)) (cat u : string) :
  filter_state s = Some fs ->
  get_filter_summary s = Some summary ->
  (exists l, (cat, l) ∈ summary /\ u ∈ l) <->
  (cat = "Global Filters" /\ u ∈ global_filters fs) \/
  (cat = "Chart Filters" /\ u ∈ Session.chart_filters fs).
Proof.
  intros Hfs. unfold get_filter_summary. rewrite Hfs. cbn [mbind option_bind].
  intros H. injection H as <-. split.
  - intros (l & Hl & Hu). rewrite !elem_of_append_if, elem_of_nil in Hl.
    destruct Hl as [[[]|[_ Hl]]|[_ Hl]]; injection Hl as -> ->; auto.
  - intros [[-> Hu]|[-> Hu]]; eexists; (split; [|exact Hu]);
      rewrite !elem_of_append_if.
    + left. right. split; [|reflexivity]. apply truthy_list_true.
      intros E. rewrite E in Hu. inversion Hu.
    + right. split; [|reflexivity]. apply truthy_list_true.
      intros E. rewrite E in Hu. inversion Hu.
Qed.

Lemma filter_key_of_search (q : string) :
  filter_key_of ("Search: '" +:+ q +:+ "'") = "Search".
Proof. reflexivity. Qed.

Lemma filter_key_of_depot (v : string) : filter_key_of ("Depot: " +:+ v) = "Depot".
Proof. reflexivity. Qed.

Lemma filter_key_of_status (v : string) : filter_key_of ("Status: " +:+ v) = "Status".
Proof. reflexivity. Qed.

Lemma filter_key_of_status_tempo (v : string) :
  filter_key_of ("Temporal Status: " +:+ v) = "Temporal Status".
Proof. reflexivity. Qed.

Lemma filter_key_of_problem_type (v : string) :
  filter_key_of ("Problem Type: " +:+ v) = "Problem Type".
Proof. reflexivity. Qed.

Lemma elem_of_descriptions_all (fs : FilterState) (has_tipo : bool) (u : string) :
  u ∈ FilterSpec.descriptions fs has_tipo "all" <->
  (truthy_opt (status_filter_from_chart fs) = true /\
   u = "Status: " +:+ default "" (status_filter_from_chart fs)) \/
  (truthy_opt (status_tempo_filter_from_chart fs) = true /\
   u = "Temporal Status: " +:+ default "" (status_tempo_filter_from_chart fs)) \/
  (truthy_opt (problem_type_filter_from_chart fs) = true /\ has_tipo = true /\
   u = "Problem Type: " +:+ default "" (problem_type_filter_from_chart fs)) \/
  (truthy_list (depot_filter fs) = true /\ u = "Depot: " +:+ join ", " (depot_filter fs)) \/
  (truthy_str (search_query fs) = true /\ u = "Search: '" +:+ search_query fs +:+ "'").
Proof.
  unfold FilterSpec.descriptions.
  change (source_in "all" ["all"; "chart"]) with true.
  change (source_in "all" ["all"; "global"]) with true.
  cbn [andb]. rewrite !elem_of_app.
  destruct (truthy_opt (status_filter_from_chart fs)),
    (truthy_opt (status_tempo_filter_from_chart fs)),
    (truthy_opt (problem_type_filter_from_chart fs)), has_tipo,
    (truthy_list (depot_filter fs)), (truthy_str (search_query fs));
    cbn [andb]; rewrite ?list_elem_of_singleton, ?elem_of_nil;
    intuition discriminate.
Qed.

Lemma labels_distinct (q d a b c : string) :
  let t1 := "Search: '" +:+ q +:+ "'" in
  let t2 := "Depot: " +:+ d in
  let t3 := "Status: " +:+ a in
  let t4 := "Temporal Status: " +:+ b in
  let t5 := "Problem Type: " +:+ c in
  t1 <> t2 /\ t1 <> t3 /\ t1 <> t4 /\ t1 <> t5 /\ t2 <> t3 /\ t2 <> t4 /\ t2 <> t5 /\
  t3 <> t4 /\ t3 <> t5 /\ t4 <> t5.
Proof.
  cbv zeta. repeat split; intros H; rewrite !app_cons in H; discriminate H.
Qed.

(** X13: removing an entry through the summary panel removes exactly
    that entry.  For an entry [t] listed under category [cat] of the
    summary, [clear_specific_filter] called with [cat] and the key that
    the panel derives from [t] returns a session whose summary has, in
    every category, the entries it had before other than [t]. *)
Theorem clear_specific_filter_removes_entry (s : SessionState)
    (summary : list (string * list string)) (cat t : string) (l : list string) :
  get_filter_summary s = Some summary ->
  (cat, l) ∈ summary -> t ∈ l ->
  exists s' summary',
    clear_specific_filter cat (filter_key_of t) s = Some s' /\
    get_filter_summary s' = Some summary' /\
    forall cat' u,
      (exists l', (cat', l') ∈ summary' /\ u ∈ l') <->
      (exists l', (cat', l') ∈ summary /\ u ∈ l') /\ u <> t.
Proof.
  intros Hsum Hl Ht.
  destruct (filter_state s) as [fs|] eqn:Hfs;
    [|unfold get_filter_summary in Hsum; rewrite Hfs in Hsum; discriminate Hsum].
  assert (exists l, (cat, l) ∈ summary /\ t ∈ l) as Hin by eauto.
  rewrite (summary_entries s fs summary cat t Hfs Hsum) in Hin.
  rewrite elem_of_global_filters, elem_of_chart_filters in Hin.
  destruct (labels_distinct (search_query fs) (join ", " (depot_filter fs))
              (default "" (status_filter_from_chart fs))
              (default "" (status_tempo_filter_from_chart fs))
              (default "" (problem_type_filter_from_chart fs)))
    as (D12 & D13 & D14 & D15 & D23 & D24 & D25 & D34 & D35 & D45).
  cbv zeta in D12, D13, D14, D15, D23, D24, D25, D34, D35, D45.
  assert (forall s' fs', filter_state s' = Some fs' ->
            exists summary', get_filter_summary s' = Some summary') as Hex.
  { intros s' fs' H'. unfold get_filter_summary. rewrite H'. eauto. }
  assert (forall cat0 key fs',
            (exists s', clear_specific_filter cat0 key s = Some s' /\
                        filter_state s' = Some fs') ->
            (forall cat' u,
               (cat' = "Global Filters" /\ u ∈ global_filters fs' \/
                cat' = "Chart Filters" /\ u ∈ Session.chart_filters fs') <->
               (cat' = "Global Filters" /\ u ∈ global_filters fs \/
                cat' = "Chart Filters" /\ u ∈ Session.chart_filters fs) /\ u <> t) ->
            exists s' summary',
              clear_specific_filter cat0 key s = Some s' /\
              get_filter_summary s' = Some summary' /\
              forall cat' u,
                (exists l', (cat', l') ∈ summary' /\ u ∈ l') <->
                (exists l', (cat', l') ∈ summary /\ u ∈ l') /\ u <> t) as Hgoal.
  { intros cat0 key fs' (s' & Hs' & Hfs') Hiff.
    destruct (Hex s' fs' Hfs') as [summary' Hsum'].
    exists s', summary'. split; [exact Hs'|]. split; [exact Hsum'|].
    intros cat' u. rewrite (summary_entries s' fs' summary' cat' u Hfs' Hsum').
    rewrite (summary_entries s fs summary cat' u Hfs Hsum). apply Hiff. }
  destruct Hin as [[-> [[Hq ->]|[Hd ->]]]|[-> [[H1 ->]|[[H2 ->]|[H3 ->]]]]].
  - rewrite filter_key_of_search.
    apply (Hgoal _ _ (set_search_query "" fs)).
    { unfold clear_specific_filter. rewrite Hfs. eexists. split; reflexivity. }
    intros cat' u. rewrite !elem_of_global_filters, !elem_of_chart_filters.
    cbn [search_query depot_filter status_filter_from_chart
         status_tempo_filter_from_chart problem_type_filter_from_chart
         set_search_query truthy_str String.eqb negb].
    split.
    + intros [[-> [[H _]|[Hd' ->]]]|[-> [[Hs ->]|[[Hs ->]|[Hs ->]]]]];
        try discriminate H; (split; [tauto | congruence]).
    + intros [[[-> [[_ ->]|[Hd' ->]]]|[-> [[Hs ->]|[[Hs ->]|[Hs ->]]]]] Hne];
        try congruence; tauto.
  - rewrite filter_key_of_depot.
    apply (Hgoal _ _ (set_depot_filter [] fs)).
    { unfold clear_specific_filter. rewrite Hfs. eexists. split; reflexivity. }
    intros cat' u. rewrite !elem_of_global_filters, !elem_of_chart_filters.
    cbn [search_query depot_filter status_filter_from_chart
         status_tempo_filter_from_chart problem_type_filter_from_chart
         set_depot_filter truthy_list].
    split.
    + intros [[-> [[Hq' ->]|[H _]]]|[-> [[Hs ->]|[[Hs ->]|[Hs ->]]]]];
        try discriminate H; (split; [tauto | congruence]).
    + intros [[[-> [[Hq' ->]|[_ ->]]]|[-> [[Hs ->]|[[Hs ->]|[Hs ->]]]]] Hne];
        try congruence; tauto.
  - rewrite filter_key_of_status.
    apply (Hgoal _ _ (set_status_filter_from_chart None fs)).
    { unfold clear_specific_filter. rewrite Hfs. eexists. split; reflexivity. }
    intros cat' u. rewrite !elem_of_global_filters, !elem_of_chart_filters.
    cbn [search_query depot_filter status_filter_from_chart
         status_tempo_filter_from_chart problem_type_filter_from_chart
         set_status_filter_from_chart truthy_opt].
    split.
    + intros [[-> [[Hs ->]|[Hs ->]]]|[-> [[H _]|[[Hs ->]|[Hs ->]]]]];
        try discriminate H; (split; [tauto | congruence]).
    + intros [[[-> [[Hs ->]|[Hs ->]]]|[-> [[_ ->]|[[Hs ->]|[Hs ->]]]]] Hne];
        try congruence; tauto.
  - rewrite filter_key_of_status_tempo.
    apply (Hgoal _ _ (set_status_tempo_filter_from_chart None fs)).
    { unfold clear_specific_filter. rewrite Hfs. eexists. split; reflexivity. }
    intros cat' u. rewrite !elem_of_global_filters, !elem_of_chart_filters.
    cbn [search_query depot_filter status_filter_from_chart
         status_tempo_filter_from_chart problem_type_filter_from_chart
         set_status_tempo_filter_from_chart truthy_opt].
    split.
    + intros [[-> [[Hs ->]|[Hs ->]]]|[-> [[Hs ->]|[[H _]|[Hs ->]]]]];
        try discriminate H; (split; [tauto | congruence]).
    + intros [[[-> [[Hs ->]|[Hs ->]]]|[-> [[Hs ->]|[[_ ->]|[Hs ->]]]]] Hne];
        try congruence; tauto.
  - rewrite filter_key_of_problem_type.
    apply (Hgoal _ _ (set_problem_type_filter_from_chart None fs)).
    { unfold clear_specific_filter. rewrite Hfs. eexists. split; reflexivity. }
    intros cat' u. rewrite !elem_of_global_filters, !elem_of_chart_filters.
    cbn [search_query depot_filter status_filter_from_chart
         status_tempo_filter_from_chart problem_type_filter_from_chart
         set_problem_type_filter_from_chart truthy_opt].
    split.
    + intros [[-> [[Hs ->]|[Hs ->]]]|[-> [[Hs ->]|[[Hs ->]|[H _]]]]];
        try discriminate H; (split; [tauto | congruence]).
    + intros [[[-> [[Hs ->]|[Hs ->]]]|[-> [[Hs ->]|[[Hs ->]|[_ ->]]]]] Hne];
        try congruence; tauto.
Qed.

Section WithRegex.
Context {Pattern : Type}.
Variable re_compile : string -> option Pattern.
Variable re_search : Pattern -> string -> bool.

(** X11: the summary of the session lists the filters that
    [apply_filters] applies in the scope ["all"]: every description
    returned by [apply_filters] is an entry of the summary, and every
    entry of the summary is among the returned descriptions, except the
    chart problem type when the frame has no column ["Tipo_Problema"]. *)
Theorem summary_lists_applied_filters (s : SessionState) (fs : FilterState)
    (df out : DataFrame Row) (descs : list string) :
  filter_state s = Some fs ->
  apply_filters re_compile re_search fs df "all" = Some (out, descs) ->
  exists summary, get_filter_summary s = Some summary /\
    (forall t, t ∈ descs -> exists cat l, (cat, l) ∈ summary /\ t ∈ l) /\
    (forall cat l t, (cat, l) ∈ summary -> t ∈ l ->
       t ∈ descs \/
       (has_col "Tipo_Problema" df = false /\
        t = "Problem Type: " +:+ default "" (problem_type_filter_from_chart fs))).
Proof.
  intros Hfs Happ.
  destruct (apply_filters_inv re_compile re_search fs df "all" out descs Happ)
    as (-> & _ & _).
  destruct (get_filter_summary s) as [summary|] eqn:Hsum;
    [|unfold get_filter_summary in Hsum; rewrite Hfs in Hsum; discriminate Hsum].
  exists summary. split; [reflexivity|]. split.
  - intros t Ht. apply elem_of_descriptions_all in Ht.
    assert ((exists l, ("Global Filters", l) ∈ summary /\ t ∈ l) \/
            (exists l, ("Chart Filters", l) ∈ summary /\ t ∈ l)) as [H|H].
    { rewrite !(summary_entries s fs summary _ t Hfs Hsum).
      rewrite elem_of_global_filters, elem_of_chart_filters.
      destruct Ht as [H|[H|[H|[H|H]]]]; [right; right|right; right|right; right|left; left|left; left];
        split; try reflexivity; tauto. }
    + destruct H as (l & Hl & Hin). eauto.
    + destruct H as (l & Hl & Hin). eauto.
  - intros cat l t Hl Ht.
    assert (exists l, (cat, l) ∈ summary /\ t ∈ l) as H by eauto.
    rewrite (summary_entries s fs summary cat t Hfs Hsum) in H.
    rewrite elem_of_global_filters, elem_of_chart_filters in H.
    rewrite elem_of_descriptions_all.
    destruct (has_col "Tipo_Problema" df); intuition.
Qed.

(** X12: when [has_active_filters] reports that no filter is active, the
    summary is empty and [apply_filters] returns the frame it was given,
    with no description, in every scope. *)
Theorem no_active_filters_identity (s : SessionState) (fs : FilterState) :
  filter_state s = Some fs ->
  has_active_filters s = Some false ->
  get_filter_summary s = Some [] /\
  forall (df : DataFrame Row) (src : string),
    apply_filters re_compile re_search fs df src = Some (df, []).
Proof.
  intros Hfs. unfold has_active_filters, get_filter_summary. rewrite Hfs.
  cbn [mbind option_bind]. intros H.
  destruct (truthy_str (search_query fs)) eqn:Hq; [discriminate H|].
  destruct (truthy_list (depot_filter fs)) eqn:Hd; [discriminate H|].
  destruct (truthy_opt (status_filter_from_chart fs)) eqn:H1; [discriminate H|].
  destruct (truthy_opt (status_tempo_filter_from_chart fs)) eqn:H2; [discriminate H|].
  destruct (truthy_opt (problem_type_filter_from_chart fs)) eqn:H3; [discriminate H|].
  split.
  - unfold global_filters, Session.chart_filters. rewrite Hq, Hd, H1, H2, H3.
    reflexivity.
  - intros df src. unfold apply_filters, has_filters.
    rewrite Hq, Hd, H1, H2, H3. cbn [orb]. rewrite !andb_false_r. reflexivity.
Qed.

End WithRegex.

End SessionFacts.

Section SessionReset.
Import Filters Session.
Context {Pattern : Type}.
Variable re_compile : string -> option Pattern.
Variable re_search : Pattern -> string -> bool.

Lemma sync_old_reset (old : option (option string))
    (set : option string -> FilterState -> FilterState) (fs : FilterState) :
  sync_old (reset_if_present None old) set fs = fs.
Proof. destruct old; reflexivity. Qed.

Lemma widget_active_reset (w : option (list string)) :
  widget_active (reset_if_present [] w) = false.
Proof. destruct w; reflexivity. Qed.

(** X14: after [clear_all_filters], whatever the session held, no filter
    is active: [has_active_filters] answers no, the summary is empty,
    [apply_filters] returns every frame unchanged in every scope, and the
    next [initialize_filter_state] leaves the session as it is, so that no
    chart filter comes back from the keys kept for backward
    compatibility. *)
Theorem clear_all_filters_clears (s : SessionState) :
  let s' := clear_all_filters s in
  filter_state s' = Some initial_filter_state /\
  has_active_filters s' = Some false /\
  get_filter_summary s' = Some [] /\
  initialize_filter_state s' = s' /\
  forall (df : DataFrame Row) (src : string),
    apply_filters re_compile re_search initial_filter_state df src = Some (df, []).
Proof.
  cbv zeta. split; [reflexivity|]. split; [|split; [reflexivity|split]].
  - unfold has_active_filters, clear_all_filters, audit_widget_keys.
    cbn [filter_state mbind option_bind initial_filter_state search_query depot_filter
         status_filter_from_chart status_tempo_filter_from_chart
         problem_type_filter_from_chart truthy_str truthy_list truthy_opt
         String.eqb negb w_audit_deposito w_audit_movimento w_audit_material
         w_audit_lote w_audit_status_pct w_audit_status_tempo w_audit_tipo_problema
         date_preset existsb].
    rewrite !widget_active_reset. cbn [orb].
    destruct (date_preset s); reflexivity.
  - unfold initialize_filter_state, clear_all_filters.
    cbn [filter_state old_status_filter_from_chart old_status_tempo_filter_from_chart
         old_problem_type_filter_from_chart default].
    rewrite !sync_old_reset. reflexivity.
  - intros df src. unfold apply_filters.
    rewrite has_filters_initial. reflexivity.
Qed.

(** X15: [initialize_filter_state] always installs a filter state, so
    that the functions reading it return, and changes no other key of the
    session.  Each chart key kept for backward compatibility that holds a
    value is copied into the filter state; every other entry of the
    filter state (the search text, the depot list, the seven audit
    entries, the four timeline entries, the history, and a chart entry
    whose compatibility key is absent or [None]) is the one of the
    existing filter state, or the initial one when there was none.
    Running the function again changes nothing. *)
Theorem initialize_filter_state_synced (s : SessionState) :
  let s1 := initialize_filter_state s in
  let fs0 := default initial_filter_state (filter_state s) in
  (exists fs, filter_state s1 = Some fs /\ s1 = set_filter_state fs s /\
     (forall v, old_status_filter_from_chart s = Some (Some v) ->
        status_filter_from_chart fs = Some v) /\
     (forall v, old_status_tempo_filter_from_chart s = Some (Some v) ->
        status_tempo_filter_from_chart fs = Some v) /\
     (forall v, old_problem_type_filter_from_chart s = Some (Some v) ->
        problem_type_filter_from_chart fs = Some v) /\
     (search_query fs = search_query fs0 /\ depot_filter fs = depot_filter fs0 /\
      audit_deposito fs = audit_deposito fs0 /\
      audit_movimento fs = audit_movimento fs0 /\
      audit_material fs = audit_material fs0 /\
      audit_status_pct fs = audit_status_pct fs0 /\
      audit_status_tempo fs = audit_status_tempo fs0 /\
      audit_tipo_problema fs = audit_tipo_problema fs0 /\
      audit_date_range fs = audit_date_range fs0 /\
      timeline_status_filter fs = timeline_status_filter fs0 /\
      timeline_depot_filter fs = timeline_depot_filter fs0 /\
      timeline_status_tempo_filter fs = timeline_status_tempo_filter fs0 /\
      timeline_selected_month fs = timeline_selected_month fs0 /\
      filter_history fs = filter_history fs0 /\
      (old_status_filter_from_chart s ∈ [None; Some None] ->
         status_filter_from_chart fs = status_filter_from_chart fs0) /\
      (old_status_tempo_filter_from_chart s ∈ [None; Some None] ->
         status_tempo_filter_from_chart fs = status_tempo_filter_from_chart fs0) /\
      (old_problem_type_filter_from_chart s ∈ [None; Some None] ->
         problem_type_filter_from_chart fs = problem_type_filter_from_chart fs0)) /\
     (old_status_filter_from_chart s ∈ [None; Some None] ->
      old_status_tempo_filter_from_chart s ∈ [None; Some None] ->
      old_problem_type_filter_from_chart s ∈ [None; Some None] ->
      fs = fs0)) /\
  is_Some (get_filter_summary s1) /\ is_Some (has_active_filters s1) /\
  initialize_filter_state s1 = s1.
Proof.
  cbv zeta. destruct s as [ofs o1 o2 o3 a1 a2 a3 a4 a5 a6 a7 dp dr tp ss sd].
  unfold initialize_filter_state.
  cbn [filter_state old_status_filter_from_chart old_status_tempo_filter_from_chart
       old_problem_type_filter_from_chart].
  set (fs0 := default initial_filter_state ofs).
  split; [|split; [|split]].
  - eexists. split; [reflexivity|]. split; [reflexivity|].
    assert (forall (x : option (option string)),
              x ∈ [None; Some None] -> forall v, x <> Some (Some v)) as Hno.
    { intros x Hx v ->. repeat (apply elem_of_cons in Hx as [Hx|Hx]; [discriminate Hx|]).
      inversion Hx. }
    split; [|split; [|split; [|split]]].
    + intros v ->. destruct o2 as [[?|]|], o3 as [[?|]|]; reflexivity.
    + intros v ->. destruct o1 as [[?|]|], o3 as [[?|]|]; reflexivity.
    + intros v ->. destruct o1 as [[?|]|], o2 as [[?|]|]; reflexivity.
    + do 14 (split; [destruct o1 as [[?|]|], o2 as [[?|]|], o3 as [[?|]|];
                     reflexivity|]).
      split; [|split]; intros Hx.
      * destruct o1 as [[v|]|]; [exfalso; exact (Hno _ Hx v eq_refl)| |];
          destruct o2 as [[?|]|], o3 as [[?|]|]; reflexivity.
      * destruct o2 as [[v|]|]; [exfalso; exact (Hno _ Hx v eq_refl)| |];
          destruct o1 as [[?|]|], o3 as [[?|]|]; reflexivity.
      * destruct o3 as [[v|]|]; [exfalso; exact (Hno _ Hx v eq_refl)| |];
          destruct o1 as [[?|]|], o2 as [[?|]|]; reflexivity.
    + intros H1 H2 H3.
      destruct o1 as [[v|]|]; [exfalso; exact (Hno _ H1 v eq_refl)| |];
        (destruct o2 as [[v|]|]; [exfalso; exact (Hno _ H2 v eq_refl)| |]);
        (destruct o3 as [[v|]|]; [exfalso; exact (Hno _ H3 v eq_refl)| |]);
        reflexivity.
  - unfold get_filter_summary, set_filter_state.
    cbn [filter_state mbind option_bind]. eauto.
  - unfold has_active_filters, set_filter_state.
    cbn [filter_state mbind option_bind].
    repeat match goal with
           | |- is_Some (if ?c then _ else _) => destruct c; [eauto|]
           end.
    cbn [date_preset]. destruct dp as [p|]; [|eauto].
    destruct (negb (String.eqb p "Tudo")); eauto.
  - unfold set_filter_state.
    cbn [default filter_state old_status_filter_from_chart
         old_status_tempo_filter_from_chart old_problem_type_filter_from_chart].
    f_equal. f_equal.
    destruct o1 as [[?|]|], o2 as [[?|]|], o3 as [[?|]|]; reflexivity.
Qed.

(** X16: a filter removed by [clear_specific_filter] stays removed.  On
    a session that [initialize_filter_state] leaves unchanged, the session
    returned by [clear_specific_filter], for any category and key, is
    again left unchanged by [initialize_filter_state]. *)
Theorem clear_specific_filter_stays_cleared (s s' : SessionState)
    (category filter_key : string) :
  initialize_filter_state s = s ->
  clear_specific_filter category filter_key s = Some s' ->
  initialize_filter_state s' = s'.
Proof.
  destruct s as [ofs o1 o2 o3 a1 a2 a3 a4 a5 a6 a7 dp dr tp ss sd].
  unfold initialize_filter_state at 1. unfold set_filter_state.
  cbn [filter_state old_status_filter_from_chart old_status_tempo_filter_from_chart
       old_problem_type_filter_from_chart].
  intros Hsync. injection Hsync as Hsync.
  destruct ofs as [fs|]; [|discriminate Hsync]. cbn [default] in Hsync.
  injection Hsync as Hsync.
  unfold clear_specific_filter, set_filter_state.
  cbn [filter_state old_status_filter_from_chart old_status_tempo_filter_from_chart
       old_problem_type_filter_from_chart mbind option_bind
       w_audit_deposito w_audit_movimento w_audit_material w_audit_lote
       w_audit_status_pct w_audit_status_tempo w_audit_tipo_problema date_preset
       w_audit_date_range toggle_problemas sidebar_search sidebar_depot].
  intros Hclear.
  destruct fs as [q d f1 f2 f3 b1 b2 b3 b4 b5 b6 b7 c1 c2 c3 c4 c5].
  repeat match type of Hclear with
         | (if ?c then _ else _) = Some _ => destruct c
         end;
    injection Hclear as <-;
    unfold initialize_filter_state, set_filter_state;
    cbn [filter_state old_status_filter_from_chart old_status_tempo_filter_from_chart
         old_problem_type_filter_from_chart default
         w_audit_deposito w_audit_movimento w_audit_material w_audit_lote
         w_audit_status_pct w_audit_status_tempo w_audit_tipo_problema date_preset
         w_audit_date_range toggle_problemas sidebar_search sidebar_depot];
    f_equal; f_equal;
    destruct o1 as [[?|]|], o2 as [[?|]|], o3 as [[?|]|];
    unfold sync_old, reset_if_present, set_search_query, set_depot_filter,
      set_status_filter_from_chart, set_status_tempo_filter_from_chart,
      set_problem_type_filter_from_chart in Hsync |- *;
    cbn in Hsync |- *; congruence.
Qed.

Lemma filter_length_ext {A} (P Q : A -> Prop) `{forall x, Decision (P x)}
    `{forall x, Decision (Q x)} (l : list A) :
  (forall x, P x <-> Q x) -> length (filter P l) = length (filter Q l).
Proof.
  intros Hiff. induction l as [|x l IH]; [reflexivity|].
  rewrite !filter_cons. destruct (decide (P x)) as [Hp|Hp], (decide (Q x)) as [Hq|Hq];
    cbn [length]; try (rewrite IH; reflexivity);
    exfalso; [apply Hq, Hiff, Hp | apply Hp, Hiff, Hq].
Qed.

Lemma truthy_str_true (v : string) : v <> "" -> truthy_str v = true.
Proof.
  intros Hv. unfold truthy_str. destruct (String.eqb v "") eqn:E; [|reflexivity].
  apply String.eqb_eq in E. contradiction.
Qed.

(** A single chart filter on a column that exists is always applied, and
    selects as many records as hold the value. *)
Lemma single_chart_filter_count (fs : FilterState) (df : DataFrame Row)
    (f : Row -> option string) (v : string) (label : string) :
  v <> "" ->
  Filters.chart_filters fs df "all" (replicate (length (rows df)) true, [])
    = Some (map (fun r => true && bool_decide (f r = Some v)) (rows df), [label +:+ v]) ->
  search_query fs = "" -> depot_filter fs = [] ->
  has_filters fs "all" = true ->
  exists out,
    apply_filters re_compile re_search fs df "all" = Some (out, [label +:+ v]) /\
    Z.of_nat (length (rows out))
    = Z.of_nat (length (filter (fun r => f r = Some v) (rows df))).
Proof.
  intros Hv Hchart Hq Hd Hf. unfold apply_filters. rewrite Hf, Hchart.
  cbn [negb mbind option_bind]. unfold depot_step, search_step. rewrite Hq, Hd.
  change (source_in "all" ["all"; "global"]) with true.
  cbn [truthy_list truthy_str String.eqb negb mbind option_bind].
  rewrite bool_decide_eq_false_2 by discriminate.
  eexists. split; [reflexivity|]. cbn [rows]. f_equal.
  rewrite select_rows_map. apply filter_length_ext. intros r.
  cbn [andb]. apply bool_decide_eq_true.
Qed.

(** X17: the badge count of a value is the number of records that
    [apply_filters] keeps when that value is the only active filter.  For
    a non-empty value and a frame that has the column, the chart filters
    on status, temporal status and problem type are applied, and each
    keeps as many records as [get_filter_badge_count] reports for the
    corresponding type. *)
Theorem badge_count_matches_chart_filter (df : DataFrame Row) (v : string) :
  v <> "" ->
  (has_col "Status" df = true ->
   exists out,
     apply_filters re_compile re_search
       (set_status_filter_from_chart (Some v) initial_filter_state) df "all"
     = Some (out, ["Status: " +:+ v]) /\
     Z.of_nat (length (rows out)) = get_filter_badge_count df "status" v) /\
  (has_col "Status_Tempo" df = true ->
   exists out,
     apply_filters re_compile re_search
       (set_status_tempo_filter_from_chart (Some v) initial_filter_state) df "all"
     = Some (out, ["Temporal Status: " +:+ v]) /\
     Z.of_nat (length (rows out)) = get_filter_badge_count df "status_tempo" v) /\
  (has_col "Tipo_Problema" df = true ->
   exists out,
     apply_filters re_compile re_search
       (set_problem_type_filter_from_chart (Some v) initial_filter_state) df "all"
     = Some (out, ["Problem Type: " +:+ v]) /\
     Z.of_nat (length (rows out)) = get_filter_badge_count df "problem_type" v).
Proof.
  intros Hv. pose proof (truthy_str_true v Hv) as Ht.
  split; [|split]; intros Hcol.
  - unfold get_filter_badge_count. rewrite Hcol.
    change (String.eqb "status" "status") with true. cbn [andb].
    apply single_chart_filter_count; try reflexivity; [exact Hv| |].
    + unfold Filters.chart_filters, chart_step, column.
      change (source_in "all" ["all"; "chart"]) with true.
      cbn [status_filter_from_chart status_tempo_filter_from_chart
           problem_type_filter_from_chart set_status_filter_from_chart
           initial_filter_state truthy_opt default].
      rewrite Ht, Hcol. cbn [mbind option_bind fst snd app].
      rewrite replicate_true_map, map_map, mask_and_map. reflexivity.
    + unfold has_filters. cbn [status_filter_from_chart set_status_filter_from_chart
        truthy_opt]. rewrite Ht. change (source_in "all" ["all"; "chart"]) with true.
      cbn [andb orb]. apply orb_true_r.
  - unfold get_filter_badge_count. rewrite Hcol.
    change (String.eqb "status_tempo" "status") with false.
    change (String.eqb "status_tempo" "status_tempo") with true. cbn [andb].
    apply single_chart_filter_count; try reflexivity; [exact Hv| |].
    + unfold Filters.chart_filters, chart_step, column.
      change (source_in "all" ["all"; "chart"]) with true.
      cbn [status_filter_from_chart status_tempo_filter_from_chart
           problem_type_filter_from_chart set_status_tempo_filter_from_chart
           initial_filter_state truthy_opt default].
      rewrite Ht, Hcol. cbn [mbind option_bind fst snd app].
      rewrite replicate_true_map, map_map, mask_and_map. reflexivity.
    + unfold has_filters. cbn [status_tempo_filter_from_chart
        set_status_tempo_filter_from_chart truthy_opt]. rewrite Ht.
      change (source_in "all" ["all"; "chart"]) with true.
      cbn [andb orb]. rewrite !orb_true_r. reflexivity.
  - unfold get_filter_badge_count. rewrite Hcol.
    change (String.eqb "problem_type" "status") with false.
    change (String.eqb "problem_type" "status_tempo") with false.
    change (String.eqb "problem_type" "depot") with false.
    change (String.eqb "problem_type" "problem_type") with true. cbn [andb].
    apply single_chart_filter_count; try reflexivity; [exact Hv| |].
    + unfold Filters.chart_filters, chart_step, column.
      change (source_in "all" ["all"; "chart"]) with true.
      cbn [status_filter_from_chart status_tempo_filter_from_chart
           problem_type_filter_from_chart set_problem_type_filter_from_chart
           initial_filter_state truthy_opt default].
      rewrite Ht, Hcol. cbn [mbind option_bind fst snd app].
      rewrite replicate_true_map, map_map, mask_and_map. reflexivity.
    + unfold has_filters. cbn [problem_type_filter_from_chart
        set_problem_type_filter_from_chart truthy_opt]. rewrite Ht.
      change (source_in "all" ["all"; "chart"]) with true.
      cbn [andb orb]. rewrite !orb_true_r. reflexivity.
Qed.

End SessionReset.

(** ** Integration of the three tables, record by record *)

Section LoaderFacts.
Import Loader.

Lemma filter_key_at_most_one {A K} `{EqDecision K} (key : A -> K) (k : K) (l : list A) :
  NoDup (map key l) ->
  filter (fun x => key x = k) l = option_list (head (filter (fun x => key x = k) l)).
Proof.
  intros Hnd. pose proof (filter_key_unique key k l Hnd) as Hle.
  destruct (filter (fun x => key x = k) l) as [|x [|y t]]; cbn in *;
    [reflexivity | reflexivity | lia].
Qed.

(** A left merge against a right side without duplicate keys pairs each
    left row, in order, with the right row of its key, if any. *)
Lemma merge_left_unique {L R O K} `{EqDecision K} (key_l : L -> K) (key_r : R -> K)
    (combine : L -> option R -> O) (left : list L) (right : list R) :
  NoDup (map key_r right) ->
  merge_left key_l key_r combine left right
  = map (fun l => combine l (head (filter (fun r => key_r r = key_l l) right))) left.
Proof.
  intros Hnd. unfold merge_left.
  induction left as [|l left IH]; [reflexivity|].
  cbn [flat_map map]. rewrite <- IH.
  rewrite (filter_key_at_most_one key_r (key_l l) right Hnd).
  destruct (head (filter (fun r => key_r r = key_l l) right)); reflexivity.
Qed.

Lemma filter_drop_duplicates_first {A K} `{EqDecision K} (key : A -> K) (k : K)
    (seen : list K) (l : list A) :
  head (filter (fun x => key x = k) (drop_duplicates_first key seen l))
  = if decide (k ∈ seen) then None else head (filter (fun x => key x = k) l).
Proof.
  revert seen. induction l as [|x l IH]; intros seen.
  - cbn. destruct (decide (k ∈ seen)); reflexivity.
  - cbn [drop_duplicates_first]. rewrite (filter_cons _ x l).
    case_bool_decide as Hx.
    + rewrite IH. destruct (decide (k ∈ seen)) as [Hk|Hk]; [reflexivity|].
      rewrite decide_False by (intros E; apply Hk; rewrite <- E; exact Hx).
      reflexivity.
    + rewrite filter_cons. destruct (decide (key x = k)) as [E|E].
      * cbn [head]. rewrite decide_False by (rewrite <- E; exact Hx). reflexivity.
      * rewrite IH. destruct (decide (k ∈ seen)) as [Hk|Hk].
        -- rewrite decide_True by (right; exact Hk). reflexivity.
        -- rewrite decide_False; [reflexivity|].
           intros [E'|Hin]%elem_of_cons; [apply E; symmetry; exact E' | exact (Hk Hin)].
Qed.

(** X18: the integration step builds its rows one per MB51 row, in MB51
    order.  Row [i] carries the fields of MB51 row [i]; its shelf-life
    text is that of the first row of the shelf-life table with the same
    material (none when there is no such row); its expiration date is
    missing when SQ00 has no row for its (material, lot), and otherwise is
    the date of an SQ00 row for that pair which is last among them in the
    order of [sort_values]. *)
Theorem integrar_row_content (mb51 : list Mb51Row) (sq00 : list Sq00Row)
    (forn_sel : list FornRow) (i : nat) (m : Mb51Row) :
  mb51 !! i = Some m ->
  exists venc,
    rows (integrar mb51 sq00 forn_sel) !! i
    = Some (integrated_row m venc
              (head (filter (fun f => fn_Material f = mb_Material m) forn_sel)
               ≫= fn_Tempo_de_Validade)) /\
    ((venc = None /\ forall y, y ∈ sq00 -> sq_key y <> mb_key m) \/
     (exists x, x ∈ sq00 /\ sq_key x = mb_key m /\
        venc = sq_Data_de_vencimento x /\
        forall y, y ∈ sq00 -> sq_key y = mb_key m ->
          date_le (sq_Data_de_vencimento y) (sq_Data_de_vencimento x) = true)).
Proof.
  intros Hm. unfold integrar, merge2, merge1. cbn [rows].
  rewrite (merge_left_unique _ fn_Material) by apply drop_duplicates_first_NoDup.
  rewrite (merge_left_unique mb_key sq_key) by apply dedup_sq00_unique_keys.
  rewrite map_map, lookup_map, Hm. cbn [fmap option_fmap option_map fst snd].
  rewrite filter_drop_duplicates_first.
  rewrite decide_False by (intros H; inversion H).
  eexists. split; [reflexivity|].
  destruct (head (filter (fun r => sq_key r = mb_key m) (dedup_sq00 sq00)))
    as [x|] eqn:Hx.
  - right. exists x.
    assert (x ∈ filter (fun r => sq_key r = mb_key m) (dedup_sq00 sq00)) as Hin.
    { destruct (filter _ (dedup_sq00 sq00)) as [|x' t]; [discriminate Hx|].
      injection Hx as ->. left. }
    apply list_elem_of_filter in Hin as [Hkey Hin].
    split; [eapply drop_duplicates_last_subset in Hin; apply sort_values_elem, Hin|].
    split; [exact Hkey|]. split; [reflexivity|].
    intros y Hy Hky.
    apply (drop_duplicates_last_max _ x (sort_values_sorted sq00) Hin y).
    + apply sort_values_elem, Hy.
    + congruence.
  - left. split; [reflexivity|]. intros y Hy Hky.
    destruct (drop_duplicates_last_keeps_key sq_key (sort_values sq00) y)
      as (x & Hx' & Hkx); [apply sort_values_elem, Hy|].
    assert (x ∈ filter (fun r => sq_key r = mb_key m) (dedup_sq00 sq00)) as Hin
      by (apply list_elem_of_filter; split; [congruence | exact Hx']).
    destruct (filter _ (dedup_sq00 sq00)); [inversion Hin | discriminate Hx].
Qed.

End LoaderFacts.

(** ** Options of the filter widgets *)

Section UniqueValuesFacts.
Import UniqueValues.

Lemma ascii_compare_trans (a b c : ascii) :
  (Ascii.compare a b = Lt -> Ascii.compare b c = Lt -> Ascii.compare a c = Lt).
Proof.
  unfold Ascii.compare. rewrite !N.compare_lt_iff. lia.
Qed.

Lemma string_compare_lt_trans (a b c : string) :
  String.compare a b = Lt -> String.compare b c = Lt -> String.compare a c = Lt.
Proof.
  revert b c. induction a as [|x a IH]; intros [|y b] [|z c]; cbn;
    try discriminate; try reflexivity.
  destruct (Ascii.compare x y) eqn:Exy; try discriminate.
  - apply Ascii.compare_eq_iff in Exy as ->.
    destruct (Ascii.compare y z) eqn:Eyz; try discriminate; [|reflexivity].
    apply IH.
  - intros _. destruct (Ascii.compare y z) eqn:Eyz; try discriminate.
    + apply Ascii.compare_eq_iff in Eyz as <-. rewrite Exy. reflexivity.
    + rewrite (ascii_compare_trans x y z Exy Eyz). reflexivity.
Qed.

Lemma string_compare_refl (a : string) : String.compare a a = Eq.
Proof.
  induction a as [|x a IH]; [reflexivity|]. cbn.
  assert (Ascii.compare x x = Eq) as ->; [|exact IH].
  unfold Ascii.compare. apply N.compare_refl.
Qed.

Lemma str_le_cases (a b : string) :
  str_le a b = true <-> a = b \/ String.compare a b = Lt.
Proof.
  unfold str_le, String.leb. destruct (String.compare a b) eqn:E.
  - apply String.compare_eq_iff in E. tauto.
  - tauto.
  - split; [discriminate|]. intros [->|H]; [|discriminate H].
    rewrite string_compare_refl in E. discriminate E.
Qed.

Lemma str_le_false (a b : string) : str_le a b = false -> String.compare b a = Lt.
Proof.
  unfold str_le, String.leb. rewrite (String.compare_antisym b a).
  destruct (String.compare a b); [discriminate..|reflexivity].
Qed.

Lemma str_insert_sorted_elem (x : string) (l : list string) (y : string) :
  y ∈ insert_sorted x l <-> y = x \/ y ∈ l.
Proof.
  induction l as [|z l IH]; cbn [insert_sorted].
  - rewrite list_elem_of_singleton, elem_of_nil. tauto.
  - destruct (str_le x z); rewrite !elem_of_cons; [tauto|]. rewrite IH. tauto.
Qed.

Lemma str_sorted_elem (l : list string) (y : string) : y ∈ sorted l <-> y ∈ l.
Proof.
  unfold sorted. induction l as [|x l IH]; cbn [foldr]; [reflexivity|].
  rewrite str_insert_sorted_elem, elem_of_cons, IH. reflexivity.
Qed.

Lemma str_insert_sorted_strict (x : string) (l : list string) :
  x ∉ l ->
  StronglySorted (fun a b => String.compare a b = Lt) l ->
  StronglySorted (fun a b => String.compare a b = Lt) (insert_sorted x l).
Proof.
  intros Hx Hs. induction Hs as [|z l Hs IH Hz]; cbn [insert_sorted].
  - constructor; constructor.
  - rewrite list.Forall_forall in Hz.
    assert (x <> z) as Hxz by (intros ->; apply Hx; left).
    destruct (str_le x z) eqn:E.
    + apply str_le_cases in E as [E|E]; [contradiction|].
      constructor; [constructor; [exact Hs | apply list.Forall_forall; exact Hz]|].
      apply list.Forall_forall. intros y [->|Hy]%elem_of_cons; [exact E|].
      eapply string_compare_lt_trans; [exact E | apply Hz, Hy].
    + apply str_le_false in E. constructor.
      * apply IH. intros Hin. apply Hx. right. exact Hin.
      * apply list.Forall_forall. intros y [->|Hy]%str_insert_sorted_elem;
          [exact E | apply Hz, Hy].
Qed.

Lemma str_sorted_strict (l : list string) :
  NoDup l -> StronglySorted (fun a b => String.compare a b = Lt) (sorted l).
Proof.
  unfold sorted. induction 1 as [|x l Hx Hnd IH]; cbn [foldr]; [constructor|].
  apply str_insert_sorted_strict; [|exact IH].
  intros Hin. apply Hx. apply (str_sorted_elem l x). exact Hin.
Qed.

Lemma drop_duplicates_first_elem {A K} `{EqDecision K} (key : A -> K) (seen : list K)
    (l : list A) (k : K) :
  k ∈ map key (Loader.drop_duplicates_first key seen l) <->
  k ∈ map key l /\ k ∉ seen.
Proof.
  revert seen. induction l as [|x l IH]; intros seen.
  - cbn. rewrite elem_of_nil. tauto.
  - cbn [Loader.drop_duplicates_first map]. case_bool_decide as Hx.
    + rewrite IH, elem_of_cons. split; [tauto|].
      intros [[->|Hk] Hs]; [contradiction | tauto].
    + cbn [map]. rewrite !elem_of_cons, IH, elem_of_cons.
      destruct (decide (k = key x)) as [->|Hne]; tauto.
Qed.

Lemma elem_of_dropna {A} (l : list (option A)) (v : A) : v ∈ dropna l <-> Some v ∈ l.
Proof.
  unfold dropna. rewrite list_elem_of_omap. split.
  - intros (o & Ho & Hv). cbn in Hv. subst o. exact Ho.
  - intros H. exists (Some v). split; [exact H | reflexivity].
Qed.

(** X19: [get_unique_values] returns the values present in the column,
    each once, in strictly ascending order, leaving out missing cells; it
    returns the empty list when the frame has no such column. *)
Theorem get_unique_values_sorted_distinct (df : DataFrame Row) (column : string)
    (f : Row -> option string) :
  let vs := get_unique_values df column f in
  StronglySorted (fun a b => String.compare a b = Lt) vs /\
  NoDup vs /\
  (forall v, v ∈ vs <-> has_col column df = true /\ exists r, r ∈ rows df /\ f r = Some v) /\
  (has_col column df = false -> vs = []).
Proof.
  cbv zeta. unfold get_unique_values.
  destruct (has_col column df); cbn [negb].
  2:{ split; [constructor|]. split; [constructor|]. split; [|reflexivity].
      intros v. rewrite elem_of_nil. split; [tauto | intros [H _]; discriminate H]. }
  assert (NoDup (unique (dropna (map f (rows df))))) as Hnd.
  { unfold unique.
    pose proof (drop_duplicates_first_NoDup (@id string) [] (dropna (map f (rows df))))
      as H. rewrite List.map_id in H. exact H. }
  pose proof (str_sorted_strict _ Hnd) as Hs.
  assert (forall v, v ∈ sorted (unique (dropna (map f (rows df)))) <->
                    exists r, r ∈ rows df /\ f r = Some v) as Hel.
  { intros v. rewrite str_sorted_elem. unfold unique.
    pose proof (drop_duplicates_first_elem (@id string) [] (dropna (map f (rows df))) v)
      as H. rewrite !List.map_id in H. rewrite H, elem_of_dropna, elem_of_map.
    split.
    - intros [(r & Hr & Hin) _]. eauto.
    - intros (r & Hin & Hr). split; [eauto | apply not_elem_of_nil]. }
  split; [exact Hs|]. split; [|split; [|discriminate]].
  - clear Hel Hnd. induction Hs as [|x l Hs IH Hx]; constructor; [|exact IH].
    intros Hin. rewrite list.Forall_forall in Hx. specialize (Hx x Hin).
    rewrite string_compare_refl in Hx. discriminate Hx.
  - intros v. rewrite Hel. tauto.
Qed.

End UniqueValuesFacts.

Section DepotOptions.
Import Filters Session UniqueValues.
Context {Pattern : Type}.
Variable re_compile : string -> option Pattern.
Variable re_search : Pattern -> string -> bool.

(** X20: a depot selection made among the options that
    [get_unique_values] offers for ["Depósito"] never empties the view:
    with that selection as the only filter, [apply_filters] returns,
    reports the selection, and keeps at least one record; the records it
    keeps are those whose depot is selected. *)
Theorem depot_options_select_records (df : DataFrame Row) (sel : list string) :
  sel <> [] ->
  (forall v, v ∈ sel -> v ∈ get_unique_values df "Depósito" Deposito) ->
  exists out,
    apply_filters re_compile re_search (set_depot_filter sel initial_filter_state)
      df "all"
    = Some (out, ["Depot: " +:+ join ", " sel]) /\
    rows out <> [] /\
    forall r, r ∈ rows out <->
      r ∈ rows df /\ exists d, Deposito r = Some d /\ d ∈ sel.
Proof.
  intros Hsel Hopt.
  destruct (get_unique_values_sorted_distinct df "Depósito" Deposito)
    as (_ & _ & Hel & _). cbv zeta in Hel.
  destruct sel as [|v0 sel']; [contradiction|].
  destruct (proj1 (Hel v0) (Hopt v0 ltac:(left))) as (Hcol & r0 & Hr0 & Hd0).
  set (sel := v0 :: sel') in *.
  set (g := fun r : Row => true && bool_decide (Deposito r ∈ map Some sel)).
  assert (apply_filters re_compile re_search (set_depot_filter sel initial_filter_state)
            df "all"
          = Some ({| columns := columns df;
                     rows := filter (fun r => g r = true) (rows df) |},
                  ["Depot: " +:+ join ", " sel])) as Happ.
  { unfold apply_filters, has_filters, Filters.chart_filters, chart_step, depot_step,
      search_step, column.
    change (source_in "all" ["all"; "chart"]) with true.
    change (source_in "all" ["all"; "global"]) with true.
    cbn [set_depot_filter initial_filter_state search_query depot_filter
         status_filter_from_chart status_tempo_filter_from_chart
         problem_type_filter_from_chart truthy_opt truthy_str String.eqb negb
         andb orb mbind option_bind].
    unfold sel at 1 2. cbn [truthy_list orb negb andb]. rewrite Hcol.
    cbn [mbind option_bind fst snd app].
    rewrite bool_decide_eq_false_2 by discriminate.
    rewrite replicate_true_map, map_map, mask_and_map, select_rows_map.
    reflexivity. }
  eexists. split; [exact Happ|]. cbn [rows].
  assert (forall r, r ∈ filter (fun r => g r = true) (rows df) <->
            r ∈ rows df /\ exists d, Deposito r = Some d /\ d ∈ sel) as Hrows.
  { intros r. rewrite list_elem_of_filter. unfold g. cbn [andb].
    rewrite bool_decide_eq_true, elem_of_map. split.
    - intros [(d & Hd & Hin) Hr]. eauto.
    - intros [Hr (d & Hd & Hin)]. eauto. }
  split; [|exact Hrows].
  intros Hnil. assert (r0 ∈ filter (fun r => g r = true) (rows df)) as Hin.
  { apply Hrows. split; [exact Hr0|]. exists v0. split; [exact Hd0 | left]. }
  rewrite Hnil in Hin. inversion Hin.
Qed.

End DepotOptions.

(** ** Timeline urgency *)

Section TimelineFacts.
Import Timeline.

Lemma set_cols_present (new cols : list string) :
  (forall c, c ∈ new -> c ∈ cols) ->
  foldl (fun cols c => set_col c cols) cols new = cols.
Proof.
  induction new as [|n new IH]; intros Hall; [reflexivity|].
  cbn [foldl]. unfold set_col at 2.
  rewrite bool_decide_eq_true_2 by (apply Hall; left).
  apply IH. intros c Hc. apply Hall. right. exact Hc.
Qed.

Lemma timeline_level_of_days (has_exp : bool) (hoje : Timestamp) (r : TimelineRow)
    (d : Z) :
  Dias_ate_Vencimento (status_timeline_row has_exp hoje r) = Some d ->
  Urgency_Level (status_timeline_row has_exp hoje r)
  = Some (if bool_decide (d < 0) then 1
          else if bool_decide (d <= 7) then 2
          else if bool_decide (d <= 30) then 3 else 4).
Proof.
  unfold status_timeline_row. destruct has_exp; [|discriminate].
  destruct (Expiration_Date r) as [e|]; [|discriminate].
  cbn [StatusTempo.dias_entre with_status Dias_ate_Vencimento Urgency_Level].
  intros [= <-]. unfold conditions, cell_lt, cell_le, cell_gt.
  cbn [isna np_select urgency_choices].
  repeat case_bool_decide; try lia; reflexivity.
Qed.

(** X21: the urgency level follows the days until expiration.  Of two
    dated records of the frame returned by [calcular_status_timeline], the
    one with fewer days until expiration never has the higher level, and
    both levels lie between 1 and 4; ordering by level therefore never
    places a record before one that expires sooner in a lower band. *)
Theorem timeline_urgency_monotone (df : DataFrame TimelineRow) (hoje : Timestamp)
    (i j : nat) (r1 r2 : TimelineRow) (d1 d2 : Z) :
  rows (calcular_status_timeline df hoje) !! i = Some r1 ->
  rows (calcular_status_timeline df hoje) !! j = Some r2 ->
  Dias_ate_Vencimento r1 = Some d1 ->
  Dias_ate_Vencimento r2 = Some d2 ->
  d1 <= d2 ->
  exists l1 l2,
    Urgency_Level r1 = Some l1 /\ Urgency_Level r2 = Some l2 /\
    1 <= l1 /\ l1 <= l2 /\ l2 <= 4.
Proof.
  rewrite !rows_calcular_status_timeline.
  destruct (rows df !! i) as [x1|]; [|discriminate].
  destruct (rows df !! j) as [x2|]; [|discriminate].
  intros [= <-] [= <-] H1 H2 Hle.
  rewrite (timeline_level_of_days _ _ _ _ H1), (timeline_level_of_days _ _ _ _ H2).
  eexists _, _. split; [reflexivity|]. split; [reflexivity|].
  repeat case_bool_decide; lia.
Qed.

(** X22: [calcular_status_timeline] is idempotent: applied, with the same
    date, to the frame it returned, it returns that frame again. *)
Theorem calcular_status_timeline_idempotent (df : DataFrame TimelineRow)
    (hoje : Timestamp) :
  calcular_status_timeline (calcular_status_timeline df hoje) hoje
  = calcular_status_timeline df hoje.
Proof.
  transitivity {| columns := columns (calcular_status_timeline df hoje);
                  rows := rows (calcular_status_timeline df hoje) |};
    [|reflexivity].
  unfold calcular_status_timeline at 1. f_equal.
  - apply set_cols_present. intros c Hc. cbn [columns calcular_status_timeline].
    apply elem_of_set_cols. left. exact Hc.
  - assert (has_col "Expiration Date" (calcular_status_timeline df hoje)
            = has_col "Expiration Date" df) as ->.
    { unfold calcular_status_timeline. rewrite has_col_set_cols.
      unfold has_col. apply bool_decide_ext. split; [|auto].
      intros [H|H]; [|exact H]. unfold new_columns in H.
      repeat (apply elem_of_cons in H as [H|H]; [discriminate H|]). inversion H. }
    cbn [rows calcular_status_timeline]. rewrite map_map. apply map_ext.
    intros r. unfold status_timeline_row.
    destruct (has_col "Expiration Date" df); reflexivity.
Qed.

End TimelineFacts.

(** ** Summary sheet of the export *)

Section ResumoFacts.
Import ExpiryCalc Resumo.
Variable to_timedelta_days : Q -> option Z.

Lemma count_eq_partition4 (f : Row -> option string) (a b c d : string) (l : list Row) :
  a <> b -> a <> c -> a <> d -> b <> c -> b <> d -> c <> d ->
  (forall r, r ∈ l -> f r = Some a \/ f r = Some b \/ f r = Some c \/ f r = Some d) ->
  KPIs.count_eq f a l + KPIs.count_eq f b l + KPIs.count_eq f c l + KPIs.count_eq f d l
  = Z.of_nat (length l).
Proof.
  intros Hab Hac Had Hbc Hbd Hcd. unfold KPIs.count_eq.
  induction l as [|r l IH]; intros Hall; [reflexivity|].
  assert (forall r', r' ∈ l ->
            f r' = Some a \/ f r' = Some b \/ f r' = Some c \/ f r' = Some d) as Hl
    by (intros r' Hr'; apply Hall; right; exact Hr').
  specialize (IH Hl).
  rewrite !filter_cons. cbn [length]. rewrite Nat2Z.inj_succ, <- IH.
  destruct (Hall r ltac:(left)) as [E|[E|[E|E]]]; rewrite E;
    repeat match goal with
           | |- context [decide (Some ?x = Some ?y)] =>
               first [ rewrite (decide_True (P := Some x = Some y)) by reflexivity
                     | rewrite (decide_False (P := Some x = Some y)) by congruence ]
           end;
    cbn [length]; lia.
Qed.

Lemma status_of_label (p : option Q) (lb la : Q) :
  StatusPercentual.status_of p lb la ∈
    [StatusPercentual.DENTRO_DO_ESPERADO; StatusPercentual.ATENCAO;
     StatusPercentual.FORA_DO_ESPERADO; StatusPercentual.SEM_VALIDADE].
Proof.
  unfold StatusPercentual.status_of.
  repeat match goal with
         | |- context [if ?c then _ else _] => destruct c
         end; repeat first [left | right].
Qed.

(** X23: the counts of the export sheet "Resumo" add up.  For any
    selection of records of the processed frame that keeps its columns
    the audit report is produced.  The counts are produced exactly when
    the columns ["Material"] and ["Quantidade"], which the timeline sheet
    written before aggregates when some record has an analysis date, are
    there in that case; otherwise the export fails.  When they are
    produced, the four percentual status counts sum to the number of
    items, the four temporal status counts sum to the number of items,
    and the number of items with a problem is the number of flagged
    records, at most the number of items. *)
Theorem resumo_counts_add_up (df df' d : DataFrame Row) (hoje : Timestamp) (lb la : Q) :
  processar to_timedelta_days df hoje lb la = Some df' ->
  (forall c, c ∈ columns df' -> c ∈ columns d) ->
  (forall r, r ∈ rows d -> r ∈ rows df') ->
  let dated := exists r, r ∈ rows d /\ Venc_Analise r <> None in
  let aggregated := has_col "Material" d = true /\ has_col "Quantidade" d = true in
  exists audit,
    Auditoria.gerar_auditoria d = Some audit /\
    (dated -> ~ aggregated -> resumo d audit = None) /\
    ((dated -> aggregated) ->
     exists v,
       resumo d audit = Some v /\
       total_de_itens v = Z.of_nat (length (rows d)) /\
       dentro_do_esperado v + atencao v + fora_do_esperado v + sem_validade v
         = total_de_itens v /\
       critico_tempo v + atencao_tempo v + bom_tempo v + sem_validade_tempo v
         = total_de_itens v /\
       itens_com_problema v
         = Z.of_nat (length (filter (fun r => Tem_Problema r = Some true) (rows d))) /\
       0 <= itens_com_problema v <= total_de_itens v).
Proof.
  intros Hdf' Hcols Hsel dated aggregated.
  assert (forall c, c ∈ Divergencias.new_columns ++ StatusPercentual.new_columns ++
                      StatusTempo.new_columns ++ ExpiryCalc.new_columns ->
                    has_col c d = true) as Hhas.
  { intros c Hc. apply bool_decide_eq_true, Hcols.
    apply (processar_columns to_timedelta_days df df' hoje lb la c Hdf').
    rewrite !elem_of_app in Hc. tauto. }
  assert (forall c, bool_decide
            (c ∈ Divergencias.new_columns ++ StatusPercentual.new_columns ++
                 StatusTempo.new_columns ++ ExpiryCalc.new_columns) = true ->
          has_col c d = true) as Hhas'
    by (intros c Hc; apply Hhas; exact (bool_decide_eq_true_1 _ Hc)).
  pose proof (fun r Hr => processar_row_of to_timedelta_days df df' hoje lb la r Hdf'
                            (Hsel r Hr)) as Hrow.
  assert (Auditoria.problem_rows d
          = Some (filter (fun r => Tem_Problema r = Some true) (rows d))) as Hprob.
  { unfold Auditoria.problem_rows. rewrite (Hhas' "Tem_Problema" eq_refl).
    assert (forallb (fun r => notna (Tem_Problema r)) (rows d) = true) as ->;
      [|reflexivity].
    apply forallb_forall. intros r Hr%list_elem_of_In.
    destruct (Hrow r Hr) as (_ & [b ->] & _). reflexivity. }
  assert (exists audit, Auditoria.gerar_auditoria d = Some audit /\
            length (rows audit)
            = length (filter (fun r => Tem_Problema r = Some true) (rows d)))
    as (audit & Haudit & Hlen).
  { unfold Auditoria.gerar_auditoria. rewrite Hprob. cbn [mbind option_bind].
    destruct (filter _ (rows d)) as [|p l]; eexists; (split; [reflexivity|]);
      cbn [rows]; [reflexivity | apply length_map_rows]. }
  assert (filter (fun r => Venc_Analise r <> None) (rows d) <> [] <-> dated) as Hdated.
  { unfold dated. split.
    - destruct (filter (fun r => Venc_Analise r <> None) (rows d)) as [|p l] eqn:E; [intros H; exfalso; apply H; reflexivity|].
      intros _.
      assert (p ∈ filter (fun r => Venc_Analise r <> None) (rows d)) as Hin
        by (rewrite E; left).
      apply list_elem_of_filter in Hin as [Hp Hin]. exists p. split; assumption.
    - intros (r & Hr & Hv) E.
      assert (r ∈ filter (fun r => Venc_Analise r <> None) (rows d)) as Hin
        by (apply list_elem_of_filter; auto).
      rewrite E in Hin. inversion Hin. }
  exists audit. split; [exact Haudit|]. split.
  - intros Hd Hagg. unfold resumo. rewrite (Hhas' "Venc_Analise" eq_refl).
    apply Hdated in Hd. cbv zeta.
    destruct (filter (fun r => Venc_Analise r <> None) (rows d)) as [|p l]; [exfalso; apply Hd; reflexivity|].
    destruct (has_col "Material" d) eqn:Em, (has_col "Quantidade" d) eqn:Eq;
      try reflexivity.
    exfalso. apply Hagg. split; reflexivity.
  - intros Hagg. eexists. split.
    + unfold resumo. rewrite (Hhas' "Venc_Analise" eq_refl),
        (Hhas' "Status" eq_refl), (Hhas' "Status_Tempo" eq_refl). cbv zeta.
      destruct (filter (fun r => Venc_Analise r <> None) (rows d)) as [|p l] eqn:E; [reflexivity|].
      destruct Hagg as [-> ->]; [|reflexivity].
      apply Hdated. discriminate.
    + cbn [total_de_itens dentro_do_esperado atencao fora_do_esperado sem_validade
           critico_tempo atencao_tempo bom_tempo sem_validade_tempo itens_com_problema].
      split; [reflexivity|]. split; [|split; [|split]].
      * apply count_eq_partition4; try discriminate.
        intros r Hr. destruct (Hrow r Hr) as (_ & _ & _ & Hs & _). rewrite Hs.
        pose proof (status_of_label (Pct_Restante r) lb la) as Hl.
        repeat (apply elem_of_cons in Hl as [->|Hl]; [tauto|]). inversion Hl.
      * apply count_eq_partition4; try discriminate.
        intros r Hr. destruct (Hrow r Hr) as ((t & -> & Ht) & _).
        unfold StatusTempo.choices in Ht.
        repeat (apply elem_of_cons in Ht as [->|Ht]; [tauto|]). inversion Ht.
      * rewrite Hlen. reflexivity.
      * rewrite Hlen. split; [lia|]. apply inj_le, filter_length_le.
Qed.

End ResumoFacts.

(** ** Thresholds of the sidebar *)

Section LimiaresFacts.
Import StatusPercentual.
Local Open Scope Q_scope.

(** X24: the thresholds that leave the validation of the sidebar are
    ordered, so the percentual classification they drive is a partition
    into three bands.  For a positive [limiar_bom] and any
    [limiar_atencao], with [la] the validated attention threshold, [la] is
    below [limiar_bom] and equal to [limiar_atencao] when that already
    was; and every record of the frame returned by
    [calcular_status_percentual] for these thresholds is "Dentro do
    esperado" from [limiar_bom] up, "Atenção" from [la] up to
    [limiar_bom], and "Fora do esperado" below [la]. *)
Theorem sidebar_thresholds_classify (limiar_bom limiar_atencao : Z)
    (df df' : DataFrame Row) (hoje : Timestamp) (i : nat) (r' : Row) :
  (0 < limiar_bom)%Z ->
  let la := Limiares.validar limiar_bom limiar_atencao in
  calcular_status_percentual df hoje (inject_Z limiar_bom) (inject_Z la) = Some df' ->
  rows df' !! i = Some r' ->
  (la < limiar_bom)%Z /\
  ((limiar_atencao < limiar_bom)%Z -> la = limiar_atencao) /\
  match Pct_Restante r' with
  | None => Status r' = Some SEM_VALIDADE
  | Some p =>
      (inject_Z limiar_bom <= p -> Status r' = Some DENTRO_DO_ESPERADO) /\
      (inject_Z la <= p < inject_Z limiar_bom -> Status r' = Some ATENCAO) /\
      (p < inject_Z la -> Status r' = Some FORA_DO_ESPERADO)
  end.
Proof.
  intros Hpos la Hdf' Hr'.
  assert ((la < limiar_bom)%Z) as Hlt.
  { subst la. unfold Limiares.validar. case_bool_decide; lia. }
  split; [exact Hlt|]. split.
  { intros H. subst la. unfold Limiares.validar. case_bool_decide; [lia|reflexivity]. }
  destruct (calcular_status_percentual_inv _ _ _ _ _ Hdf') as [Hrows _].
  rewrite Hrows, lookup_map in Hr'.
  destruct (rows df !! i) as [r|]; [|discriminate Hr'].
  injection Hr' as <-. unfold status_percentual_row; cbn [Pct_Restante Status].
  assert (inject_Z la < inject_Z limiar_bom) as HltQ by (rewrite <- Zlt_Qlt; exact Hlt).
  destruct (status_of_cases (inject_Z limiar_bom) (inject_Z la) HltQ) as [Hnone Hsome].
  destruct (pct_restante r) as [p|].
  - destruct (Hsome p) as (H1 & H2 & H3).
    split; [|split]; intros H; f_equal; auto.
  - rewrite Hnone. reflexivity.
Qed.

End LimiaresFacts.

(** ** Post-processing of the exported sheets *)

Section PlanilhaFacts.
Import Planilha.

Lemma delete_cols_right (idx : nat) (ws : Worksheet) (r c : nat) :
  (idx <= c)%nat -> delete_cols idx ws r c = ws r (S c).
Proof.
  intros H. unfold delete_cols. destruct (Nat.ltb_spec c idx); [lia | reflexivity].
Qed.

(** X25: deleting the listed columns one by one, from the right, removes
    exactly those columns.  After [tratar_planilha_mb51] the first nine
    columns of every row are the former columns A, G, H, I, J, K, L, O and
    V, which are the nine columns [carregar_dados] reads; after
    [tratar_planilha_sq00] the first seven columns are unchanged; after
    [tratar_planilha_venc] the first nine columns are the former columns
    A to G, L and M.  Columns further right move left by the number of
    deleted columns. *)
Theorem tratar_planilha_keeps_columns (ws : Worksheet) (r : nat) :
  (map (tratar_planilha_mb51 ws r) [1; 2; 3; 4; 5; 6; 7; 8; 9]%nat
   = map (ws r) [1; 7; 8; 9; 10; 11; 12; 15; 22]%nat /\
   forall c, (10 <= c)%nat -> tratar_planilha_mb51 ws r c = ws r (c + 18)%nat) /\
  (map (tratar_planilha_sq00 ws r) [1; 2; 3; 4; 5; 6; 7]%nat
   = map (ws r) [1; 2; 3; 4; 5; 6; 7]%nat /\
   forall c, (8 <= c)%nat -> tratar_planilha_sq00 ws r c = ws r (c + 8)%nat) /\
  (map (tratar_planilha_venc ws r) [1; 2; 3; 4; 5; 6; 7; 8; 9]%nat
   = map (ws r) [1; 2; 3; 4; 5; 6; 7; 12; 13]%nat /\
   forall c, (10 <= c)%nat -> tratar_planilha_venc ws r c = ws r (c + 6)%nat).
Proof.
  split; [|split]; (split; [reflexivity|]); intros c Hc.
  - assert (tratar_planilha_mb51 ws
            = foldl (fun w idx => delete_cols idx w) ws
                [27; 26; 25; 24; 23; 21; 20; 19; 18; 17; 16; 14; 13; 6; 5; 4; 3; 2]%nat)
      as -> by reflexivity.
    cbn [foldl]. repeat (rewrite delete_cols_right by lia). f_equal. lia.
  - assert (tratar_planilha_sq00 ws
            = foldl (fun w idx => delete_cols idx w) ws
                [15; 14; 13; 12; 11; 10; 9; 8]%nat) as -> by reflexivity.
    cbn [foldl]. repeat (rewrite delete_cols_right by lia). f_equal. lia.
  - assert (tratar_planilha_venc ws
            = foldl (fun w idx => delete_cols idx w) ws
                [15; 14; 11; 10; 9; 8]%nat) as -> by reflexivity.
    cbn [foldl]. repeat (rewrite delete_cols_right by lia). f_equal. lia.
Qed.

End PlanilhaFacts.

(** ** Further witnesses on sample data *)

Lemma vencimento_esperado_defined_witness :
  exists df1 r',
    ExpiryCalc.calcular_vencimento_esperado to_timedelta_floor df_loaded = Some df1 /\
    rows df1 !! 0%nat = Some r' /\
    Dias_Validade r' = Parser.parse_tempo_validade_to_days (Tempo_de_Validade r') /\
    (Venc_Esperado r' <> None <->
       Data_de_entrada r' <> None /\ exists d, Dias_Validade r' = Some d /\ (0 < d)%Q).
Proof.
  destruct (ExpiryCalc.calcular_vencimento_esperado to_timedelta_floor df_loaded)
    as [df1|] eqn:E; [|vm_compute in E; discriminate E].
  destruct (rows df1 !! 0%nat) as [r'|] eqn:Er;
    [|vm_compute in E; injection E as <-; vm_compute in Er; discriminate Er].
  destruct (vencimento_esperado_defined to_timedelta_floor df_loaded df1 0%nat r' E Er)
    as (H1 & H2 & _).
  exists df1, r'. split; [reflexivity|]. split; [exact Er|].
  split; [exact H1 | exact H2].
Defined.

Lemma processar_columns_present_witness :
  ExpiryCalc.calcular_vencimento_esperado to_timedelta_floor df_out_of_range = None /\
  forall df',
    ExpiryCalc.processar to_timedelta_floor df_loaded hoje_sample 90 50 = Some df' ->
    length (rows df') = length (rows df_loaded).
Proof.
  split.
  - destruct (processar_columns_present to_timedelta_floor df_out_of_range
                hoje_sample 90 50) as ((_ & Hfail) & _).
    apply Hfail.
    exists (Loader.integrated_row (mb51_reagente (date 2024 1 1))
              (Some (date 2024 2 1)) (Some "300 anos")),
      (date 2024 1 1), (inject_Z 300 * 365)%Q.
    split; [left|]. split; [reflexivity|]. split; [vm_compute; reflexivity|].
    split; [reflexivity|]. left. vm_compute. reflexivity.
  - destruct (processar_columns_present to_timedelta_floor df_loaded
                hoje_sample 90 50) as (_ & _ & Hlen).
    exact Hlen.
Defined.

Lemma processar_conformance_problem_witness :
  exists r',
    rows df_processed !! 0%nat = Some r' /\
    Pct_Restante r' <> None /\
    Tempo_de_Validade r' <> None /\ Venc_Esperado r' <> None /\
    Tipo_Problema r' = Some Divergencias.MATERIAL_VENCIDO.
Proof.
  eexists. split; [vm_compute; reflexivity|]. split; [vm_compute; discriminate|].
  destruct (processar_conformance_problem to_timedelta_floor df_loaded hoje_sample
              90 50 df_processed 0%nat _
              ltac:(vm_compute; reflexivity) ltac:(vm_compute; reflexivity)
              ltac:(vm_compute; discriminate))
    as ((Ht & _ & _ & He) & Htipo).
  split; [exact Ht|]. split; [exact He|]. rewrite Htipo. vm_compute. reflexivity.
Defined.

Lemma processar_sentinel_2070_witness :
  exists df' r',
    ExpiryCalc.processar to_timedelta_floor df_sentinel hoje_sample 90 50 = Some df' /\
    rows df' !! 0%nat = Some r' /\
    Data_de_vencimento r' = None /\ Venc_Analise r' = None /\
    Status_Tempo r' = Some StatusTempo.SEM_VALIDADE /\
    Status r' = Some StatusPercentual.SEM_VALIDADE.
Proof.
  destruct (ExpiryCalc.processar to_timedelta_floor df_sentinel hoje_sample 90 50)
    as [df'|] eqn:E; [|vm_compute in E; discriminate E].
  destruct (processar_sentinel_2070 to_timedelta_floor df_sentinel hoje_sample 90 50
              df' 0%nat _ E ltac:(vm_compute; reflexivity)
              ltac:(vm_compute; reflexivity))
    as (r' & Hr' & Hv & Hva & Hst & _ & Hs & _).
  exists df', r'. split; [reflexivity|]. split; [exact Hr'|].
  split; [exact Hv|]. split; [exact Hva|]. split; [exact Hst | exact Hs].
Defined.

Lemma status_percentual_classification_witness :
  exists df' r',
    StatusPercentual.calcular_status_percentual df_classified hoje_sample 90 50
    = Some df' /\
    rows df' !! 0%nat = Some r' /\
    Status r' = Some StatusPercentual.FORA_DO_ESPERADO.
Proof.
  eexists. eexists. split; [vm_compute; reflexivity|].
  split; [vm_compute; reflexivity|].
  pose proof (status_percentual_classification df_classified _ hoje_sample 90 50
                0%nat _ ltac:(vm_compute; reflexivity)
                ltac:(vm_compute; reflexivity) ltac:(vm_compute; reflexivity)) as H.
  cbn [Pct_Restante] in H. destruct H as (_ & _ & H). apply H. vm_compute. reflexivity.
Defined.

Lemma auditoria_of_divergencias_witness :
  exists df' audit,
    Divergencias.identificar_divergencias df_classified = Some df' /\
    Auditoria.gerar_auditoria df' = Some audit /\
    columns audit `sublist_of` Auditoria.cols_audit /\
    length (rows audit) = 1%nat /\
    columns audit = filter (fun c => c ∈ columns df') Auditoria.cols_audit.
Proof.
  destruct (auditoria_of_divergencias df_classified ltac:(vm_compute; reflexivity))
    as (df' & audit & Hdf' & Ha & Hsub & _ & Hrows & _ & _ & Hcols & _).
  exists df', audit. split; [exact Hdf'|]. split; [exact Ha|]. split; [exact Hsub|].
  assert (length (rows audit) = 1%nat) as Hlen
    by (rewrite Hrows; vm_compute in Hdf'; injection Hdf' as <-; reflexivity).
  split; [exact Hlen|]. apply Hcols. intros Hnil. rewrite Hnil in Hlen.
  discriminate Hlen.
Defined.

Lemma calcular_kpis_bounds_witness :
  exists k,
    KPIs.calcular_kpis df_processed hoje_sample 90 50 = Some k /\
    KPIs.total k = 2 /\
    KPIs.critico_desvio k + KPIs.atencao k <= KPIs.total k /\
    (0 <= KPIs.perc_critico_desvio k <= 100)%Q.
Proof.
  eexists. split; [vm_compute; reflexivity|].
  destruct (calcular_kpis_bounds df_processed hoje_sample 90 50 _
              ltac:(vm_compute; reflexivity))
    as (Ht & _ & _ & Hsum & _ & Hperc & _).
  split; [exact Ht|]. split; [exact Hsum | exact Hperc].
Defined.

Lemma calcular_kpis_counts_stored_labels_witness :
  exists k,
    KPIs.calcular_kpis df_processed (date 2025 1 1) 90 50 = Some k /\
    KPIs.atencao k = KPIs.count_eq Status StatusPercentual.ATENCAO (rows df_processed) /\
    KPIs.atencao k = 1.
Proof.
  destruct (calcular_kpis_counts_stored_labels to_timedelta_floor df_loaded df_processed
              df_processed hoje_sample (date 2025 1 1) 90 50
              ltac:(vm_compute; reflexivity) (fun c H => H) (fun r H => H))
    as (k & Hk & _ & _ & _ & Ha).
  exists k. split; [exact Hk|]. split; [exact Ha|]. rewrite Ha. vm_compute. reflexivity.
Defined.

Lemma calcular_kpis_fails_on_auditoria_witness :
  exists audit,
    Auditoria.gerar_auditoria df_processed = Some audit /\
    length (rows audit) = 2%nat /\
    KPIs.calcular_kpis audit hoje_sample 90 50 = None.
Proof.
  eexists. split; [vm_compute; reflexivity|]. split; [reflexivity|].
  apply (calcular_kpis_fails_on_auditoria df_processed). vm_compute. reflexivity.
Defined.

Lemma apply_filters_selects_exactly_witness :
  exists out descs (keep : Row -> bool),
    Filters.apply_filters literal_compile literal_search fs_three df_processed "all"
    = Some (out, descs) /\
    rows out = filter (fun r => keep r = true) (rows df_processed) /\
    forall r, keep r = true ->
      Status r = Some StatusPercentual.ATENCAO /\
      exists d, Deposito r = Some d /\ d ∈ ["D001"].
Proof.
  destruct (Filters.apply_filters literal_compile literal_search fs_three
              df_processed "all") as [[out descs]|] eqn:E;
    [|vm_compute in E; discriminate E].
  destruct (apply_filters_selects_exactly literal_compile literal_search fs_three
              df_processed out "all" descs E) as (keep & Hrows & Hkeep).
  exists out, descs, keep. split; [reflexivity|]. split; [exact Hrows|].
  intros r Hr. apply Hkeep in Hr as (Hs & _ & _ & Hd & _).
  split; [apply Hs; reflexivity | apply Hd; reflexivity].
Defined.

Lemma summary_lists_applied_filters_witness :
  exists out descs summary,
    Filters.apply_filters literal_compile literal_search fs_three df_processed "all"
    = Some (out, descs) /\
    Session.get_filter_summary session_sample = Some summary /\
    forall t, t ∈ descs -> exists cat l, (cat, l) ∈ summary /\ t ∈ l.
Proof.
  destruct (Filters.apply_filters literal_compile literal_search fs_three
              df_processed "all") as [[out descs]|] eqn:E;
    [|vm_compute in E; discriminate E].
  destruct (summary_lists_applied_filters literal_compile literal_search
              session_sample fs_three df_processed out descs eq_refl E)
    as (summary & Hsum & Hin & _).
  exists out, descs, summary. split; [reflexivity|]. split; [exact Hsum | exact Hin].
Defined.

Lemma no_active_filters_identity_witness :
  Session.has_active_filters (Session.clear_all_filters session_sample) = Some false /\
  Session.get_filter_summary (Session.clear_all_filters session_sample) = Some [] /\
  Filters.apply_filters literal_compile literal_search Filters.initial_filter_state
    df_processed "all" = Some (df_processed, []).
Proof.
  split; [vm_compute; reflexivity|].
  destruct (no_active_filters_identity literal_compile literal_search
              (Session.clear_all_filters session_sample) Filters.initial_filter_state
              eq_refl ltac:(vm_compute; reflexivity)) as [Hsum Happ].
  split; [exact Hsum | apply Happ].
Defined.

Lemma clear_specific_filter_removes_entry_witness :
  exists s' summary',
    Session.clear_specific_filter "Global Filters"
      (Session.filter_key_of "Search: 'reag'") session_sample = Some s' /\
    Session.get_filter_summary s' = Some summary' /\
    forall cat' u,
      (exists l', (cat', l') ∈ summary' /\ u ∈ l') <->
      (exists l', (cat', l')
                  ∈ [("Global Filters", ["Search: 'reag'"; "Depot: D001"]);
                     ("Chart Filters", ["Status: " +:+ StatusPercentual.ATENCAO])] /\
                  u ∈ l') /\ u <> "Search: 'reag'".
Proof.
  apply (clear_specific_filter_removes_entry session_sample
           [("Global Filters", ["Search: 'reag'"; "Depot: D001"]);
            ("Chart Filters", ["Status: " +:+ StatusPercentual.ATENCAO])]
           "Global Filters" "Search: 'reag'" ["Search: 'reag'"; "Depot: D001"]).
  - vm_compute. reflexivity.
  - left.
  - left.
Defined.

Lemma clear_specific_filter_stays_cleared_witness :
  exists s',
    Session.initialize_filter_state session_sample = session_sample /\
    Session.clear_specific_filter "Chart Filters" "Status" session_sample = Some s' /\
    Session.initialize_filter_state s' = s'.
Proof.
  eexists. split; [vm_compute; reflexivity|]. split; [vm_compute; reflexivity|].
  apply (clear_specific_filter_stays_cleared session_sample _ "Chart Filters" "Status");
    vm_compute; reflexivity.
Defined.

Lemma badge_count_matches_chart_filter_witness :
  exists out,
    Filters.apply_filters literal_compile literal_search
      (Session.set_status_filter_from_chart (Some StatusPercentual.ATENCAO)
         Filters.initial_filter_state) df_processed "all"
    = Some (out, ["Status: " +:+ StatusPercentual.ATENCAO]) /\
    Z.of_nat (length (rows out))
    = Session.get_filter_badge_count df_processed "status" StatusPercentual.ATENCAO.
Proof.
  destruct (badge_count_matches_chart_filter literal_compile literal_search
              df_processed StatusPercentual.ATENCAO ltac:(discriminate)) as (H & _).
  apply H. vm_compute. reflexivity.
Defined.

Lemma integrar_row_content_witness :
  exists venc,
    rows (Loader.integrar mb51_sample sq00_sample forn_sample) !! 0%nat
    = Some (Loader.integrated_row (mb51_reagente (date 2024 1 1)) venc
              (Some "100 dias")) /\
    venc = Some (date 2024 3 1).
Proof.
  destruct (integrar_row_content mb51_sample sq00_sample forn_sample 0%nat
              (mb51_reagente (date 2024 1 1)) ltac:(vm_compute; reflexivity))
    as (venc & Hrow & _).
  exists venc. split; [exact Hrow|].
  vm_compute in Hrow. injection Hrow as <-. reflexivity.
Defined.

Lemma depot_options_select_records_witness :
  exists out,
    Filters.apply_filters literal_compile literal_search
      (Session.set_depot_filter ["D001"] Filters.initial_filter_state) df_processed "all"
    = Some (out, ["Depot: D001"]) /\
    rows out <> [].
Proof.
  destruct (depot_options_select_records literal_compile literal_search df_processed
              ["D001"] ltac:(discriminate)) as (out & Happ & Hne & _).
  - intros v Hv. apply list_elem_of_singleton in Hv. subst v.
    apply (bool_decide_unpack _). vm_compute. exact I.
  - exists out. split; [exact Happ | exact Hne].
Defined.

Lemma timeline_urgency_monotone_witness :
  exists r1 r2,
    rows (Timeline.calcular_status_timeline df_timeline_two hoje_sample) !! 0%nat
    = Some r1 /\
    rows (Timeline.calcular_status_timeline df_timeline_two hoje_sample) !! 1%nat
    = Some r2 /\
    Timeline.Dias_ate_Vencimento r1 = Some 2 /\
    Timeline.Dias_ate_Vencimento r2 = Some 44 /\
    exists l1 l2,
      Timeline.Urgency_Level r1 = Some l1 /\ Timeline.Urgency_Level r2 = Some l2 /\
      1 <= l1 /\ l1 <= l2 /\ l2 <= 4.
Proof.
  eexists. eexists. split; [vm_compute; reflexivity|].
  split; [vm_compute; reflexivity|]. split; [reflexivity|]. split; [reflexivity|].
  apply (timeline_urgency_monotone df_timeline_two hoje_sample 0%nat 1%nat _ _ 2 44);
    try (vm_compute; reflexivity).
  lia.
Defined.

Lemma resumo_counts_add_up_witness :
  exists audit v,
    Auditoria.gerar_auditoria df_processed = Some audit /\
    Resumo.resumo df_processed audit = Some v /\
    Resumo.dentro_do_esperado v + Resumo.atencao v + Resumo.fora_do_esperado v
      + Resumo.sem_validade v = Resumo.total_de_itens v /\
    Resumo.critico_tempo v + Resumo.atencao_tempo v + Resumo.bom_tempo v
      + Resumo.sem_validade_tempo v = Resumo.total_de_itens v.
Proof.
  destruct (resumo_counts_add_up to_timedelta_floor df_loaded df_processed df_processed
              hoje_sample 90 50 ltac:(vm_compute; reflexivity)
              (fun c H => H) (fun r H => H))
    as (audit & Ha & _ & Hv).
  destruct Hv as (v & Hv & _ & H1 & H2 & _);
    [intros _; split; vm_compute; reflexivity|].
  exists audit, v. split; [exact Ha|]. split; [exact Hv|]. split; [exact H1 | exact H2].
Defined.

Lemma sidebar_thresholds_classify_witness :
  exists df' r',
    StatusPercentual.calcular_status_percentual df_classified hoje_sample
      (inject_Z 90) (inject_Z (Limiares.validar 90 95)) = Some df' /\
    rows df' !! 0%nat = Some r' /\
    Limiares.validar 90 95 = 60 /\
    Limiares.validar 90 95 < 90 /\
    Status r' = Some StatusPercentual.FORA_DO_ESPERADO.
Proof.
  eexists. eexists. split; [vm_compute; reflexivity|].
  split; [vm_compute; reflexivity|]. split; [reflexivity|].
  pose proof (sidebar_thresholds_classify 90 95 df_classified _ hoje_sample 0%nat _
                ltac:(lia) ltac:(vm_compute; reflexivity)
                ltac:(vm_compute; reflexivity)) as (Hlt & _ & H).
  split; [exact Hlt|].
  cbn [Pct_Restante] in H. destruct H as (_ & _ & H). apply H. vm_compute. reflexivity.
Defined.
